(** * Lambda handlers of the copilotSkills examples: a shallow embedding

    The five Python handlers under [aws_terraform/base_elements] are
    embedded as Rocq functions over JSON-like values:

    - [Api]: examples/lambda-with-layer/function/api.py
    - [App]: examples/lambda-with-layer/function/app.py
    - [DialogHook]: lex_bot/examples/lambda-integration/lambda/dialog_hook.py
    - [FulfillmentHook]: lex_bot/examples/lambda-integration/lambda/fulfillment_hook.py
    - [BookingFulfillment]: lex_bot/examples/booking-bot-simple/lambda/booking_fulfillment.py

    Conventions of the embedding.

    - An event is a [pyval]: what the Lambda runtime hands to the handler
      after decoding the JSON payload.  Dictionaries keep insertion order,
      as [json.dumps] prints them in that order.
    - A Python [str] is a Rocq [string] holding its UTF-8 encoding.  The
      classification of characters (letter case, digits, white space) is
      the ASCII one: [int_of_str], [strptime_ymd] and [isalnum] are what
      Python computes on strings of ASCII characters.  Python also reads
      the other Unicode decimal digits, letters and spaces, so a
      statement that relies on one of these rejecting a string assumes
      [ascii_only].
    - A Python [float] is an IEEE 754 binary64 number, [spec_float] with
      precision 53 and maximal exponent 1024.
    - A Python expression that may raise is a [result]; [try]/[except] is
      [try_except].
    - Everything a handler reads besides its arguments (clock, random
      draws, environment variables, remote services) comes from a [World].
    - Calls to [logger] are left out: on decoded JSON they cannot raise
      and they produce no part of the response.  The only exception is the
      first line of [Api.handler], whose argument may raise. *)

From Stdlib Require Import ZArith List String Ascii Bool Lia SpecFloat.
Import ListNotations.

Local Open Scope string_scope.
Local Open Scope Z_scope.

(** ** Exceptions and results *)

Inductive exc_class :=
| Exception          (* used only as the class named by an [except] clause *)
| KeyError
| IndexError
| TypeError
| AttributeError
| ValueError
| JSONDecodeError    (* a subclass of ValueError *)
| OverflowError
| NameError
| ImportError
| RequestException.

Record exn := mk_exn { exn_class : exc_class; exn_msg : string }.

Inductive result (A : Type) :=
| Ok (a : A)
| Raise (e : exn).

Arguments Ok {A} a.
Arguments Raise {A} e.

Definition bind {A B} (m : result A) (k : A -> result B) : result B :=
  match m with
  | Ok a => k a
  | Raise e => Raise e
  end.

Notation "x <- m ;; k" := (bind m (fun x => k))
  (at level 61, m at next level, right associativity).

Definition raise {A} (c : exc_class) (msg : string) : result A :=
  Raise (mk_exn c msg).

Definition exc_class_eqb (a b : exc_class) : bool :=
  match a, b with
  | Exception, Exception | KeyError, KeyError | IndexError, IndexError
  | TypeError, TypeError | AttributeError, AttributeError
  | ValueError, ValueError | JSONDecodeError, JSONDecodeError
  | OverflowError, OverflowError | NameError, NameError
  | ImportError, ImportError | RequestException, RequestException => true
  | _, _ => false
  end.

(** [isinstance(e, c)] for the classes above. *)
Definition isinstance (e : exn) (c : exc_class) : bool :=
  match c with
  | Exception => true
  | ValueError =>
      match exn_class e with
      | ValueError | JSONDecodeError => true
      | _ => false
      end
  | _ => exc_class_eqb (exn_class e) c
  end.

(** The first clause whose class matches handles the exception; an
    exception raised by a handler is not offered to the later clauses. *)
Fixpoint dispatch {A} (clauses : list (exc_class * (exn -> result A)))
  (e : exn) : result A :=
  match clauses with
  | [] => Raise e
  | (c, h) :: rest => if isinstance e c then h e else dispatch rest e
  end.

Definition try_except {A} (body : result A)
  (clauses : list (exc_class * (exn -> result A))) : result A :=
  match body with
  | Ok a => Ok a
  | Raise e => dispatch clauses e
  end.

(** ** Characters and strings *)

Definition chr (n : Z) : ascii := ascii_of_nat (Z.to_nat n).
Definition ord (c : ascii) : Z := Z.of_nat (nat_of_ascii c).

Definition dquote : string := String (chr 34) "".
Definition newline : string := String (chr 10) "".

Definition is_digit (c : ascii) : bool := (48 <=? ord c) && (ord c <=? 57).
Definition is_upper (c : ascii) : bool := (65 <=? ord c) && (ord c <=? 90).
Definition is_lower (c : ascii) : bool := (97 <=? ord c) && (ord c <=? 122).

Definition lower_char (c : ascii) : ascii :=
  if is_upper c then chr (ord c + 32) else c.
Definition upper_char (c : ascii) : ascii :=
  if is_lower c then chr (ord c - 32) else c.

Fixpoint map_string (f : ascii -> ascii) (s : string) : string :=
  match s with
  | EmptyString => EmptyString
  | String c r => String (f c) (map_string f r)
  end.

Definition lower (s : string) : string := map_string lower_char s.
Definition upper (s : string) : string := map_string upper_char s.

Fixpoint string_in (s : string) (l : list string) : bool :=
  match l with
  | [] => false
  | x :: r => String.eqb s x || string_in s r
  end.

(** [needle in hay] for two strings. *)
Fixpoint contains (needle hay : string) : bool :=
  prefix needle hay ||
  match hay with
  | EmptyString => false
  | String _ r => contains needle r
  end.

(** The number of bytes that follow the lead byte [c] of a code point. *)
Definition continuation_bytes (c : ascii) : nat :=
  if ord c <? 192 then 0 else if ord c <? 224 then 1
  else if ord c <? 240 then 2 else 3.

(** The first [n] code points of [s]; [pending] bytes of the code point
    under way are still to be copied. *)
Fixpoint take_from (s : string) (n pending : nat) : string :=
  match s with
  | EmptyString => EmptyString
  | String c r =>
      match pending with
      | S k => String c (take_from r n k)
      | O =>
          match n with
          | O => EmptyString
          | S n' => String c (take_from r n' (continuation_bytes c))
          end
      end
  end.

(** [s[:n]] *)
Definition take (n : nat) (s : string) : string := take_from s n 0.

Fixpoint concat_sep (sep : string) (l : list string) : string :=
  match l with
  | [] => ""
  | [x] => x
  | x :: r => x ++ sep ++ concat_sep sep r
  end.

(** *** Decimal numerals *)

Definition digit_char (d : Z) : ascii := chr (48 + d).

Fixpoint digits_acc (fuel : nat) (n : Z) (acc : string) : string :=
  match fuel with
  | O => acc
  | S f =>
      let acc' := String (digit_char (n mod 10)) acc in
      if n <? 10 then acc' else digits_acc f (n / 10) acc'
  end.

(** The numeral of [n >= 0]; [n] has at most [log2 n + 1] digits. *)
Definition str_nonneg (n : Z) : string :=
  digits_acc (S (Z.to_nat (Z.log2 n))) n "".

(** [str(n)] for an [int]. *)
Definition str_int (n : Z) : string :=
  if n <? 0 then "-" ++ str_nonneg (- n) else str_nonneg n.

(** [n] printed on at least [width] digits, as [%02d] and [%04d] do. *)
Definition zero_pad (width : nat) (n : Z) : string :=
  let s := str_nonneg n in
  string_of_list_ascii (repeat "0"%char (width - String.length s)) ++ s.

Fixpoint digits_value (s : string) (acc : Z) : Z :=
  match s with
  | EmptyString => acc
  | String c r => digits_value r (10 * acc + (ord c - 48))
  end.

(** ** Python values *)

#[warnings="-register-all"]
Inductive pyval :=
| PNone
| PBool (b : bool)
| PInt (n : Z)
| PFloat (f : spec_float)
| PStr (s : string)
| PList (l : list pyval)
| PDict (d : list (string * pyval)).

Definition type_name (v : pyval) : string :=
  match v with
  | PNone => "NoneType"
  | PBool _ => "bool"
  | PInt _ => "int"
  | PFloat _ => "float"
  | PStr _ => "str"
  | PList _ => "list"
  | PDict _ => "dict"
  end.

Definition truthy (v : pyval) : bool :=
  match v with
  | PNone => false
  | PBool b => b
  | PInt n => negb (n =? 0)
  | PFloat (S754_zero _) => false
  | PFloat _ => true
  | PStr s => negb (String.eqb s "")
  | PList l => match l with [] => false | _ => true end
  | PDict d => match d with [] => false | _ => true end
  end.

(** [v == 's'] for a string literal ['s']. *)
Definition eq_str (v : pyval) (s : string) : bool :=
  match v with
  | PStr t => String.eqb t s
  | _ => false
  end.

Fixpoint assoc (k : string) (d : list (string * pyval)) : option pyval :=
  match d with
  | [] => None
  | (k', v) :: r => if String.eqb k k' then Some v else assoc k r
  end.

(** [d[k] = x] on a dictionary: an existing key keeps its place. *)
Fixpoint dict_set (k : string) (x : pyval) (d : list (string * pyval))
  : list (string * pyval) :=
  match d with
  | [] => [(k, x)]
  | (k', v) :: r =>
      if String.eqb k k' then (k', x) :: r else (k', v) :: dict_set k x r
  end.

Definition quoted (s : string) : string := "'" ++ s ++ "'".

(** [v[k]] with a string key. *)
Definition getitem (v : pyval) (k : string) : result pyval :=
  match v with
  | PDict d =>
      match assoc k d with
      | Some x => Ok x
      | None => raise KeyError (quoted k)
      end
  | PStr _ => raise TypeError "string indices must be integers, not 'str'"
  | PList _ => raise TypeError "list indices must be integers or slices, not str"
  | _ => raise TypeError (quoted (type_name v) ++ " object is not subscriptable")
  end.

(** [v[0]] *)
Definition getitem0 (v : pyval) : result pyval :=
  match v with
  | PStr EmptyString => raise IndexError "string index out of range"
  | PStr s => Ok (PStr (take 1 s))
  | PList (x :: _) => Ok x
  | PList [] => raise IndexError "list index out of range"
  | PDict _ => raise KeyError "0"
  | _ => raise TypeError (quoted (type_name v) ++ " object is not subscriptable")
  end.

Definition no_attribute {A} (v : pyval) (attr : string) : result A :=
  raise AttributeError
    (quoted (type_name v) ++ " object has no attribute " ++ quoted attr).

(** [v.get(k, default)] *)
Definition get (v : pyval) (k : string) (default : pyval) : result pyval :=
  match v with
  | PDict d =>
      match assoc k d with
      | Some x => Ok x
      | None => Ok default
      end
  | _ => no_attribute v "get"
  end.

(** [v[k] = x], giving the updated container. *)
Definition setitem (v : pyval) (k : string) (x : pyval) : result pyval :=
  match v with
  | PDict d => Ok (PDict (dict_set k x d))
  | PList _ => raise TypeError "list indices must be integers or slices, not str"
  | _ =>
      raise TypeError
        (quoted (type_name v) ++ " object does not support item assignment")
  end.

(** ['k' in v] *)
Definition py_in (k : string) (v : pyval) : result bool :=
  match v with
  | PDict d => Ok (match assoc k d with Some _ => true | None => false end)
  | PList l => Ok (existsb (fun x => eq_str x k) l)
  | PStr s => Ok (contains k s)
  | _ =>
      raise TypeError
        ("argument of type " ++ quoted (type_name v) ++ " is not iterable")
  end.

(** [v.lower()] and [v.upper()] *)
Definition py_lower (v : pyval) : result string :=
  match v with
  | PStr s => Ok (lower s)
  | _ => no_attribute v "lower"
  end.

Definition py_upper (v : pyval) : result string :=
  match v with
  | PStr s => Ok (upper s)
  | _ => no_attribute v "upper"
  end.

(** *** [int(v)]

    On a string of ASCII characters.  [int] also reads the other Unicode
    decimal digits and white space; a string that holds some is
    rejected here. *)

Definition is_space (c : ascii) : bool :=
  let n := ord c in
  ((9 <=? n) && (n <=? 13)) || (n =? 32).

Fixpoint lstrip (s : string) : string :=
  match s with
  | String c r => if is_space c then lstrip r else s
  | EmptyString => EmptyString
  end.

Fixpoint rev_string (s : string) (acc : string) : string :=
  match s with
  | EmptyString => acc
  | String c r => rev_string r (String c acc)
  end.

Definition strip (s : string) : string :=
  rev_string (lstrip (rev_string (lstrip s) "")) "".

(** Digits with single underscores between them: the value and the
    number of digits, or [None].  [after_digit] tells whether the
    previous character was a digit. *)
Fixpoint int_digits (s : string) (after_digit : bool) (acc : Z) (count : nat)
  : option (Z * nat) :=
  match s with
  | EmptyString => if after_digit then Some (acc, count) else None
  | String c r =>
      if is_digit c then int_digits r true (10 * acc + (ord c - 48)) (S count)
      else if (ord c =? 95) && after_digit then int_digits r false acc count
      else None
  end.

Definition int_max_str_digits : nat := 4300.

Definition invalid_literal {A} (s : string) : result A :=
  raise ValueError ("invalid literal for int() with base 10: " ++ quoted s).

Definition int_of_str (s : string) : result Z :=
  let t := strip s in
  let '(neg, body) :=
    match t with
    | String "-" r => (true, r)
    | String "+" r => (false, r)
    | _ => (false, t)
    end in
  match int_digits body false 0 0 with
  | None => invalid_literal s
  | Some (n, count) =>
      if Nat.ltb int_max_str_digits count
      then raise ValueError
             ("Exceeds the limit (4300 digits) for integer string conversion: value has "
                ++ str_int (Z.of_nat count)
                ++ " digits; use sys.set_int_max_str_digits() to increase the limit")
      else Ok (if neg then - n else n)
  end.

(** [int(x)] for a [float]: truncation towards zero. *)
Definition int_of_float (f : spec_float) : result Z :=
  match f with
  | S754_nan => raise ValueError "cannot convert float NaN to integer"
  | S754_infinity _ =>
      raise OverflowError "cannot convert float infinity to integer"
  | S754_zero _ => Ok 0
  | S754_finite s m e =>
      let a := if 0 <=? e then Zpos m * 2 ^ e else Zpos m / 2 ^ (- e) in
      Ok (if s then - a else a)
  end.

Definition py_int (v : pyval) : result Z :=
  match v with
  | PInt n => Ok n
  | PBool b => Ok (if b then 1 else 0)
  | PFloat f => int_of_float f
  | PStr s => int_of_str s
  | _ =>
      raise TypeError
        ("int() argument must be a string, a bytes-like object or a real number, not "
           ++ quoted (type_name v))
  end.

(** ** Floating point: binary64 *)

Definition prec : Z := 53.
Definition emax : Z := 1024.

Definition float_of_Z (n : Z) : spec_float := binary_normalize prec emax n 0 false.

(** The conversion of an [int] operand of a float operation. *)
Definition float_of_int (n : Z) : result spec_float :=
  match float_of_Z n with
  | S754_infinity _ => raise OverflowError "int too large to convert to float"
  | f => Ok f
  end.

(** The literal written [num/den] in decimal, e.g. [129.99] is
    [float_lit 12999 100]: the division of two exactly representable
    integers is correctly rounded, as the reading of a literal is. *)
Definition float_lit (num den : Z) : spec_float :=
  SFdiv prec emax (float_of_Z num) (float_of_Z den).

Definition float_mul (x y : spec_float) : spec_float := SFmul prec emax x y.
Definition float_ltb (x y : spec_float) : bool := SFltb x y.

(** [price * nights] with a float and an int. *)
Definition float_mul_int (x : spec_float) (n : Z) : result spec_float :=
  y <- float_of_int n ;; Ok (float_mul x y).

(** The integer nearest to [num/den] ([den > 0]), ties to even. *)
Definition round_half_even (num den : Z) : Z :=
  let q := num / den in
  let r := num mod den in
  match 2 * r ?= den with
  | Lt => q
  | Gt => q + 1
  | Eq => if Z.even q then q else q + 1
  end.

(** The exact value of a finite float as a fraction. *)
Definition float_fraction (f : spec_float) : Z * Z :=
  match f with
  | S754_finite s m e =>
      let a := if s then Zneg m else Zpos m in
      if 0 <=? e then (a * 2 ^ e, 1) else (a, 2 ^ (- e))
  | _ => (0, 1)
  end.

(** [f"{x:.2f}"] *)
Definition format_2f (x : spec_float) : string :=
  match x with
  | S754_nan => "nan"
  | S754_infinity s => if s then "-inf" else "inf"
  | S754_zero s => if s then "-0.00" else "0.00"
  | S754_finite s m e =>
      let '(num, den) := float_fraction (S754_finite false m e) in
      let cents := round_half_even (100 * num) den in
      (if s then "-" else "") ++ str_nonneg (cents / 100) ++ "."
        ++ zero_pad 2 (cents mod 100)
  end.

(** ** Dates *)

Record date := mk_date { year : Z; month : Z; day : Z }.

Record datetime := mk_datetime {
  dt_date : date;
  hour : Z;
  minute : Z;
  second : Z;
  microsecond : Z
}.

Definition is_leap (y : Z) : bool :=
  (y mod 4 =? 0) && (negb (y mod 100 =? 0) || (y mod 400 =? 0)).

Definition days_in_month (y m : Z) : Z :=
  if m =? 2 then (if is_leap y then 29 else 28)
  else if (m =? 4) || (m =? 6) || (m =? 9) || (m =? 11) then 30
  else 31.

Definition days_before_year (y : Z) : Z :=
  let p := y - 1 in p * 365 + p / 4 - p / 100 + p / 400.

Definition days_before_month (y m : Z) : Z :=
  match m with
  | 2 => 31 | 3 => 59 | 4 => 90 | 5 => 120 | 6 => 151 | 7 => 181
  | 8 => 212 | 9 => 243 | 10 => 273 | 11 => 304 | 12 => 334
  | _ => 0
  end
  + (if (2 <? m) && is_leap y then 1 else 0).

(** [d.toordinal()]: 1 for 0001-01-01. *)
Definition toordinal (d : date) : Z :=
  days_before_year (year d) + days_before_month (year d) (month d) + day d.

(** [date.max.toordinal()], the ordinal of 9999-12-31. *)
Definition max_ordinal : Z := 3652059.

(** [a < b] on dates compares year, month and day in that order. *)
Definition date_ltb (a b : date) : bool :=
  (year a <? year b)
  || ((year a =? year b)
      && ((month a <? month b)
          || ((month a =? month b) && (day a <? day b)))).

Definition micros_of_day (t : datetime) : Z :=
  ((hour t * 60 + minute t) * 60 + second t) * 1000000 + microsecond t.

(** A point in time as the ordinal of its day and the microsecond in that
    day; naive datetimes are ordered as these pairs are. *)
Definition timepoint : Type := Z * Z.

Definition timepoint_of (t : datetime) : timepoint :=
  (toordinal (dt_date t), micros_of_day t).

Definition midnight (d : date) : timepoint := (toordinal d, 0).

Definition timepoint_gtb (a b : timepoint) : bool :=
  (fst b <? fst a) || ((fst a =? fst b) && (snd b <? snd a)).

(** [t + timedelta(days=n)] *)
Definition add_days (t : timepoint) (n : Z) : result timepoint :=
  if (max_ordinal <? fst t + n) || (fst t + n <? 1)
  then raise OverflowError "date value out of range"
  else Ok (fst t + n, snd t).

(** *** [datetime.strptime(s, '%Y-%m-%d')]

    The format is matched as the regular expression
    [(\d\d\d\d)-(1[0-2]|0[1-9]|[1-9])-(3[01]|[12]\d|0[1-9]|[1-9]| [1-9])];
    the whole string must be consumed, and the fields must name a day
    that exists.  [\d] is taken as an ASCII digit: on a string of ASCII
    characters this is what [strptime] does, and a date written with
    other Unicode decimal digits, which [strptime] reads, is rejected
    here. *)

Definition digit_val (c : ascii) : Z := ord c - 48.

Definition in_range (lo hi : Z) (c : ascii) : bool :=
  (lo <=? digit_val c) && (digit_val c <=? hi) && is_digit c.

Definition match_year (s : string) : option (Z * string) :=
  match s with
  | String a (String b (String c (String d r))) =>
      if is_digit a && is_digit b && is_digit c && is_digit d
      then Some (((digit_val a * 10 + digit_val b) * 10 + digit_val c) * 10
                 + digit_val d, r)
      else None
  | _ => None
  end.

Definition match_dash (s : string) : option string :=
  match s with
  | String "-" r => Some r
  | _ => None
  end.

Definition match_month (s : string) : option (Z * string) :=
  match s with
  | String a r =>
      match r with
      | String b r' =>
          if (digit_val a =? 1) && is_digit a && in_range 0 2 b
          then Some (10 + digit_val b, r')
          else if (digit_val a =? 0) && is_digit a && in_range 1 9 b
          then Some (digit_val b, r')
          else if in_range 1 9 a then Some (digit_val a, r) else None
      | EmptyString => if in_range 1 9 a then Some (digit_val a, r) else None
      end
  | EmptyString => None
  end.

Definition match_day (s : string) : option (Z * string) :=
  match s with
  | String a r =>
      match r with
      | String b r' =>
          if (digit_val a =? 3) && is_digit a && in_range 0 1 b
          then Some (30 + digit_val b, r')
          else if in_range 1 2 a && is_digit b
          then Some (digit_val a * 10 + digit_val b, r')
          else if (digit_val a =? 0) && is_digit a && in_range 1 9 b
          then Some (digit_val b, r')
          else if in_range 1 9 a then Some (digit_val a, r)
          else if (ord a =? 32) && in_range 1 9 b then Some (digit_val b, r')
          else None
      | EmptyString => if in_range 1 9 a then Some (digit_val a, r) else None
      end
  | EmptyString => None
  end.

Definition match_ymd (s : string) : option (Z * Z * Z * string) :=
  match match_year s with
  | None => None
  | Some (y, s1) =>
      match match_dash s1 with
      | None => None
      | Some s2 =>
          match match_month s2 with
          | None => None
          | Some (m, s3) =>
              match match_dash s3 with
              | None => None
              | Some s4 =>
                  match match_day s4 with
                  | None => None
                  | Some (d, s5) => Some (y, m, d, s5)
                  end
              end
          end
      end
  end.

Definition strptime_ymd (s : string) : result date :=
  match match_ymd s with
  | None =>
      raise ValueError
        ("time data " ++ quoted s ++ " does not match format '%Y-%m-%d'")
  | Some (y, m, d, rest) =>
      if negb (String.eqb rest "")
      then raise ValueError ("unconverted data remains: " ++ rest)
      else if y =? 0 then raise ValueError "year 0 is out of range"
      else if days_in_month y m <? d
      then raise ValueError "day is out of range for month"
      else Ok (mk_date y m d)
  end.

(** [strptime] applied to any value. *)
Definition py_strptime_ymd (v : pyval) : result date :=
  match v with
  | PStr s => strptime_ymd s
  | _ =>
      raise TypeError
        ("strptime() argument 1 must be str, not "
           ++ match v with PNone => "None" | _ => type_name v end)
  end.

(** [d.strftime('%d/%m/%Y')].  [%Y] is printed by the C library: glibc
    prints a year below 1000 without leading zeros, and CPython pads it
    to four digits itself from version 3.13 on; [pads] tells which. *)
Definition strftime_dmy (pads : bool) (d : date) : string :=
  zero_pad 2 (day d) ++ "/" ++ zero_pad 2 (month d) ++ "/"
    ++ (if pads then zero_pad 4 (year d) else str_nonneg (year d)).

(** [t.isoformat()] for a naive datetime, and for an aware one in UTC. *)
Definition isoformat (t : datetime) : string :=
  zero_pad 4 (year (dt_date t)) ++ "-" ++ zero_pad 2 (month (dt_date t))
    ++ "-" ++ zero_pad 2 (day (dt_date t)) ++ "T" ++ zero_pad 2 (hour t)
    ++ ":" ++ zero_pad 2 (minute t) ++ ":" ++ zero_pad 2 (second t)
    ++ (if microsecond t =? 0 then "" else "." ++ zero_pad 6 (microsecond t)).

Definition isoformat_utc (t : datetime) : string := isoformat t ++ "+00:00".

(** ** The world outside the handler *)

(** What [requests.get(url, timeout=10)] gives back. *)
Record http_response := mk_http_response {
  raise_for_status : result unit;
  status_code : pyval;
  content_type : option string;   (* [headers.get('content-type')] *)
  response_json : result pyval;   (* [response.json()] *)
  response_text : string
}.

Record World := mk_World {
  (* clock *)
  now : datetime;                    (* [datetime.now()], local time *)
  now_utc : datetime;                (* [datetime.now(pytz.UTC)] *)
  (* random draws *)
  uuid4_int : nat -> Z;              (* the n-th [uuid.uuid4().int] of the call *)
  random_index : nat;                (* the index that [random.choice] draws *)
  random_random : spec_float;        (* [random.random()] *)
  random_randint : Z;                (* [random.randint(1, 10)] *)
  (* process *)
  environ : string -> option string; (* [os.environ] *)
  importable : string -> bool;       (* whether [import name] succeeds *)
  (* remote services *)
  s3_list_buckets : result pyval;    (* [boto3.client('s3').list_buckets()] *)
  requests_get : pyval -> result http_response;
  (* the interpreter *)
  py_repr : pyval -> string;         (* [repr] of a float, a list or a dict *)
  json_loads : string -> result pyval;
  strftime_pads_year : bool
}.

(** [os.environ.get(name, default)] *)
Definition environ_get (w : World) (name default : string) : string :=
  match environ w name with
  | Some v => v
  | None => default
  end.

(** [str(v)], which is also what an f-string field prints. *)
Definition py_str (w : World) (v : pyval) : string :=
  match v with
  | PNone => "None"
  | PBool b => if b then "True" else "False"
  | PInt n => str_int n
  | PStr s => s
  | _ => py_repr w v
  end.

(** ** [json.dumps] *)

Definition hex_char (d : Z) : ascii :=
  if d <? 10 then chr (48 + d) else chr (87 + d).

Definition hex4 (n : Z) : string :=
  String (hex_char (n / 4096 mod 16))
    (String (hex_char (n / 256 mod 16))
       (String (hex_char (n / 16 mod 16)) (String (hex_char (n mod 16)) ""))).

Definition u_escape (cp : Z) : string := "\u" ++ hex4 cp.

(** How [ensure_ascii] writes the code point [cp] inside a string. *)
Definition escape_code_point (cp : Z) : string :=
  if cp =? 34 then "\" ++ dquote
  else if cp =? 92 then "\\"
  else if cp =? 10 then "\n"
  else if cp =? 13 then "\r"
  else if cp =? 9 then "\t"
  else if cp =? 8 then "\b"
  else if cp =? 12 then "\f"
  else if (32 <=? cp) && (cp <=? 126) then String (chr cp) ""
  else if cp <? 65536 then u_escape cp
  else
    let v := cp - 65536 in
    u_escape (55296 + v / 1024) ++ u_escape (56320 + v mod 1024).

(** Decodes the UTF-8 bytes of [s] and escapes each code point; [cp] and
    [more] hold the bits read so far of a multi-byte sequence and the
    number of bytes it still needs. *)
Fixpoint escape_from (s : string) (cp : Z) (more : nat) : string :=
  match s with
  | EmptyString => ""
  | String c r =>
      let n := ord c in
      match more with
      | S k =>
          let cp' := cp * 64 + n mod 64 in
          match k with
          | O => escape_code_point cp' ++ escape_from r 0 0
          | _ => escape_from r cp' k
          end
      | O =>
          if n <? 128 then escape_code_point n ++ escape_from r 0 0
          else if n <? 224 then escape_from r (n mod 32) 1
          else if n <? 240 then escape_from r (n mod 16) 2
          else escape_from r (n mod 8) 3
      end
  end.

Definition json_string (s : string) : string :=
  dquote ++ escape_from s 0 0 ++ dquote.

(** [repr] is the interpreter's [repr]; [json.dumps] prints a finite
    float with it. *)
Definition json_float (repr : pyval -> string) (f : spec_float) : string :=
  match f with
  | S754_nan => "NaN"
  | S754_infinity s => if s then "-Infinity" else "Infinity"
  | _ => repr (PFloat f)
  end.

Definition spaces (n : nat) : string := string_of_list_ascii (repeat " "%char n).

(** The line break before an item at nesting depth [level]. *)
Definition line_break (indent : option nat) (level : nat) : string :=
  match indent with
  | Some n => newline ++ spaces (n * level)
  | None => ""
  end.

Definition item_separator (indent : option nat) (level : nat) : string :=
  match indent with
  | Some _ => "," ++ line_break indent level
  | None => ", "
  end.

Fixpoint dumps_at (repr : pyval -> string) (indent : option nat)
  (level : nat) (v : pyval) : string :=
  match v with
  | PNone => "null"
  | PBool b => if b then "true" else "false"
  | PInt n => str_int n
  | PFloat f => json_float repr f
  | PStr s => json_string s
  | PList [] => "[]"
  | PList l =>
      "[" ++ line_break indent (S level)
        ++ concat_sep (item_separator indent (S level))
             (map (dumps_at repr indent (S level)) l)
        ++ line_break indent level ++ "]"
  | PDict [] => "{}"
  | PDict d =>
      "{" ++ line_break indent (S level)
        ++ concat_sep (item_separator indent (S level))
             (map (fun kv => json_string (fst kv) ++ ": "
                               ++ dumps_at repr indent (S level) (snd kv)) d)
        ++ line_break indent level ++ "}"
  end.

(** [json.dumps(v)] and [json.dumps(v, indent=2)] *)
Definition dumps (w : World) (v : pyval) : string :=
  dumps_at (py_repr w) None 0 v.
Definition dumps_indent2 (w : World) (v : pyval) : string :=
  dumps_at (py_repr w) (Some 2%nat) 0 v.

(** ** Expressions the Lex handlers share *)

(** [event['sessionState']['intent']] *)
Definition event_intent (event : pyval) : result pyval :=
  session_state <- getitem event "sessionState" ;;
  getitem session_state "intent".

(** [event['sessionState']['intent']['slots']] *)
Definition event_slots (event : pyval) : result pyval :=
  intent <- event_intent event ;;
  getitem intent "slots".

(** [event['sessionState']['intent']['name']] *)
Definition event_intent_name (event : pyval) : result pyval :=
  intent <- event_intent event ;;
  getitem intent "name".

(** [slots[name]['value']['interpretedValue']] *)
Definition interpreted_value (slots : pyval) (name : string) : result pyval :=
  slot <- getitem slots name ;;
  value <- getitem slot "value" ;;
  getitem value "interpretedValue".

(** The condition [slots.get(name) and slots[name].get('value')]. *)
Definition slot_has_value (slots : pyval) (name : string) : result bool :=
  slot <- get slots name PNone ;;
  if truthy slot then
    slot' <- getitem slots name ;;
    value <- get slot' "value" PNone ;;
    Ok (truthy value)
  else Ok false.

Definition plain_text (message : string) : pyval :=
  PList [PDict [("contentType", PStr "PlainText"); ("content", PStr message)]].

(** A step of a function body that may [return]: [Some r] is the value
    returned, [None] lets the body go on. *)
Definition returns (m : result pyval) : result (option pyval) :=
  r <- m ;; Ok (Some r).

Definition and_then (step : result (option pyval)) (rest : result pyval)
  : result pyval :=
  r <- step ;;
  match r with
  | Some x => Ok x
  | None => rest
  end.

(** [random.choice(l)] *)
Definition random_choice {A} (w : World) (l : list A) (default : A) : A :=
  nth (random_index w mod List.length l) l default.

(** [s.isalnum()] and [len(s)] *)
Definition is_alnum_char (c : ascii) : bool :=
  is_digit c || is_upper c || is_lower c.

Fixpoint all_chars (p : ascii -> bool) (s : string) : bool :=
  match s with
  | EmptyString => true
  | String c r => p c && all_chars p r
  end.

Definition isalnum (s : string) : bool :=
  negb (String.eqb s "") && all_chars is_alnum_char s.

Fixpoint len_from (s : string) (pending : nat) : Z :=
  match s with
  | EmptyString => 0
  | String c r =>
      match pending with
      | S k => len_from r k
      | O => 1 + len_from r (continuation_bytes c)
      end
  end.

Definition len (s : string) : Z := len_from s 0.

(** ** dialog_hook.py *)

Module DialogHook.

Definition delegate (event : pyval) : result pyval :=
  intent <- event_intent event ;;
  Ok (PDict [("sessionState",
              PDict [("dialogAction", PDict [("type", PStr "Delegate")]);
                     ("intent", intent)])]).

Definition elicit_slot (event : pyval) (slot_to_elicit message : string)
  : result pyval :=
  intent <- event_intent event ;;
  Ok (PDict [("sessionState",
              PDict [("dialogAction",
                      PDict [("type", PStr "ElicitSlot");
                             ("slotToElicit", PStr slot_to_elicit)]);
                     ("intent", intent)]);
             ("messages", plain_text message)]).

Definition close (event : pyval) (fulfillment_state message : string)
  : result pyval :=
  intent <- event_intent event ;;
  intent' <- setitem intent "state" (PStr fulfillment_state) ;;
  Ok (PDict [("sessionState",
              PDict [("dialogAction", PDict [("type", PStr "Close")]);
                     ("intent", intent')]);
             ("messages", plain_text message)]).

Definition check_room_availability (w : World) (room_type : pyval) : bool :=
  random_choice w [true; true; true; false] true.

Definition verify_booking_exists (booking_number : pyval) : result bool :=
  first <- getitem0 booking_number ;;
  u <- py_upper first ;;
  Ok (string_in u ["A"; "B"]).

Definition get_available_rooms (w : World) (room_type : pyval) : Z :=
  random_randint w.

(** The block under [# Validate RoomType]. *)
Definition validate_room_type (event slots : pyval) : result (option pyval) :=
  filled <- slot_has_value slots "RoomType" ;;
  if filled then
    room_type <- interpreted_value slots "RoomType" ;;
    lowered <- py_lower room_type ;;
    if negb (string_in lowered ["single"; "double"; "suite"]) then
      returns (elicit_slot event "RoomType"
        "I'm sorry, we only have single, double, or suite rooms. Which would you prefer?")
    else Ok None
  else Ok None.

(** The block under [# Validate CheckInDate]. *)
Definition validate_check_in_date (w : World) (event slots : pyval)
  : result (option pyval) :=
  filled <- slot_has_value slots "CheckInDate" ;;
  if filled then
    check_in_date_str <- interpreted_value slots "CheckInDate" ;;
    try_except
      (check_in_date <- py_strptime_ymd check_in_date_str ;;
       let today := now w in
       if date_ltb check_in_date (dt_date today) then
         returns (elicit_slot event "CheckInDate"
           "The check-in date cannot be in the past. Please provide a future date.")
       else
         max_future_date <- add_days (timepoint_of today) 365 ;;
         if timepoint_gtb (midnight check_in_date) max_future_date then
           returns (elicit_slot event "CheckInDate"
             "We can only accept bookings up to one year in advance. Please choose an earlier date.")
         else Ok None)
      [(ValueError, fun _ =>
          returns (elicit_slot event "CheckInDate"
            "I couldn't understand that date. Please provide the check-in date in DD/MM/YYYY format."))]
  else Ok None.

(** The block under [# Validate Nights]. *)
Definition validate_nights (event slots : pyval) : result (option pyval) :=
  filled <- slot_has_value slots "Nights" ;;
  if filled then
    try_except
      (value <- interpreted_value slots "Nights" ;;
       nights <- py_int value ;;
       if nights <? 1 then
         returns (elicit_slot event "Nights"
           "You must book at least one night. How many nights would you like to stay?")
       else if 30 <? nights then
         returns (elicit_slot event "Nights"
           "We can only accept bookings up to 30 nights. For longer stays, please contact our reservations team.")
       else Ok None)
      [(ValueError, fun _ =>
          returns (elicit_slot event "Nights"
            "Please provide a valid number of nights."))]
  else Ok None.

(** [all(slots.get(slot) and slots[slot].get('value') for slot in names)] *)
Fixpoint all_filled (slots : pyval) (names : list string) : result bool :=
  match names with
  | [] => Ok true
  | name :: rest =>
      filled <- slot_has_value slots name ;;
      if filled then all_filled slots rest else Ok false
  end.

(** The block under [# Check room availability (simulated)]. *)
Definition check_availability (w : World) (event slots : pyval)
  : result (option pyval) :=
  filled <- all_filled slots ["RoomType"; "CheckInDate"; "Nights"] ;;
  if filled then
    room_type <- interpreted_value slots "RoomType" ;;
    let availability := check_room_availability w room_type in
    if negb availability then
      returns (elicit_slot event "RoomType"
        ("I'm sorry, we don't have any " ++ py_str w room_type
           ++ " rooms available for those dates. Would you like to try a different room type?"))
    else Ok None
  else Ok None.

Definition handle_book_room_dialog (w : World) (event : pyval) : result pyval :=
  slots <- event_slots event ;;
  and_then (validate_room_type event slots)
    (and_then (validate_check_in_date w event slots)
       (and_then (validate_nights event slots)
          (and_then (check_availability w event slots)
             (delegate event)))).

Definition handle_cancel_booking_dialog (w : World) (event : pyval)
  : result pyval :=
  slots <- event_slots event ;;
  filled <- slot_has_value slots "BookingNumber" ;;
  and_then
    (if filled then
       booking_number <- interpreted_value slots "BookingNumber" ;;
       match booking_number with
       | PStr s =>
           if negb (isalnum s) || (len s <? 6) || (8 <? len s) then
             returns (elicit_slot event "BookingNumber"
               "That doesn't look like a valid booking number. Booking numbers are 6-8 alphanumeric characters. Please try again.")
           else
             found <- verify_booking_exists booking_number ;;
             if negb found then
               returns (elicit_slot event "BookingNumber"
                 ("I couldn't find a booking with number " ++ s
                    ++ ". Please verify and try again."))
             else Ok None
       | _ => no_attribute booking_number "isalnum"
       end
     else Ok None)
    (delegate event).

Definition handle_check_availability_dialog (w : World) (event : pyval)
  : result pyval :=
  slots <- event_slots event ;;
  filled <- slot_has_value slots "RoomType" ;;
  if filled then
    room_type <- interpreted_value slots "RoomType" ;;
    let available_count := get_available_rooms w room_type in
    close event "Fulfilled"
      ("We currently have " ++ str_int available_count ++ " "
         ++ py_str w room_type ++ " rooms available.")
  else
    close event "Fulfilled"
      "We have rooms available across all our room types. Would you like to book one?".

Definition lambda_handler (w : World) (event : pyval) : result pyval :=
  intent_name <- event_intent_name event ;;
  invocation_source <- getitem event "invocationSource" ;;
  if eq_str intent_name "BookRoom" then handle_book_room_dialog w event
  else if eq_str intent_name "CancelBooking"
  then handle_cancel_booking_dialog w event
  else if eq_str intent_name "CheckAvailability"
  then handle_check_availability_dialog w event
  else delegate event.

End DialogHook.

(** ** Expressions the two fulfillment handlers share *)

(** [f"{v:.2f}"] *)
Definition py_format_2f (v : pyval) : result string :=
  match v with
  | PFloat f => Ok (format_2f f)
  | PInt n => f <- float_of_int n ;; Ok (format_2f f)
  | PBool b => Ok (format_2f (float_of_Z (if b then 1 else 0)))
  | PStr _ =>
      raise ValueError "Unknown format code 'f' for object of type 'str'"
  | _ =>
      raise TypeError
        ("unsupported format string passed to " ++ type_name v ++ ".__format__")
  end.

(** [room_prices.get(key, 99.99)] for the price table of both handlers. *)
Definition room_prices : list (string * spec_float) :=
  [("single", float_lit 8999 100);
   ("double", float_lit 12999 100);
   ("suite", float_lit 24999 100)].

Fixpoint price_lookup (key : string) (table : list (string * spec_float))
  (default : spec_float) : spec_float :=
  match table with
  | [] => default
  | (k, p) :: r => if String.eqb key k then p else price_lookup key r default
  end.

Definition price_per_night (lowered_room_type : string) : spec_float :=
  price_lookup lowered_room_type room_prices (float_lit 9999 100).

(** [generate_booking_number()], the same in both files: three letters
    from three UUIDs and the first five digits of a fourth. *)
Definition generate_booking_number (w : World) : string :=
  let letters :=
    string_of_list_ascii
      (map (fun i => chr (ord "A" + uuid4_int w i mod 26)) [0%nat; 1%nat; 2%nat]) in
  let numbers := take 5 (str_int (uuid4_int w 3)) in
  letters ++ numbers.

(** [format_date_for_display(iso_date)], the same in both files; the bare
    [except] also catches the [TypeError] of a value that is no string. *)
Definition format_date_for_display (w : World) (iso_date : pyval) : pyval :=
  match py_strptime_ymd iso_date with
  | Ok date_obj => PStr (strftime_dmy (strftime_pads_year w) date_obj)
  | Raise _ => iso_date
  end.

Definition plural (nights : Z) : string := if 1 <? nights then "s" else "".

(** [close_failed(event, message)], the same in both files. *)
Definition close_failed (event : pyval) (message : string) : result pyval :=
  intent <- event_intent event ;;
  intent' <- setitem intent "state" (PStr "Failed") ;;
  Ok (PDict [("sessionState",
              PDict [("dialogAction", PDict [("type", PStr "Close")]);
                     ("intent", intent')]);
             ("messages", plain_text message)]).

(** ** fulfillment_hook.py *)

Module FulfillmentHook.

Definition close_fulfilled (event : pyval) (message : string)
  (session_attributes : pyval) : result pyval :=
  intent <- event_intent event ;;
  intent' <- setitem intent "state" (PStr "Fulfilled") ;;
  let session_state :=
    [("dialogAction", PDict [("type", PStr "Close")]); ("intent", intent')] in
  Ok (PDict [("sessionState",
              PDict (if truthy session_attributes
                     then dict_set "sessionAttributes" session_attributes
                            session_state
                     else session_state));
             ("messages", plain_text message)]).

Definition create_booking (w : World) (booking_data : pyval) : pyval :=
  let success := float_ltb (random_random w) (float_lit 98 100) in
  PDict [("success", PBool success);
         ("booking_data", if success then booking_data else PNone)].

Definition get_booking_details (booking_number : pyval) : result pyval :=
  first <- getitem0 booking_number ;;
  u <- py_upper first ;;
  if string_in u ["A"; "B"] then
    Ok (PDict [("booking_number", booking_number);
               ("room_type", PStr "double");
               ("check_in_date", PStr "2026-03-15");
               ("nights", PInt 3);
               ("total_price", PFloat (float_lit 38997 100));
               ("status", PStr "confirmed")])
  else Ok PNone.

Definition cancel_booking (booking_number : pyval) : pyval :=
  PDict [("success", PBool true); ("booking_number", booking_number)].

Definition booked_message (w : World) (room_type check_in_display : pyval)
  (nights : Z) (total_price : spec_float) (booking_number : string) : string :=
  "Excellent! Your " ++ py_str w room_type
    ++ " room has been successfully booked." ++ newline ++ newline
    ++ "📅 Check-in: " ++ py_str w check_in_display ++ newline
    ++ "🌙 Duration: " ++ str_int nights ++ " night" ++ plural nights ++ newline
    ++ "💰 Total: £" ++ format_2f total_price ++ newline
    ++ "🎫 Confirmation: " ++ booking_number ++ newline ++ newline
    ++ "A confirmation email has been sent. We look forward to welcoming you!".

Definition fulfill_book_room (w : World) (event : pyval) : result pyval :=
  try_except
    (slots <- event_slots event ;;
     room_type <- interpreted_value slots "RoomType" ;;
     check_in_date <- interpreted_value slots "CheckInDate" ;;
     nights_value <- interpreted_value slots "Nights" ;;
     nights <- py_int nights_value ;;
     let booking_number := generate_booking_number w in
     lowered <- py_lower room_type ;;
     total_price <- float_mul_int (price_per_night lowered) nights ;;
     let booking_result :=
       create_booking w
         (PDict [("booking_number", PStr booking_number);
                 ("room_type", room_type);
                 ("check_in_date", check_in_date);
                 ("nights", PInt nights);
                 ("total_price", PFloat total_price);
                 ("timestamp", PStr (isoformat (now w)))]) in
     success <- getitem booking_result "success" ;;
     if truthy success then
       let check_in_display := format_date_for_display w check_in_date in
       let message :=
         booked_message w room_type check_in_display nights total_price
           booking_number in
       session_attributes <- get event "sessionAttributes" (PDict []) ;;
       attrs1 <- setitem session_attributes "lastBookingNumber"
                   (PStr booking_number) ;;
       attrs2 <- setitem attrs1 "lastBookingTotal"
                   (PStr (py_str w (PFloat total_price))) ;;
       close_fulfilled event message attrs2
     else
       close_failed event
         "I'm sorry, there was an error processing your booking. Please try again or contact our support team.")
    [(KeyError, fun _ =>
        close_failed event
          "I'm sorry, some booking information is missing. Please try again.");
     (Exception, fun _ =>
        close_failed event
          "I'm sorry, an unexpected error occurred. Please try again or contact support.")].

Definition cancelled_message (w : World) (booking_number : pyval)
  (refund : string) : string :=
  "Your booking " ++ py_str w booking_number
    ++ " has been successfully cancelled." ++ newline ++ newline
    ++ "💰 Refund: £" ++ refund ++ newline
    ++ "⏱️ Processing time: 5-7 business days" ++ newline ++ newline
    ++ "You will receive a confirmation email shortly. "
    ++ "We hope to see you again in the future!".

Definition fulfill_cancel_booking (w : World) (event : pyval) : result pyval :=
  try_except
    (slots <- event_slots event ;;
     booking_number <- interpreted_value slots "BookingNumber" ;;
     booking_details <- get_booking_details booking_number ;;
     if negb (truthy booking_details) then
       close_failed event
         ("I couldn't find a booking with number " ++ py_str w booking_number
            ++ ". Please verify and try again.")
     else
       let cancellation_result := cancel_booking booking_number in
       success <- getitem cancellation_result "success" ;;
       if truthy success then
         refund_amount <- get booking_details "total_price" (PInt 0) ;;
         refund <- py_format_2f refund_amount ;;
         close_fulfilled event (cancelled_message w booking_number refund) PNone
       else
         close_failed event
           ("There was an error cancelling booking " ++ py_str w booking_number
              ++ ". Please contact our support team."))
    [(KeyError, fun _ =>
        close_failed event "I need a booking number to process the cancellation.");
     (Exception, fun _ =>
        close_failed event "An unexpected error occurred. Please contact support.")].

Definition lambda_handler (w : World) (event : pyval) : result pyval :=
  intent_name <- event_intent_name event ;;
  if eq_str intent_name "BookRoom" then fulfill_book_room w event
  else if eq_str intent_name "CancelBooking" then fulfill_cancel_booking w event
  else close_failed event "I'm sorry, I couldn't process that request.".

End FulfillmentHook.

(** ** booking_fulfillment.py *)

Module BookingFulfillment.

Definition booking_number_slot (booking_number : string) : pyval :=
  PDict [("shape", PStr "Scalar");
         ("value",
          PDict [("originalValue", PStr booking_number);
                 ("interpretedValue", PStr booking_number);
                 ("resolvedValues", PList [PStr booking_number])])].

(** The [if booking_number and 'slots' in intent:] block: the intent
    after it. *)
Definition add_booking_number (intent : pyval) (booking_number : string)
  : result pyval :=
  if negb (String.eqb booking_number "") then
    has_slots <- py_in "slots" intent ;;
    if has_slots then
      slots <- getitem intent "slots" ;;
      present <- py_in "BookingNumber" slots ;;
      missing <-
        (if negb present then Ok true
         else
           current <- getitem slots "BookingNumber" ;;
           Ok (match current with PNone => true | _ => false end)) ;;
      if (missing : bool) then
        slots' <- setitem slots "BookingNumber"
                    (booking_number_slot booking_number) ;;
        setitem intent "slots" slots'
      else Ok intent
    else Ok intent
  else Ok intent.

Definition close_fulfilled (event : pyval) (message : string)
  (session_attributes : pyval) (booking_number : string) : result pyval :=
  intent <- event_intent event ;;
  intent1 <- setitem intent "state" (PStr "Fulfilled") ;;
  intent2 <- add_booking_number intent1 booking_number ;;
  let session_state :=
    [("dialogAction", PDict [("type", PStr "Close")]); ("intent", intent2)] in
  Ok (PDict [("sessionState",
              PDict (if truthy session_attributes
                     then dict_set "sessionAttributes" session_attributes
                            session_state
                     else session_state));
             ("messages", plain_text message)]).

Definition booked_message (w : World) (room_type check_in_display : pyval)
  (nights : Z) (total_price : spec_float) (booking_number : string) : string :=
  "Excellent! Your " ++ py_str w room_type
    ++ " room has been successfully booked." ++ newline ++ newline
    ++ "📅 Check-in: " ++ py_str w check_in_display ++ newline
    ++ "🌙 Duration: " ++ str_int nights ++ " night" ++ plural nights ++ newline
    ++ "💰 Total: £" ++ format_2f total_price ++ newline
    ++ "🎫 Confirmation Number: " ++ booking_number ++ newline ++ newline
    ++ "A confirmation email will be sent shortly. We look forward to welcoming you!".

Definition fulfill_booking (w : World) (event : pyval) : result pyval :=
  try_except
    (slots <- event_slots event ;;
     room_type <- interpreted_value slots "RoomType" ;;
     check_in_date <- interpreted_value slots "CheckInDate" ;;
     nights_value <- interpreted_value slots "Nights" ;;
     nights <- py_int nights_value ;;
     let booking_number := generate_booking_number w in
     lowered <- py_lower room_type ;;
     total_price <- float_mul_int (price_per_night lowered) nights ;;
     let check_in_display := format_date_for_display w check_in_date in
     let message :=
       booked_message w room_type check_in_display nights total_price
         booking_number in
     let session_attributes :=
       PDict [("lastBookingNumber", PStr booking_number);
              ("lastBookingTotal", PStr (py_str w (PFloat total_price)))] in
     close_fulfilled event message session_attributes booking_number)
    [(KeyError, fun _ =>
        close_failed event
          "I'm sorry, some booking information is missing. Please try again.");
     (Exception, fun _ =>
        close_failed event
          "I'm sorry, an unexpected error occurred. Please try again or contact support.")].

Definition lambda_handler (w : World) (event : pyval) : result pyval :=
  intent_name <- event_intent_name event ;;
  if eq_str intent_name "BookRoom" then fulfill_booking w event
  else close_failed event "I'm sorry, I couldn't process that request.".

End BookingFulfillment.

(** ** Expressions the two HTTP handlers share *)

Definition name_error {A} (name : string) : result A :=
  raise NameError ("name " ++ quoted name ++ " is not defined").

(** The names that the guarded [import] lines at the top of a module
    bind: the first import that fails leaves the later names unbound. *)
Fixpoint bound_after (w : World) (imports : list string) (name : string)
  : bool :=
  match imports with
  | [] => false
  | m :: rest =>
      importable w m && (String.eqb m name || bound_after w rest name)
  end.

(** [datetime.now(pytz.UTC).isoformat()] in a module with these imports. *)
Definition utc_timestamp (w : World) (imports : list string) : result pyval :=
  if bound_after w imports "pytz" then Ok (PStr (isoformat_utc (now_utc w)))
  else name_error "pytz".

(** [json.loads(v)] *)
Definition py_json_loads (w : World) (v : pyval) : result pyval :=
  match v with
  | PStr s => json_loads w s
  | _ =>
      raise TypeError
        ("the JSON object must be str, bytes or bytearray, not " ++ type_name v)
  end.

(** [len(v)] *)
Definition py_len (v : pyval) : result Z :=
  match v with
  | PStr s => Ok (len s)
  | PList l => Ok (Z.of_nat (List.length l))
  | PDict d => Ok (Z.of_nat (List.length d))
  | _ =>
      raise TypeError
        ("object of type " ++ quoted (type_name v) ++ " has no len()")
  end.

(** ** api.py *)

Module Api.

Definition imports : list string := ["requests"; "pytz"].

Definition create_response (w : World) (status_code : Z) (body : pyval)
  : pyval :=
  PDict [("statusCode", PInt status_code);
         ("headers",
          PDict [("Content-Type", PStr "application/json");
                 ("Access-Control-Allow-Origin", PStr "*");
                 ("Access-Control-Allow-Methods", PStr "GET, POST, OPTIONS");
                 ("Access-Control-Allow-Headers", PStr "Content-Type")]);
         ("body", PStr (dumps_indent2 w body))].

Definition check_library_import (w : World) (library_name : string) : pyval :=
  if importable w library_name then PStr "available"
  else PStr "not available".

Definition handle_root (w : World) (query_params : pyval) : result pyval :=
  timestamp <- utc_timestamp w imports ;;
  Ok (PDict [("message", PStr "Welcome to Lambda Function URL API");
             ("timestamp", timestamp);
             ("environment", PStr (environ_get w "ENVIRONMENT" "unknown"));
             ("query_params", query_params);
             ("endpoints",
              PDict [("GET /", PStr "This message");
                     ("GET /health", PStr "Health check");
                     ("POST /api/data", PStr "Process data")])]).

Definition handle_health (w : World) : result pyval :=
  timestamp <- utc_timestamp w imports ;;
  Ok (PDict [("status", PStr "healthy");
             ("timestamp", timestamp);
             ("checks",
              PDict [("requests_library", check_library_import w "requests");
                     ("boto3_library", check_library_import w "boto3");
                     ("pytz_library", check_library_import w "pytz")])]).

Definition handle_post_data (w : World) (data : pyval) : result pyval :=
  timestamp <- utc_timestamp w imports ;;
  Ok (PDict [("message", PStr "Data received and processed");
             ("timestamp", timestamp);
             ("received_data", data);
             ("processed", PBool true)]).

(** [event.get('requestContext', {}).get('http', {})] *)
Definition request_http (event : pyval) : result pyval :=
  request_context <- get event "requestContext" (PDict []) ;;
  get request_context "http" (PDict []).

(** [event.get('requestContext', {}).get('http', {}).get('method', 'GET')] *)
Definition request_method (event : pyval) : result pyval :=
  http <- request_http event ;;
  get http "method" (PStr "GET").

Definition not_found (path http_method : pyval) : pyval :=
  PDict [("error", PStr "Not found"); ("path", path); ("method", http_method)].

Definition handler (w : World) (event : pyval) : result pyval :=
  _ <- request_http event ;;
  try_except
    (http_method <- request_method event ;;
     path <- get event "rawPath" (PStr "/") ;;
     query_params <- get event "queryStringParameters" (PDict []) ;;
     headers <- get event "headers" (PDict []) ;;
     body <- get event "body" (PStr "") ;;
     if eq_str path "/" && eq_str http_method "GET" then
       response_body <- handle_root w query_params ;;
       Ok (create_response w 200 response_body)
     else if eq_str path "/health" && eq_str http_method "GET" then
       response_body <- handle_health w ;;
       Ok (create_response w 200 response_body)
     else if eq_str path "/api/data" && eq_str http_method "POST" then
       request_data <-
         (if truthy body then py_json_loads w body else Ok (PDict [])) ;;
       response_body <- handle_post_data w request_data ;;
       Ok (create_response w 200 response_body)
     else Ok (create_response w 404 (not_found path http_method)))
    [(JSONDecodeError, fun _ =>
        Ok (create_response w 400
              (PDict [("error", PStr "Invalid JSON in request body")])));
     (Exception, fun e =>
        Ok (create_response w 500
              (PDict [("error", PStr "Internal server error");
                      ("message", PStr (exn_msg e))])))].

End Api.

(** ** app.py *)

Module App.

Definition imports : list string := ["requests"; "boto3"; "dateutil"; "pytz"].

(** The Lambda context object: its class name and the two attributes the
    handler reads, [None] for an attribute the object does not have. *)
Record Context := mk_Context {
  context_class : string;
  function_name : option pyval;
  request_id : option pyval
}.

Definition attribute (context : Context) (field : option pyval)
  (name : string) : result pyval :=
  match field with
  | Some v => Ok v
  | None =>
      raise AttributeError
        (quoted (context_class context) ++ " object has no attribute "
           ++ quoted name)
  end.

(** The [try] block of [process_data]; any exception gives 0. *)
Definition bucket_count (w : World) : Z :=
  let counted :=
    if bound_after w imports "boto3" then
      buckets <- s3_list_buckets w ;;
      listed <- get buckets "Buckets" (PList []) ;;
      py_len listed
    else name_error "boto3" in
  match counted with
  | Ok n => n
  | Raise _ => 0
  end.

Definition process_data (w : World) (data : pyval) : pyval :=
  PDict [("message", PStr "Data processed successfully");
         ("data", data);
         ("s3_buckets_accessible", PInt (bucket_count w));
         ("layer_libraries",
          PList [PStr "requests"; PStr "boto3"; PStr "python-dateutil";
                 PStr "pytz"])].

(** [fetch_data(url)]: the [except] clause logs and raises again, so every
    exception leaves the function. *)
Definition fetch_data (w : World) (url : pyval) : result pyval :=
  if bound_after w imports "requests" then
    response <- requests_get w url ;;
    _ <- raise_for_status response ;;
    data <-
      (if prefix "application/json"
            (match content_type response with Some t => t | None => "" end)
       then response_json response
       else Ok (PStr (take 100 (response_text response)))) ;;
    Ok (PDict [("message", PStr "Data fetched successfully");
               ("url", url);
               ("status_code", status_code response);
               ("data", data)])
  else name_error "requests".

Definition handler (w : World) (event : pyval) (context : Context)
  : result pyval :=
  let environment := environ_get w "ENVIRONMENT" "unknown" in
  let layer_version := environ_get w "LAYER_VERSION" "unknown" in
  try_except
    (action <- get event "action" (PStr "process") ;;
     data <- get event "data" (PDict []) ;;
     result <-
       (if eq_str action "process" then Ok (process_data w data)
        else if eq_str action "fetch" then
          url <- get event "url" (PStr "https://httpbin.org/json") ;;
          fetch_data w url
        else
          Ok (PDict [("message",
                      PStr ("Unknown action: " ++ py_str w action))])) ;;
     timestamp <- utc_timestamp w imports ;;
     name <- attribute context (function_name context) "function_name" ;;
     request <- attribute context (request_id context) "request_id" ;;
     result' <- setitem result "metadata"
                  (PDict [("timestamp", timestamp);
                          ("environment", PStr environment);
                          ("layer_version", PStr layer_version);
                          ("function_name", name);
                          ("request_id", request)]) ;;
     Ok (PDict [("statusCode", PInt 200);
                ("body", PStr (dumps_indent2 w result'))]))
    [(Exception, fun e =>
        Ok (PDict [("statusCode", PInt 500);
                   ("body",
                    PStr (dumps w
                            (PDict [("error", PStr (exn_msg e));
                                    ("message", PStr "Internal server error")])))]))].

End App.

(** ** Reading responses, and the vocabulary of the statements *)

Definition as_str (r : result pyval) : option string :=
  match r with
  | Ok (PStr s) => Some s
  | _ => None
  end.

(** [resp['sessionState']['dialogAction']['type']] *)
Definition dialog_action_type (resp : pyval) : option string :=
  as_str (session_state <- getitem resp "sessionState" ;;
          action <- getitem session_state "dialogAction" ;;
          getitem action "type").

(** [resp['sessionState']['dialogAction']['slotToElicit']] *)
Definition slot_to_elicit (resp : pyval) : option string :=
  as_str (session_state <- getitem resp "sessionState" ;;
          action <- getitem session_state "dialogAction" ;;
          getitem action "slotToElicit").

(** [resp['sessionState']['intent']['state']] *)
Definition intent_state (resp : pyval) : option string :=
  as_str (intent <- event_intent resp ;; getitem intent "state").

(** [resp['messages'][0]['content']] *)
Definition message_content (resp : pyval) : option string :=
  as_str (messages <- getitem resp "messages" ;;
          first <- getitem0 messages ;;
          getitem first "content").

(** [resp['statusCode']] and [resp['body']] *)
Definition status_code_of (resp : pyval) : option Z :=
  match getitem resp "statusCode" with
  | Ok (PInt n) => Some n
  | _ => None
  end.

Definition body_of (resp : pyval) : option string :=
  as_str (getitem resp "body").

(** The route table of [Api.handler]. *)
Definition route_matched (path http_method : pyval) : bool :=
  (eq_str path "/" && eq_str http_method "GET")
  || (eq_str path "/health" && eq_str http_method "GET")
  || (eq_str path "/api/data" && eq_str http_method "POST").

(** The pair as [json.dumps] writes it, and as it would be without the
    space that follows the colon. *)
Definition error_pair : string :=
  dquote ++ "error" ++ dquote ++ ": " ++ dquote ++ "Not found" ++ dquote.
Definition error_pair_compact : string :=
  dquote ++ "error" ++ dquote ++ ":" ++ dquote ++ "Not found" ++ dquote.

(** The integer of a version 4 UUID (RFC 4122): 128 bits with the version
    nibble 4 at bits 76-79 and the variant bits 10 at bits 62-63. *)
Definition is_uuid4 (u : Z) : Prop :=
  0 <= u < 2 ^ 128
  /\ Z.land (Z.shiftr u 76) 15 = 4
  /\ Z.land (Z.shiftr u 62) 3 = 2.

(** Three uppercase letters followed by five digits, and nothing else. *)
Definition is_booking_id (s : string) : bool :=
  match s with
  | String a (String b (String c (String d1 (String d2 (String d3
      (String d4 (String d5 EmptyString))))))) =>
      is_upper a && is_upper b && is_upper c
      && is_digit d1 && is_digit d2 && is_digit d3 && is_digit d4
      && is_digit d5
  | _ => false
  end.

Definition valid_date (d : date) : Prop :=
  1 <= year d <= 9999 /\ 1 <= month d <= 12
  /\ 1 <= day d <= days_in_month (year d) (month d).

(** Exactly [YYYY-MM-DD]: ten characters, digits around two dashes. *)
Definition is_iso_shape (s : string) : bool :=
  match s with
  | String y1 (String y2 (String y3 (String y4 (String "-" (String m1
      (String m2 (String "-" (String d1 (String d2 EmptyString))))))))) =>
      is_digit y1 && is_digit y2 && is_digit y3 && is_digit y4
      && is_digit m1 && is_digit m2 && is_digit d1 && is_digit d2
  | _ => false
  end.

(** [DD/MM/YYYY] for the date [d], digit by digit. *)
Definition two_digits (n : Z) : string :=
  String (digit_char (n / 10)) (String (digit_char (n mod 10)) "").

Definition four_digits (n : Z) : string :=
  String (digit_char (n / 1000))
    (String (digit_char (n / 100 mod 10)) (two_digits (n mod 100))).

Definition dd_mm_yyyy (d : date) : string :=
  two_digits (day d) ++ "/" ++ two_digits (month d) ++ "/"
    ++ four_digits (year d).

(** The first character is one of [A], [B], [a], [b]. *)
Definition starts_with_a_or_b (s : string) : bool :=
  match s with
  | String c _ => string_in (String c "") ["A"; "B"; "a"; "b"]
  | EmptyString => false
  end.

(** The first character is [A] or [B]. *)
Definition starts_with_capital_a_or_b (s : string) : bool :=
  match s with
  | String c _ => string_in (String c "") ["A"; "B"]
  | EmptyString => false
  end.

(** *** Worlds and events used as examples *)

Definition example_uuid : Z := 0xf47ac10b58cc4372a5670e02b2c3d479.

Definition example_world : World :=
  mk_World
    (mk_datetime (mk_date 2025 6 15) 10 30 0 0)
    (mk_datetime (mk_date 2025 6 15) 9 30 0 0)
    (fun _ => example_uuid)
    0
    (float_lit 5 10)
    5
    (fun _ => None)
    (fun _ => true)
    (Ok (PDict [("Buckets", PList [])]))
    (fun _ => raise RequestException "connection refused")
    (fun _ => "389.97")
    (fun _ => raise JSONDecodeError "Expecting value: line 1 column 1 (char 0)")
    false.

Definition with_clock (w : World) (t : datetime) : World :=
  mk_World t (now_utc w) (uuid4_int w) (random_index w) (random_random w)
    (random_randint w) (environ w) (importable w) (s3_list_buckets w)
    (requests_get w) (py_repr w) (json_loads w) (strftime_pads_year w).

Definition with_uuid (w : World) (u : nat -> Z) : World :=
  mk_World (now w) (now_utc w) u (random_index w) (random_random w)
    (random_randint w) (environ w) (importable w) (s3_list_buckets w)
    (requests_get w) (py_repr w) (json_loads w) (strftime_pads_year w).

Definition with_draws (w : World) (index : nat) (r : spec_float) (n : Z)
  : World :=
  mk_World (now w) (now_utc w) (uuid4_int w) index r n (environ w)
    (importable w) (s3_list_buckets w) (requests_get w) (py_repr w)
    (json_loads w) (strftime_pads_year w).

Definition filled_slot (v : string) : pyval :=
  PDict [("value", PDict [("interpretedValue", PStr v)])].

Definition lex_event (intent_name : string) (slots : list (string * pyval))
  : pyval :=
  PDict [("sessionState",
          PDict [("intent",
                  PDict [("name", PStr intent_name); ("slots", PDict slots)])]);
         ("invocationSource", PStr "DialogCodeHook")].

(** Two runs agree on everything they read except the random draws of
    the mock backends. *)
Definition same_ambient (w1 w2 : World) : Prop :=
  now w1 = now w2 /\ now_utc w1 = now_utc w2 /\ uuid4_int w1 = uuid4_int w2
  /\ environ w1 = environ w2 /\ importable w1 = importable w2
  /\ s3_list_buckets w1 = s3_list_buckets w2
  /\ requests_get w1 = requests_get w2 /\ py_repr w1 = py_repr w2
  /\ json_loads w1 = json_loads w2
  /\ strftime_pads_year w1 = strftime_pads_year w2.

(** The outcomes of the mock backends: availability, booking success and
    the number of rooms reported. *)
Definition same_mock_outcomes (w1 w2 : World) : Prop :=
  DialogHook.check_room_availability w1 PNone
    = DialogHook.check_room_availability w2 PNone
  /\ float_ltb (random_random w1) (float_lit 98 100)
     = float_ltb (random_random w2) (float_lit 98 100)
  /\ random_randint w1 = random_randint w2.

(** *** Messages, predicates and examples of the statements *)

Definition room_type_message : string :=
  "I'm sorry, we only have single, double, or suite rooms. Which would you prefer?".

Definition year_length (y : Z) : Z := 365 + (if is_leap y then 1 else 0).

Definition valid_datetime (t : datetime) : Prop :=
  valid_date (dt_date t)
  /\ 0 <= hour t <= 23 /\ 0 <= minute t <= 59 /\ 0 <= second t <= 59
  /\ 0 <= microsecond t <= 999999.

Definition past_date_message : string :=
  "The check-in date cannot be in the past. Please provide a future date.".

Definition far_date_message : string :=
  "We can only accept bookings up to one year in advance. Please choose an earlier date.".

(** The dialog hook answers ElicitSlot for [slot] with [message]. *)
Definition dialog_elicits (w : World) (event : pyval) (slot message : string)
  : Prop :=
  exists resp,
    DialogHook.lambda_handler w event = Ok resp
    /\ dialog_action_type resp = Some "ElicitSlot"
    /\ slot_to_elicit resp = Some slot
    /\ message_content resp = Some message.

Definition book_room_event (room_type check_in_date : string) : pyval :=
  lex_event "BookRoom"
    [("RoomType", filled_slot room_type);
     ("CheckInDate", filled_slot check_in_date)].

Definition unavailable_message (room_type : string) : string :=
  "I'm sorry, we don't have any " ++ room_type
    ++ " rooms available for those dates. Would you like to try a different room type?".

(** The dialog hook answers Delegate. *)
Definition dialog_delegates (w : World) (event : pyval) : Prop :=
  exists resp,
    DialogHook.lambda_handler w event = Ok resp
    /\ dialog_action_type resp = Some "Delegate".

Definition full_slots (room_type check_in_date nights : string)
  : list (string * pyval) :=
  [("RoomType", filled_slot room_type);
   ("CheckInDate", filled_slot check_in_date);
   ("Nights", filled_slot nights)].

Definition unlucky_world : World :=
  with_draws example_world 3 (float_lit 99 100) 5.

(** The handler closes the dialog with the intent in [state] and says
    [message]. *)
Definition closes_with (r : result pyval) (state message : string) : Prop :=
  exists resp,
    r = Ok resp
    /\ dialog_action_type resp = Some "Close"
    /\ intent_state resp = Some state
    /\ message_content resp = Some message.

Definition mock_booking (booking_number : pyval) : pyval :=
  PDict [("booking_number", booking_number);
         ("room_type", PStr "double");
         ("check_in_date", PStr "2026-03-15");
         ("nights", PInt 3);
         ("total_price", PFloat (float_lit 38997 100));
         ("status", PStr "confirmed")].

Definition cancel_event (number : string) : pyval :=
  lex_event "CancelBooking" [("BookingNumber", filled_slot number)].

Definition missing_information_message : string :=
  "I'm sorry, some booking information is missing. Please try again.".

Definition unexpected_error_message : string :=
  "I'm sorry, an unexpected error occurred. Please try again or contact support.".

(** [name] is the first of the required slots whose lookup fails, and it
    fails because the slot mapping has no such key: the slots required
    before it hold an interpreted value. *)
Definition first_missing (slots : pyval) (name : string) : Prop :=
  getitem slots name = raise KeyError (quoted name)
  /\ match name with
     | "RoomType" => True
     | "CheckInDate" =>
         exists a, interpreted_value slots "RoomType" = Ok a
     | "Nights" =>
         (exists a, interpreted_value slots "RoomType" = Ok a)
         /\ (exists b, interpreted_value slots "CheckInDate" = Ok b)
     | _ => False
     end.

(** [|x - num/den| <= 1/precision] for the exact value of [x]. *)
Definition within (x : spec_float) (num den precision : Z) : Prop :=
  Z.abs (den * fst (float_fraction x) - num * snd (float_fraction x))
  * precision
  <= den * snd (float_fraction x).

Definition double_for_three_nights : pyval :=
  lex_event "BookRoom" (full_slots "double" "2025-07-01" "3").

Definition example_total : spec_float :=
  float_mul (price_lookup (lower "double") room_prices (float_lit 9999 100))
    (float_of_Z 3).

(** Exactly [DD/MM/YYYY]: ten characters, digits around two slashes. *)
Definition is_dmy_shape (s : string) : bool :=
  match s with
  | String d1 (String d2 (String "/" (String m1 (String m2 (String "/"
      (String y1 (String y2 (String y3 (String y4 EmptyString))))))))) =>
      is_digit d1 && is_digit d2 && is_digit m1 && is_digit m2
      && is_digit y1 && is_digit y2 && is_digit y3 && is_digit y4
  | _ => false
  end.

Definition example_context : App.Context :=
  App.mk_Context "LambdaContext" (Some (PStr "demo")) (Some (PStr "r-1")).

Definition other_uuid : Z := 0x0e8b1d2a6f3c4b5d9a7e1c2d3f4a5b6c.

Definition later_clock : datetime := mk_datetime (mk_date 2025 12 24) 8 0 0 0.

(** Every character of [s] is an ASCII character; on such a string the
    ASCII classification of characters is Python's. *)
Definition ascii_only (s : string) : bool :=
  all_chars (fun c => ord c <? 128) s.

(** The slot [name] of the slot mapping [d] is filled: the mapping has
    the slot, the slot is a mapping, and its [value] is there and is not
    a false value. *)
Definition slot_filled (d : list (string * pyval)) (name : string) : bool :=
  match assoc name d with
  | Some (PDict slot) =>
      match assoc "value" slot with
      | Some value => truthy value
      | None => false
      end
  | _ => false
  end.

(** The draw of [random.choice] falls on the last of the four entries
    of the availability list, the only one that says unavailable. *)
Definition unavailable_draw (w : World) : bool :=
  Nat.eqb (random_index w mod 4) 3.

(** A BookRoom event in which only the room type is filled. *)
Definition room_only_event (room_type : string) : pyval :=
  lex_event "BookRoom" [("RoomType", filled_slot room_type)].

(** *** Vocabulary of the further properties *)

Definition one_night_message : string :=
  "You must book at least one night. How many nights would you like to stay?".

Definition thirty_nights_message : string :=
  "We can only accept bookings up to 30 nights. For longer stays, please contact our reservations team.".

Definition invalid_nights_message : string :=
  "Please provide a valid number of nights.".

Definition unreadable_date_message : string :=
  "I couldn't understand that date. Please provide the check-in date in DD/MM/YYYY format.".

Definition booking_format_message : string :=
  "That doesn't look like a valid booking number. Booking numbers are 6-8 alphanumeric characters. Please try again.".

Definition booking_not_found_message (number : string) : string :=
  "I couldn't find a booking with number " ++ number
    ++ ". Please verify and try again.".

Definition unknown_request_message : string :=
  "I'm sorry, I couldn't process that request.".

Definition general_availability_message : string :=
  "We have rooms available across all our room types. Would you like to book one?".

Definition room_count_message (count : Z) (room_type : string) : string :=
  "We currently have " ++ str_int count ++ " " ++ room_type
    ++ " rooms available.".

(** The slot [name] of the mapping [d] is absent or holds a false value
    such as [None]. *)
Definition unfilled (d : list (string * pyval)) (name : string) : bool :=
  match assoc name d with
  | None => true
  | Some v => negb (truthy v)
  end.

(** [resp['sessionState']['sessionAttributes']] *)
Definition session_attributes_of (resp : pyval) : result pyval :=
  session_state <- getitem resp "sessionState" ;;
  getitem session_state "sessionAttributes".

(** [resp['sessionState']['intent']['slots']] *)
Definition response_slots (resp : pyval) : result pyval := event_slots resp.

(** The headers of every answer of [Api.handler]. *)
Definition cors_headers : pyval :=
  PDict [("Content-Type", PStr "application/json");
         ("Access-Control-Allow-Origin", PStr "*");
         ("Access-Control-Allow-Methods", PStr "GET, POST, OPTIONS");
         ("Access-Control-Allow-Headers", PStr "Content-Type")].

(** [r] is the answer of [elicit_slot] for one of the slots [names]. *)
Definition elicit_answer (event : pyval) (names : list string) (r : pyval)
  : Prop :=
  exists slot message,
    In slot names /\ DialogHook.elicit_slot event slot message = Ok r.

Definition booking_number_needed_message : string :=
  "I need a booking number to process the cancellation.".

Definition cancellation_error_message : string :=
  "An unexpected error occurred. Please contact support.".

(** The body of a 500 answer of [Api.handler] and of [App.handler]. *)
Definition api_error_body (w : World) (message : string) : string :=
  dumps_indent2 w
    (PDict [("error", PStr "Internal server error");
            ("message", PStr message)]).

Definition app_error_body (w : World) (message : string) : string :=
  dumps w
    (PDict [("error", PStr message);
            ("message", PStr "Internal server error")]).

Definition pytz_unbound_message : string := "name 'pytz' is not defined".

Definition invalid_json_body (w : World) : string :=
  dumps_indent2 w (PDict [("error", PStr "Invalid JSON in request body")]).

(** An event of the Function URL: method, path and body. *)
Definition http_event (http_method path : string) (body : pyval) : pyval :=
  PDict [("requestContext",
          PDict [("http", PDict [("method", PStr http_method)])]);
         ("rawPath", PStr path);
         ("body", body)].

(** A world in which [import requests] fails. *)
Definition world_without_requests : World :=
  mk_World (now example_world) (now_utc example_world)
    (uuid4_int example_world) (random_index example_world)
    (random_random example_world) (random_randint example_world)
    (environ example_world)
    (fun name => negb (String.eqb name "requests"))
    (s3_list_buckets example_world) (requests_get example_world)
    (py_repr example_world) (json_loads example_world)
    (strftime_pads_year example_world).

(** The price table in pence, and an amount of pence written in pounds
    with two decimals. *)
Definition pence_per_night (lowered_room_type : string) : Z :=
  if String.eqb lowered_room_type "single" then 8999
  else if String.eqb lowered_room_type "double" then 12999
  else if String.eqb lowered_room_type "suite" then 24999
  else 9999.

Definition pounds_and_pence (pence : Z) : string :=
  str_int (pence / 100) ++ "." ++ two_digits (pence mod 100).

(** The total of [nights] at the price of the room type is a float that
    prints as the exact amount. *)
Definition prints_exact_total (lowered_room_type : string) (nights : Z)
  : bool :=
  match float_mul_int (price_per_night lowered_room_type) nights with
  | Ok total =>
      String.eqb (format_2f total)
        (pounds_and_pence (pence_per_night lowered_room_type * nights))
  | Raise _ => false
  end.

(** A context object that lacks [request_id]. *)
Definition bare_context : App.Context :=
  App.mk_Context "object" (Some (PStr "demo")) None.

(** A world in which S3 cannot be reached. *)
Definition world_without_s3 : World :=
  mk_World (now example_world) (now_utc example_world)
    (uuid4_int example_world) (random_index example_world)
    (random_random example_world) (random_randint example_world)
    (environ example_world) (importable example_world)
    (raise Exception "Unable to locate credentials")
    (requests_get example_world)
    (py_repr example_world) (json_loads example_world)
    (strftime_pads_year example_world).

(** A world in which [requests.get] answers with a page of text. *)
Definition page_response : http_response :=
  mk_http_response (Ok tt) (PInt 200) (Some "text/html; charset=utf-8")
    (raise JSONDecodeError "Expecting value: line 1 column 1 (char 0)")
    "<html><body>caf&eacute; menu</body></html>".

Definition world_with_page : World :=
  mk_World (now example_world) (now_utc example_world)
    (uuid4_int example_world) (random_index example_world)
    (random_random example_world) (random_randint example_world)
    (environ example_world) (importable example_world)
    (s3_list_buckets example_world)
    (fun _ => Ok page_response)
    (py_repr example_world) (json_loads example_world)
    (strftime_pads_year example_world).

(** The handler closes the dialog, as Fulfilled or as Failed. *)
Definition closes (r : result pyval) : Prop :=
  exists resp,
    r = Ok resp
    /\ dialog_action_type resp = Some "Close"
    /\ (intent_state resp = Some "Fulfilled"
        \/ intent_state resp = Some "Failed").

(** * Properties *)

(** ** Strings *)

Lemma append_assoc : forall a b c : string, (a ++ b) ++ c = a ++ b ++ c.
Proof.
  induction a as [|x a IH]; intros b c; simpl; [reflexivity | now rewrite IH].
Qed.

Lemma append_nil_r : forall a : string, a ++ "" = a.
Proof.
  induction a as [|x a IH]; simpl; [reflexivity | now rewrite IH].
Qed.

Lemma prefix_append : forall n s, prefix n (n ++ s) = true.
Proof.
  induction n as [|c n IH]; intros s; simpl.
  - destruct s; reflexivity.
  - destruct (ascii_dec c c) as [_|ne]; [apply IH | contradiction].
Qed.

Lemma contains_unfold : forall n h,
  contains n h
  = prefix n h || match h with
                  | EmptyString => false
                  | String _ r => contains n r
                  end.
Proof. intros n h; destruct h; reflexivity. Qed.

Lemma contains_here : forall n s, contains n (n ++ s) = true.
Proof.
  intros n s. rewrite contains_unfold, prefix_append. reflexivity.
Qed.

Lemma contains_append : forall p n s, contains n (p ++ n ++ s) = true.
Proof.
  induction p as [|c p IH]; intros n s; simpl.
  - apply contains_here.
  - rewrite IH. apply orb_true_r.
Qed.

Lemma contains_skip : forall c n h,
  contains n h = true -> contains n (String c h) = true.
Proof.
  intros c n h H. rewrite contains_unfold, H. apply orb_true_r.
Qed.

(** ** Results *)

Lemma bind_ok : forall A B (m : result A) (k : A -> result B) b,
  bind m k = Ok b -> exists a, m = Ok a /\ k a = Ok b.
Proof.
  intros A B [a|e] k b H; simpl in H; [eauto | discriminate].
Qed.

Lemma get_ok_dict : forall v k default x,
  get v k default = Ok x -> exists d, v = PDict d.
Proof.
  intros v k default x H; destruct v; try discriminate; eauto.
Qed.

Lemma get_dict_total : forall d k default,
  exists x, get (PDict d) k default = Ok x.
Proof.
  intros d k default; simpl; destruct (assoc k d); eauto.
Qed.

(** ** C1: an unmatched route *)

Lemma not_found_body : forall w path http_method,
  contains error_pair
    (dumps_indent2 w (Api.not_found path http_method)) = true.
Proof.
  intros w path http_method.
  vm_compute. reflexivity.
Qed.

Lemma api_unmatched_response : forall w event http_method path,
  Api.request_method event = Ok http_method ->
  get event "rawPath" (PStr "/") = Ok path ->
  route_matched path http_method = false ->
  Api.handler w event
  = Ok (Api.create_response w 404 (Api.not_found path http_method)).
Proof.
  intros w event m p Hm Hp Hr.
  destruct (get_ok_dict _ _ _ _ Hp) as [d ->].
  unfold route_matched in Hr.
  apply orb_false_iff in Hr; destruct Hr as [Hr H3].
  apply orb_false_iff in Hr; destruct Hr as [H1 H2].
  unfold Api.handler.
  pose proof Hm as Hm'. unfold Api.request_method in Hm'.
  destruct (Api.request_http (PDict d)) as [http|e] eqn:Hh; [|discriminate].
  cbn [bind]. rewrite Hm. cbn [bind]. rewrite Hp. cbn [bind].
  destruct (get_dict_total d "queryStringParameters" (PDict [])) as [q ->].
  destruct (get_dict_total d "headers" (PDict [])) as [h ->].
  destruct (get_dict_total d "body" (PStr "")) as [b ->].
  cbn [bind]. rewrite H1, H2, H3. reflexivity.
Qed.

(** C1, amended.  When the method and the path of the event match none of
    GET /, GET /health and POST /api/data, the API handler answers with
    status 404, and the body it sends contains the pair as [json.dumps]
    prints it, with a space after the colon: ["error": "Not found"]. *)
Theorem api_unmatched_route_not_found :
  forall w event http_method path,
    Api.request_method event = Ok http_method ->
    get event "rawPath" (PStr "/") = Ok path ->
    route_matched path http_method = false ->
    exists resp body,
      Api.handler w event = Ok resp
      /\ status_code_of resp = Some 404
      /\ body_of resp = Some body
      /\ contains error_pair body = true.
Proof.
  intros w event m p Hm Hp Hr.
  exists (Api.create_response w 404 (Api.not_found p m)).
  exists (dumps_indent2 w (Api.not_found p m)).
  split; [apply api_unmatched_response; assumption|].
  split; [reflexivity|]. split; [reflexivity|].
  apply not_found_body.
Qed.

Lemma api_unmatched_route_not_found_witness :
  exists resp body,
    Api.handler example_world (PDict [("rawPath", PStr "/nope")]) = Ok resp
    /\ status_code_of resp = Some 404
    /\ body_of resp = Some body
    /\ contains error_pair body = true.
Proof.
  apply (api_unmatched_route_not_found example_world
           (PDict [("rawPath", PStr "/nope")]) (PStr "GET") (PStr "/nope"));
    reflexivity.
Defined.

(** C1 as stated fails: for the path /nope the handler answers 404, and
    the body does not contain ["error":"Not found"] written without a
    space. *)
Lemma api_not_found_body_is_not_compact :
  exists resp body,
    Api.handler example_world (PDict [("rawPath", PStr "/nope")]) = Ok resp
    /\ status_code_of resp = Some 404
    /\ body_of resp = Some body
    /\ contains error_pair_compact body = false.
Proof.
  eexists. eexists.
  split; [vm_compute; reflexivity|].
  split; [reflexivity|]. split; [reflexivity|].
  vm_compute. reflexivity.
Qed.

(** ** Characters and numerals *)

Lemma ord_chr : forall n, 0 <= n < 256 -> ord (chr n) = n.
Proof.
  intros n Hn. unfold ord, chr.
  rewrite nat_ascii_embedding by lia. lia.
Qed.

Lemma is_digit_digit_char : forall d, 0 <= d <= 9 -> is_digit (digit_char d) = true.
Proof.
  intros d Hd. unfold is_digit, digit_char.
  rewrite ord_chr by lia.
  apply andb_true_intro; split; apply Z.leb_le; lia.
Qed.

Lemma is_upper_letter : forall k, 0 <= k < 26 -> is_upper (chr (ord "A" + k)) = true.
Proof.
  intros k Hk. unfold is_upper.
  change (ord "A") with 65.
  rewrite ord_chr by lia.
  apply andb_true_intro; split; apply Z.leb_le; lia.
Qed.

Lemma digits_acc_digits : forall fuel n acc,
  0 <= n ->
  all_chars is_digit acc = true ->
  all_chars is_digit (digits_acc fuel n acc) = true.
Proof.
  induction fuel as [|f IH]; intros n acc Hn Hacc; simpl.
  - exact Hacc.
  - assert (Hd : all_chars is_digit (String (digit_char (n mod 10)) acc) = true).
    { simpl. rewrite is_digit_digit_char, Hacc; [reflexivity|].
      pose proof (Z.mod_pos_bound n 10); lia. }
    destruct (n <? 10); [exact Hd|].
    apply IH; [apply Z.div_pos; lia | exact Hd].
Qed.

Lemma digits_acc_grows : forall fuel n acc,
  (String.length acc <= String.length (digits_acc fuel n acc))%nat.
Proof.
  induction fuel as [|f IH]; intros n acc; simpl.
  - lia.
  - destruct (n <? 10); simpl.
    + lia.
    + specialize (IH (n / 10) (String (digit_char (n mod 10)) acc)).
      simpl in IH. lia.
Qed.

(** A number of at least [10 ^ k] has more than [k] digits, when the fuel
    suffices to write them. *)
Lemma digits_acc_length : forall fuel n acc k,
  10 ^ Z.of_nat k <= n ->
  (k < fuel)%nat ->
  (String.length acc + k + 1 <= String.length (digits_acc fuel n acc))%nat.
Proof.
  induction fuel as [|f IH]; intros n acc k Hk Hf; [lia|].
  simpl. destruct (n <? 10) eqn:Hlt.
  - apply Z.ltb_lt in Hlt.
    destruct k as [|k]; [simpl; lia|].
    exfalso.
    assert (10 ^ 1 <= 10 ^ Z.of_nat (S k)) by (apply Z.pow_le_mono_r; lia).
    lia.
  - apply Z.ltb_ge in Hlt.
    destruct k as [|k].
    + pose proof (digits_acc_grows f (n / 10)
                    (String (digit_char (n mod 10)) acc)) as G.
      simpl in G. lia.
    + specialize (IH (n / 10) (String (digit_char (n mod 10)) acc) k).
      simpl String.length in IH.
      assert (H10 : 10 ^ Z.of_nat k <= n / 10).
      { apply Z.div_le_lower_bound; [lia|].
        replace (Z.of_nat (S k)) with (Z.of_nat k + 1) in Hk by lia.
        rewrite Z.pow_add_r in Hk by lia. lia. }
      specialize (IH H10). lia.
Qed.

Lemma str_nonneg_digits : forall n,
  0 <= n -> all_chars is_digit (str_nonneg n) = true.
Proof.
  intros n Hn. apply digits_acc_digits; [exact Hn | reflexivity].
Qed.

Lemma str_nonneg_length5 : forall n,
  10 ^ 4 <= n -> (5 <= String.length (str_nonneg n))%nat.
Proof.
  intros n Hn. unfold str_nonneg.
  pose proof (digits_acc_length (S (Z.to_nat (Z.log2 n))) n "" 4) as L.
  simpl String.length in L.
  assert (Hlog : Z.log2 (10 ^ 4) <= Z.log2 n) by (apply Z.log2_le_mono; exact Hn).
  change (Z.log2 (10 ^ 4)) with 13 in Hlog.
  apply L; [exact Hn | lia].
Qed.

Lemma digit_no_continuation : forall c,
  is_digit c = true -> continuation_bytes c = 0%nat.
Proof.
  intros c H. unfold is_digit in H. apply andb_true_iff in H.
  destruct H as [_ H]. apply Z.leb_le in H.
  unfold continuation_bytes.
  destruct (ord c <? 192) eqn:E; [reflexivity|].
  apply Z.ltb_ge in E. lia.
Qed.

(** The first five characters of a numeral with at least five digits. *)
Lemma take5_digits : forall s,
  all_chars is_digit s = true ->
  (5 <= String.length s)%nat ->
  exists d1 d2 d3 d4 d5,
    take 5 s = String d1 (String d2 (String d3 (String d4 (String d5 ""))))
    /\ is_digit d1 = true /\ is_digit d2 = true /\ is_digit d3 = true
    /\ is_digit d4 = true /\ is_digit d5 = true.
Proof.
  intros s Hs Hl.
  destruct s as [|d1 [|d2 [|d3 [|d4 [|d5 r]]]]]; simpl in Hl; try lia.
  simpl in Hs.
  repeat (apply andb_true_iff in Hs; let H := fresh "D" in destruct Hs as [H Hs]).
  exists d1, d2, d3, d4, d5.
  split; [|tauto].
  unfold take; simpl.
  rewrite (digit_no_continuation d1), (digit_no_continuation d2),
    (digit_no_continuation d3), (digit_no_continuation d4),
    (digit_no_continuation d5) by assumption.
  destruct r; reflexivity.
Qed.

Lemma uuid4_lower_bound : forall u, is_uuid4 u -> 2 ^ 78 <= u.
Proof.
  intros u [[H0 H1] [Hv _]].
  rewrite Z.shiftr_div_pow2 in Hv by lia.
  change 15 with (Z.ones 4) in Hv.
  rewrite Z.land_ones in Hv by lia.
  assert (Hq : 0 <= u / 2 ^ 76) by (apply Z.div_pos; lia).
  assert (H4 : 4 <= u / 2 ^ 76).
  { pose proof (Z.mod_le (u / 2 ^ 76) (2 ^ 4) Hq ltac:(lia)). lia. }
  assert (Hm : 2 ^ 76 * (u / 2 ^ 76) <= u)
    by (apply Z.mul_div_le; lia).
  change (2 ^ 78) with (2 ^ 76 * 4). lia.
Qed.

(** ** C3: booking numbers *)

(** C3.  Whatever version 4 UUIDs are drawn, [generate_booking_number]
    returns three uppercase letters followed by five decimal digits. *)
Theorem booking_number_pattern :
  forall w,
    (forall i, is_uuid4 (uuid4_int w i)) ->
    is_booking_id (generate_booking_number w) = true.
Proof.
  intros w Hu.
  unfold generate_booking_number.
  pose proof (uuid4_lower_bound _ (Hu 3%nat)) as Hlow.
  assert (Hpos : 0 <= uuid4_int w 3) by lia.
  unfold str_int.
  destruct (uuid4_int w 3 <? 0) eqn:Hneg; [apply Z.ltb_lt in Hneg; lia|].
  destruct (take5_digits (str_nonneg (uuid4_int w 3)))
    as (d1 & d2 & d3 & d4 & d5 & -> & D1 & D2 & D3 & D4 & D5).
  - apply str_nonneg_digits; exact Hpos.
  - apply str_nonneg_length5. lia.
  - cbn [map string_of_list_ascii append is_booking_id].
    rewrite !is_upper_letter, D1, D2, D3, D4, D5; try reflexivity;
      apply Z.mod_pos_bound; lia.
Qed.

Lemma booking_number_pattern_witness :
  (forall i, is_uuid4 (uuid4_int example_world i))
  /\ is_booking_id (generate_booking_number example_world) = true.
Proof.
  assert (H : forall i, is_uuid4 (uuid4_int example_world i)).
  { intros i. simpl. unfold is_uuid4, example_uuid.
    split; [lia|]. split; reflexivity. }
  split; [exact H | apply (booking_number_pattern example_world H)].
Defined.

(** The fuel of [str_nonneg] suffices: the numeral reads back as the
    number. *)
Lemma digits_value_append : forall s t v,
  digits_value (s ++ t) v = digits_value t (digits_value s v).
Proof.
  induction s as [|c s IH]; intros t v; simpl; [reflexivity | apply IH].
Qed.

Lemma digits_acc_value : forall fuel n acc,
  0 <= n < 2 ^ Z.of_nat fuel ->
  exists s, digits_acc fuel n acc = s ++ acc /\ digits_value s 0 = n.
Proof.
  induction fuel as [|f IH]; intros n acc Hn.
  - simpl in Hn. exists "". split; [reflexivity | simpl; lia].
  - simpl digits_acc.
    assert (Hd : ord (digit_char (n mod 10)) - 48 = n mod 10).
    { unfold digit_char. pose proof (Z.mod_pos_bound n 10).
      rewrite ord_chr by lia. lia. }
    destruct (n <? 10) eqn:Hlt.
    + apply Z.ltb_lt in Hlt.
      exists (String (digit_char (n mod 10)) ""). split; [reflexivity|].
      cbn [digits_value]. rewrite Hd. rewrite Z.mod_small by lia. lia.
    + apply Z.ltb_ge in Hlt.
      destruct (IH (n / 10) (String (digit_char (n mod 10)) acc)) as (s & E & V).
      { split; [apply Z.div_pos; lia|].
        apply Z.div_lt_upper_bound; [lia|].
        replace (Z.of_nat (S f)) with (Z.of_nat f + 1) in Hn by lia.
        rewrite Z.pow_add_r in Hn by lia. change (2 ^ 1) with 2 in Hn.
        pose proof (Z.pow_pos_nonneg 2 (Z.of_nat f)). lia. }
      exists (s ++ String (digit_char (n mod 10)) ""). split.
      * rewrite E. rewrite append_assoc. reflexivity.
      * rewrite digits_value_append, V. cbn [digits_value]. rewrite Hd.
        pose proof (Z.div_mod n 10 ltac:(lia)). lia.
Qed.

Lemma str_nonneg_value : forall n, 0 <= n -> digits_value (str_nonneg n) 0 = n.
Proof.
  intros n Hn. unfold str_nonneg.
  destruct (digits_acc_value (S (Z.to_nat (Z.log2 n))) n "") as (s & E & V).
  - split; [exact Hn|].
    destruct (Z.eq_dec n 0) as [->|Hz]; [reflexivity|].
    replace (Z.of_nat (S (Z.to_nat (Z.log2 n)))) with (Z.succ (Z.log2 n))
      by (pose proof (Z.log2_nonneg n); lia).
    apply Z.log2_spec. lia.
  - rewrite E, append_nil_r. exact V.
Qed.

(** ** Lookups in an event *)

Lemma getitem_ok : forall v k x,
  getitem v k = Ok x -> exists d, v = PDict d /\ assoc k d = Some x.
Proof.
  intros v k x H. destruct v; try discriminate.
  simpl in H. destruct (assoc k d) eqn:E; [|discriminate].
  inversion H; subst. eauto.
Qed.

Lemma assoc_some_truthy : forall k d x,
  assoc k d = Some x -> truthy (PDict d) = true.
Proof.
  intros k d x H. destruct d; [discriminate | reflexivity].
Qed.

(** A slot whose interpreted value can be read is a filled slot. *)
Lemma interpreted_value_filled : forall slots name v,
  interpreted_value slots name = Ok v -> slot_has_value slots name = Ok true.
Proof.
  intros slots name v H. unfold interpreted_value in H.
  apply bind_ok in H; destruct H as (slot & Hslot & H).
  apply bind_ok in H; destruct H as (value & Hvalue & H).
  apply getitem_ok in Hslot; destruct Hslot as (d & -> & Hd).
  apply getitem_ok in Hvalue; destruct Hvalue as (ds & -> & Hds).
  apply getitem_ok in H; destruct H as (dv & -> & Hdv).
  unfold slot_has_value. cbn [get getitem bind]. rewrite Hd. cbn [bind].
  rewrite (assoc_some_truthy _ _ _ Hds). cbn [get bind]. rewrite Hds.
  cbn [bind]. rewrite (assoc_some_truthy _ _ _ Hdv). reflexivity.
Qed.

Lemma event_slots_intent : forall event slots,
  event_slots event = Ok slots -> exists intent, event_intent event = Ok intent.
Proof.
  intros event slots H. unfold event_slots in H.
  apply bind_ok in H; destruct H as (intent & Hi & _). eauto.
Qed.

Lemma event_name_intent : forall event name,
  event_intent_name event = Ok name ->
  exists d, event_intent event = Ok (PDict d).
Proof.
  intros event name H. unfold event_intent_name in H.
  apply bind_ok in H; destruct H as (intent & Hi & H).
  apply getitem_ok in H; destruct H as (d & -> & _). eauto.
Qed.

(** ** The dialog hook on a BookRoom event *)

Lemma dialog_book_room_route : forall w event source,
  event_intent_name event = Ok (PStr "BookRoom") ->
  getitem event "invocationSource" = Ok source ->
  DialogHook.lambda_handler w event = DialogHook.handle_book_room_dialog w event.
Proof.
  intros w event source Hn Hs. unfold DialogHook.lambda_handler.
  rewrite Hn, Hs. reflexivity.
Qed.

Lemma elicit_slot_ok : forall event intent slot message,
  event_intent event = Ok intent ->
  exists resp,
    DialogHook.elicit_slot event slot message = Ok resp
    /\ dialog_action_type resp = Some "ElicitSlot"
    /\ slot_to_elicit resp = Some slot
    /\ message_content resp = Some message.
Proof.
  intros event intent slot message H. unfold DialogHook.elicit_slot.
  rewrite H. cbn [bind]. eexists. split; [reflexivity|].
  repeat split.
Qed.

Lemma delegate_ok : forall event intent,
  event_intent event = Ok intent ->
  exists resp,
    DialogHook.delegate event = Ok resp
    /\ dialog_action_type resp = Some "Delegate"
    /\ slot_to_elicit resp = None
    /\ message_content resp = None.
Proof.
  intros event intent H. unfold DialogHook.delegate.
  rewrite H. cbn [bind]. eexists. split; [reflexivity|].
  repeat split.
Qed.

Lemma and_then_returns : forall m rest,
  and_then (returns m) rest = m.
Proof.
  intros [r|e] rest; reflexivity.
Qed.

Lemma and_then_none : forall rest, and_then (Ok None) rest = rest.
Proof. reflexivity. Qed.

Lemma validate_room_type_rejects : forall event slots v,
  interpreted_value slots "RoomType" = Ok (PStr v) ->
  string_in (lower v) ["single"; "double"; "suite"] = false ->
  DialogHook.validate_room_type event slots
  = returns (DialogHook.elicit_slot event "RoomType" room_type_message).
Proof.
  intros event slots v Hv Hn. unfold DialogHook.validate_room_type.
  rewrite (interpreted_value_filled _ _ _ Hv). cbn [bind].
  rewrite Hv. cbn [bind py_lower]. rewrite Hn. reflexivity.
Qed.

Lemma validate_room_type_accepts : forall event slots v,
  interpreted_value slots "RoomType" = Ok (PStr v) ->
  string_in (lower v) ["single"; "double"; "suite"] = true ->
  DialogHook.validate_room_type event slots = Ok None.
Proof.
  intros event slots v Hv Hn. unfold DialogHook.validate_room_type.
  rewrite (interpreted_value_filled _ _ _ Hv). cbn [bind].
  rewrite Hv. cbn [bind py_lower]. rewrite Hn. reflexivity.
Qed.

(** ** C5: the room type rule *)

(** C5, amended.  The room type is compared after [lower()]: when the
    RoomType slot of a BookRoom dialog event is filled with a value whose
    lower-case form is none of single, double and suite, the validator
    answers ElicitSlot for RoomType with the correction message. *)
Theorem room_type_rule :
  forall w event source slots v,
    event_intent_name event = Ok (PStr "BookRoom") ->
    getitem event "invocationSource" = Ok source ->
    event_slots event = Ok slots ->
    interpreted_value slots "RoomType" = Ok (PStr v) ->
    string_in (lower v) ["single"; "double"; "suite"] = false ->
    exists resp,
      DialogHook.lambda_handler w event = Ok resp
      /\ dialog_action_type resp = Some "ElicitSlot"
      /\ slot_to_elicit resp = Some "RoomType"
      /\ message_content resp = Some room_type_message.
Proof.
  intros w event source slots v Hn Hs Hslots Hv Hin.
  rewrite (dialog_book_room_route w event source Hn Hs).
  unfold DialogHook.handle_book_room_dialog.
  rewrite Hslots. cbn [bind].
  rewrite (validate_room_type_rejects event slots v Hv Hin), and_then_returns.
  destruct (event_slots_intent _ _ Hslots) as [intent Hi].
  apply (elicit_slot_ok event intent); exact Hi.
Qed.

Lemma room_type_rule_witness :
  exists resp,
    DialogHook.lambda_handler example_world
      (lex_event "BookRoom" [("RoomType", filled_slot "Penthouse")]) = Ok resp
    /\ dialog_action_type resp = Some "ElicitSlot"
    /\ slot_to_elicit resp = Some "RoomType"
    /\ message_content resp = Some room_type_message.
Proof.
  apply (room_type_rule example_world
           (lex_event "BookRoom" [("RoomType", filled_slot "Penthouse")])
           (PStr "DialogCodeHook")
           (PDict [("RoomType", filled_slot "Penthouse")]) "Penthouse");
    reflexivity.
Defined.

(** C5 as stated fails: the value Double is not one of single, double and
    suite, and the validator does not ask for the room type again. *)
Lemma room_type_capitalised_is_accepted :
  string_in "Double" ["single"; "double"; "suite"] = false
  /\ exists resp,
       DialogHook.lambda_handler example_world
         (lex_event "BookRoom" [("RoomType", filled_slot "Double")]) = Ok resp
       /\ dialog_action_type resp = Some "Delegate".
Proof.
  split; [reflexivity|].
  eexists. split; [vm_compute; reflexivity | reflexivity].
Qed.

(** ** The calendar *)

Lemma days_before_year_step : forall y,
  days_before_year (y + 1) = days_before_year y + year_length y.
Proof.
  intros y. unfold days_before_year, year_length, is_leap.
  replace (y + 1 - 1) with y by lia.
  destruct (Z.eqb_spec (y mod 4) 0), (Z.eqb_spec (y mod 100) 0),
    (Z.eqb_spec (y mod 400) 0); cbn [andb orb negb];
    Z.div_mod_to_equations; lia.
Qed.

Lemma days_before_year_mono : forall y1 y2,
  y1 <= y2 -> days_before_year y1 <= days_before_year y2.
Proof.
  intros y1 y2 H. unfold days_before_year.
  Z.div_mod_to_equations. lia.
Qed.

Ltac month_cases m :=
  let H := fresh "Hm" in
  assert (H : m = 1 \/ m = 2 \/ m = 3 \/ m = 4 \/ m = 5 \/ m = 6 \/ m = 7
              \/ m = 8 \/ m = 9 \/ m = 10 \/ m = 11 \/ m = 12) by lia;
  repeat (destruct H as [H|H]); subst m.

Ltac calendar_cbn :=
  cbn [Z.ltb Z.eqb Z.compare Pos.compare Pos.compare_cont Pos.eqb andb orb
       negb] in *.

Lemma day_of_year_bounds : forall y m d,
  1 <= m <= 12 -> 1 <= d <= days_in_month y m ->
  1 <= days_before_month y m + d <= year_length y.
Proof.
  intros y m d Hm Hd. unfold year_length.
  unfold days_before_month, days_in_month in *.
  destruct (is_leap y); month_cases m; calendar_cbn; lia.
Qed.

Lemma days_before_month_next : forall y m1 m2 d,
  1 <= m1 -> m1 < m2 -> m2 <= 12 -> d <= days_in_month y m1 ->
  days_before_month y m1 + d <= days_before_month y m2.
Proof.
  intros y m1 m2 d H1 H12 H2 Hd.
  unfold days_before_month, days_in_month in *.
  destruct (is_leap y); month_cases m1; month_cases m2; calendar_cbn; lia.
Qed.

(** The order of dates is the order of their ordinals. *)
Lemma date_ltb_ordinal : forall a b,
  valid_date a -> valid_date b ->
  date_ltb a b = true -> toordinal a < toordinal b.
Proof.
  intros [ya ma da] [yb mb db] (Hya & Hma & Hda) (Hyb & Hmb & Hdb) H.
  unfold date_ltb, toordinal in *. cbn [year month day] in *.
  pose proof (day_of_year_bounds ya ma da Hma Hda) as Ba.
  pose proof (day_of_year_bounds yb mb db Hmb Hdb) as Bb.
  apply orb_true_iff in H. destruct H as [H|H].
  - apply Z.ltb_lt in H.
    pose proof (days_before_year_step ya) as S.
    pose proof (days_before_year_mono (ya + 1) yb ltac:(lia)). lia.
  - apply andb_true_iff in H. destruct H as [Hy H]. apply Z.eqb_eq in Hy.
    subst yb. apply orb_true_iff in H. destruct H as [H|H].
    + apply Z.ltb_lt in H.
      pose proof (days_before_month_next ya ma mb da ltac:(lia) H ltac:(lia)
                    ltac:(lia)). lia.
    + apply andb_true_iff in H. destruct H as [Hm H]. apply Z.eqb_eq in Hm.
      apply Z.ltb_lt in H. subst mb. lia.
Qed.

Lemma date_ltb_total : forall a b,
  date_ltb a b = false -> a = b \/ date_ltb b a = true.
Proof.
  intros [ya ma da] [yb mb db] H. unfold date_ltb in *.
  cbn [year month day] in *.
  destruct (Z.ltb_spec ya yb), (Z.eqb_spec ya yb), (Z.ltb_spec ma mb),
    (Z.eqb_spec ma mb), (Z.ltb_spec da db); cbn in H; try discriminate;
    destruct (Z.ltb_spec yb ya), (Z.eqb_spec yb ya), (Z.ltb_spec mb ma),
      (Z.eqb_spec mb ma), (Z.ltb_spec db da); cbn; try lia; auto;
    left; f_equal; lia.
Qed.

Lemma date_ltb_false_ordinal : forall a b,
  valid_date a -> valid_date b ->
  date_ltb a b = false -> toordinal b <= toordinal a.
Proof.
  intros a b Ha Hb H.
  destruct (date_ltb_total a b H) as [->|H']; [lia|].
  pose proof (date_ltb_ordinal b a Hb Ha H'). lia.
Qed.

Lemma toordinal_max : forall d, valid_date d -> toordinal d <= max_ordinal.
Proof.
  intros [y m d] (Hy & Hm & Hd). unfold toordinal. cbn [year month day] in *.
  pose proof (day_of_year_bounds y m d Hm Hd).
  pose proof (days_before_year_step y).
  pose proof (days_before_year_mono (y + 1) 10000 ltac:(lia)) as M.
  change (days_before_year 10000) with max_ordinal in M. lia.
Qed.

(** ** What [strptime] accepts *)

Lemma is_digit_val : forall c, is_digit c = true -> 0 <= digit_val c <= 9.
Proof.
  intros c H. unfold is_digit, digit_val in *.
  apply andb_true_iff in H. destruct H as [H1 H2].
  apply Z.leb_le in H1. apply Z.leb_le in H2. lia.
Qed.

Lemma in_range_val : forall lo hi c,
  in_range lo hi c = true -> lo <= digit_val c <= hi.
Proof.
  intros lo hi c H. unfold in_range in H.
  apply andb_true_iff in H. destruct H as [H _].
  apply andb_true_iff in H. destruct H as [H1 H2].
  apply Z.leb_le in H1. apply Z.leb_le in H2. lia.
Qed.

Ltac bool_facts :=
  repeat match goal with
  | H : _ && _ = true |- _ => apply andb_true_iff in H; destruct H
  | H : (_ =? _) = true |- _ => apply Z.eqb_eq in H
  | H : in_range _ _ _ = true |- _ => apply in_range_val in H
  | H : is_digit _ = true |- _ => apply is_digit_val in H
  end.

Ltac first_of_pair H :=
  match type of H with
  | Some (?x, _) = Some (?y, _) =>
      let E := fresh "E" in
      assert (E : y = x) by congruence; rewrite E; clear E H
  end.

Ltac split_ifs H :=
  repeat match type of H with
  | (if ?c then _ else _) = _ => destruct c eqn:?
  end.

Lemma match_year_bounds : forall s y r,
  match_year s = Some (y, r) -> 0 <= y <= 9999.
Proof.
  intros s y r H. destruct s as [|a [|b [|c [|d s]]]]; try discriminate.
  cbn [match_year] in H. split_ifs H; [|discriminate].
  first_of_pair H. bool_facts. lia.
Qed.

Lemma match_month_bounds : forall s m r,
  match_month s = Some (m, r) -> 1 <= m <= 12.
Proof.
  intros s m r H. destruct s as [|a [|b s]]; try discriminate;
    cbn [match_month] in H; split_ifs H; try discriminate;
    first_of_pair H; bool_facts; lia.
Qed.

Lemma match_day_bounds : forall s d r,
  match_day s = Some (d, r) -> 1 <= d <= 31.
Proof.
  intros s d r H. destruct s as [|a [|b s]]; try discriminate;
    cbn [match_day] in H; split_ifs H; try discriminate;
    first_of_pair H; bool_facts; lia.
Qed.

(** A date that [strptime] returns exists in the calendar. *)
Lemma strptime_valid : forall s d, strptime_ymd s = Ok d -> valid_date d.
Proof.
  intros s d H. unfold strptime_ymd in H.
  destruct (match_ymd s) as [[[[y m] dd] rest]|] eqn:E; [|discriminate].
  unfold match_ymd in E.
  destruct (match_year s) as [[y' s1]|] eqn:Ey; [|discriminate].
  destruct (match_dash s1) as [s2|]; [|discriminate].
  destruct (match_month s2) as [[m' s3]|] eqn:Em; [|discriminate].
  destruct (match_dash s3) as [s4|]; [|discriminate].
  destruct (match_day s4) as [[d' s5]|] eqn:Ed; [|discriminate].
  injection E as -> -> -> ->.
  apply match_year_bounds in Ey. apply match_month_bounds in Em.
  apply match_day_bounds in Ed.
  destruct (negb (rest =? "")%string); [discriminate|].
  destruct (Z.eqb_spec y 0); [discriminate|].
  destruct (Z.ltb_spec (days_in_month y m) dd); [discriminate|].
  injection H as <-. unfold valid_date; cbn [year month day]. lia.
Qed.

Lemma toordinal_positive : forall d, valid_date d -> 1 <= toordinal d.
Proof.
  intros [y m d] (Hy & Hm & Hd). unfold toordinal. cbn [year month day] in *.
  pose proof (day_of_year_bounds y m d Hm Hd).
  pose proof (days_before_year_mono 1 y ltac:(lia)) as M.
  change (days_before_year 1) with 0 in M. lia.
Qed.

(** ** C6: the check-in date rule *)

Lemma micros_of_day_nonneg : forall t, valid_datetime t -> 0 <= micros_of_day t.
Proof.
  intros t (_ & Hh & Hm & Hs & Hu). unfold micros_of_day. nia.
Qed.

Section CheckInDate.

Variables (w : World) (event slots : pyval) (s : string) (d : date).
Hypothesis Hci : interpreted_value slots "CheckInDate" = Ok (PStr s).
Hypothesis Hparse : strptime_ymd s = Ok d.
Hypothesis Hclock : valid_datetime (now w).

Let today := dt_date (now w).

Lemma check_in_date_unfold :
  DialogHook.validate_check_in_date w event slots
  = try_except
      (if date_ltb d today then
         returns (DialogHook.elicit_slot event "CheckInDate" past_date_message)
       else
         max_future_date <- add_days (timepoint_of (now w)) 365 ;;
         if timepoint_gtb (midnight d) max_future_date then
           returns (DialogHook.elicit_slot event "CheckInDate" far_date_message)
         else Ok None)
      [(ValueError, fun _ =>
          returns (DialogHook.elicit_slot event "CheckInDate"
            "I couldn't understand that date. Please provide the check-in date in DD/MM/YYYY format."))].
Proof.
  unfold DialogHook.validate_check_in_date.
  rewrite (interpreted_value_filled _ _ _ Hci). cbn [bind].
  rewrite Hci. cbn [bind py_strptime_ymd]. rewrite Hparse. reflexivity.
Qed.

Lemma check_in_date_past : forall resp,
  toordinal d < toordinal today ->
  DialogHook.elicit_slot event "CheckInDate" past_date_message = Ok resp ->
  DialogHook.validate_check_in_date w event slots = Ok (Some resp).
Proof.
  intros resp Hlt He. rewrite check_in_date_unfold.
  destruct (date_ltb d today) eqn:L.
  - rewrite He. reflexivity.
  - pose proof (date_ltb_false_ordinal d today (strptime_valid _ _ Hparse)
                  (proj1 Hclock) L). lia.
Qed.

Lemma check_in_date_far : forall resp,
  toordinal today + 365 < toordinal d ->
  DialogHook.elicit_slot event "CheckInDate" far_date_message = Ok resp ->
  DialogHook.validate_check_in_date w event slots = Ok (Some resp).
Proof.
  intros resp Hgt He. rewrite check_in_date_unfold.
  pose proof (strptime_valid _ _ Hparse) as Vd.
  destruct (date_ltb d today) eqn:L.
  - pose proof (date_ltb_ordinal d today Vd (proj1 Hclock) L). lia.
  - pose proof (toordinal_max d Vd). pose proof (toordinal_positive today (proj1 Hclock)).
    unfold add_days, timepoint_of. cbn [fst snd]. fold today.
    destruct (Z.ltb_spec max_ordinal (toordinal today + 365)); [lia|].
    destruct (Z.ltb_spec (toordinal today + 365) 1); [lia|].
    cbn [orb bind]. unfold timepoint_gtb, midnight. cbn [fst snd].
    destruct (Z.ltb_spec (toordinal today + 365) (toordinal d)); [|lia].
    cbn [orb]. rewrite He. reflexivity.
Qed.

Lemma check_in_date_within :
  toordinal today <= toordinal d <= toordinal today + 365 ->
  toordinal today + 365 <= max_ordinal ->
  DialogHook.validate_check_in_date w event slots = Ok None.
Proof.
  intros [Hlo Hhi] Hmax. rewrite check_in_date_unfold.
  pose proof (strptime_valid _ _ Hparse) as Vd.
  destruct (date_ltb d today) eqn:L.
  - pose proof (date_ltb_ordinal d today Vd (proj1 Hclock) L). lia.
  - pose proof (toordinal_positive today (proj1 Hclock)).
    pose proof (micros_of_day_nonneg _ Hclock).
    unfold add_days, timepoint_of. cbn [fst snd]. fold today.
    destruct (Z.ltb_spec max_ordinal (toordinal today + 365)); [lia|].
    destruct (Z.ltb_spec (toordinal today + 365) 1); [lia|].
    cbn [orb bind]. unfold timepoint_gtb, midnight. cbn [fst snd].
    destruct (Z.ltb_spec (toordinal today + 365) (toordinal d)); [lia|].
    destruct (Z.ltb_spec (micros_of_day (now w)) 0); [lia|].
    rewrite andb_false_r. reflexivity.
Qed.

End CheckInDate.

Lemma elicit_slot_names : forall event slot message resp,
  DialogHook.elicit_slot event slot message = Ok resp ->
  dialog_action_type resp = Some "ElicitSlot"
  /\ slot_to_elicit resp = Some slot
  /\ message_content resp = Some message.
Proof.
  intros event slot message resp H. unfold DialogHook.elicit_slot in H.
  destruct (event_intent event) as [intent|e]; [|discriminate].
  cbn [bind] in H. injection H as <-. repeat split.
Qed.

Lemma returns_elicit : forall event slot message r,
  returns (DialogHook.elicit_slot event slot message) = Ok (Some r) ->
  slot_to_elicit r = Some slot.
Proof.
  intros event slot message r H. unfold returns in H.
  destruct (DialogHook.elicit_slot event slot message) as [r'|e] eqn:E;
    [|discriminate].
  cbn [bind] in H. injection H as <-.
  apply (elicit_slot_names _ _ _ _ E).
Qed.

Lemma validate_nights_elicits : forall event slots r,
  DialogHook.validate_nights event slots = Ok (Some r) ->
  slot_to_elicit r = Some "Nights".
Proof.
  intros event slots r H. unfold DialogHook.validate_nights in H.
  destruct (slot_has_value slots "Nights") as [[|]|e]; cbn [bind] in H;
    try discriminate.
  unfold try_except in H.
  destruct (interpreted_value slots "Nights") as [v|e]; cbn [bind] in H.
  - destruct (py_int v) as [n|e]; cbn [bind] in H.
    + destruct (n <? 1); [|destruct (30 <? n)].
      * destruct (returns _) as [o|e] eqn:R in H.
        -- injection H as ->. apply (returns_elicit _ _ _ _ R).
        -- cbn [dispatch] in H. destruct (isinstance e ValueError);
             [apply (returns_elicit _ _ _ _ H) | discriminate].
      * destruct (returns _) as [o|e] eqn:R in H.
        -- injection H as ->. apply (returns_elicit _ _ _ _ R).
        -- cbn [dispatch] in H. destruct (isinstance e ValueError);
             [apply (returns_elicit _ _ _ _ H) | discriminate].
      * discriminate.
    + cbn [dispatch] in H. destruct (isinstance e ValueError);
        [apply (returns_elicit _ _ _ _ H) | discriminate].
  - cbn [dispatch] in H. destruct (isinstance e ValueError);
      [apply (returns_elicit _ _ _ _ H) | discriminate].
Qed.

Lemma check_availability_elicits : forall w event slots r,
  DialogHook.check_availability w event slots = Ok (Some r) ->
  slot_to_elicit r = Some "RoomType".
Proof.
  intros w event slots r H. unfold DialogHook.check_availability in H.
  destruct (DialogHook.all_filled _ _) as [[|]|e]; cbn [bind] in H;
    try discriminate.
  destruct (interpreted_value slots "RoomType") as [v|e]; cbn [bind] in H;
    [|discriminate].
  destruct (negb _); [|discriminate].
  apply (returns_elicit _ _ _ _ H).
Qed.

Lemma delegate_names : forall event resp,
  DialogHook.delegate event = Ok resp ->
  dialog_action_type resp = Some "Delegate" /\ slot_to_elicit resp = None.
Proof.
  intros event resp H. unfold DialogHook.delegate in H.
  destruct (event_intent event) as [intent|e]; [|discriminate].
  cbn [bind] in H. injection H as <-. split; reflexivity.
Qed.

(** After the date rule, only RoomType and Nights can be asked again. *)
Lemma after_date_rule : forall w event slots resp,
  and_then (DialogHook.validate_nights event slots)
    (and_then (DialogHook.check_availability w event slots)
       (DialogHook.delegate event)) = Ok resp ->
  slot_to_elicit resp <> Some "CheckInDate".
Proof.
  intros w event slots resp H. unfold and_then in H.
  destruct (DialogHook.validate_nights event slots) as [[r|]|e] eqn:N;
    cbn [bind] in H; try discriminate.
  - injection H as <-. rewrite (validate_nights_elicits _ _ _ N). discriminate.
  - destruct (DialogHook.check_availability w event slots) as [[r|]|e] eqn:A;
      cbn [bind] in H; try discriminate.
    + injection H as <-. rewrite (check_availability_elicits _ _ _ _ A).
      discriminate.
    + destruct (delegate_names _ _ H) as [_ ->]. discriminate.
Qed.

(** C6, amended.  The room type is checked before the date.  For a
    BookRoom dialog event whose RoomType rule does not reject and whose
    CheckInDate slot holds a string that [strptime] reads as the date [d]:
    when [d] is before today, the validator asks for CheckInDate again;
    when [d] is more than 365 days after today, it does so too; when [d]
    lies between today and today + 365 days the date rule returns nothing
    and the answer is that of the later steps, which never ask for
    CheckInDate. *)
Theorem check_in_date_rule :
  forall w event source slots s d,
    event_intent_name event = Ok (PStr "BookRoom") ->
    getitem event "invocationSource" = Ok source ->
    event_slots event = Ok slots ->
    DialogHook.validate_room_type event slots = Ok None ->
    interpreted_value slots "CheckInDate" = Ok (PStr s) ->
    strptime_ymd s = Ok d ->
    valid_datetime (now w) ->
    let today := toordinal (dt_date (now w)) in
    (toordinal d < today ->
       dialog_elicits w event "CheckInDate" past_date_message)
    /\ (today + 365 < toordinal d ->
          dialog_elicits w event "CheckInDate" far_date_message)
    /\ (today <= toordinal d <= today + 365 ->
        today + 365 <= max_ordinal ->
          DialogHook.validate_check_in_date w event slots = Ok None
          /\ DialogHook.lambda_handler w event
             = and_then (DialogHook.validate_nights event slots)
                 (and_then (DialogHook.check_availability w event slots)
                    (DialogHook.delegate event))
          /\ forall resp,
               DialogHook.lambda_handler w event = Ok resp ->
               slot_to_elicit resp <> Some "CheckInDate").
Proof.
  intros w event source slots s d Hn Hs Hslots Hroom Hci Hparse Hclock today.
  destruct (event_slots_intent _ _ Hslots) as [intent Hi].
  assert (Hh : forall step,
            DialogHook.validate_check_in_date w event slots = step ->
            DialogHook.lambda_handler w event
            = and_then step
                (and_then (DialogHook.validate_nights event slots)
                   (and_then (DialogHook.check_availability w event slots)
                      (DialogHook.delegate event)))).
  { intros step <-.
    rewrite (dialog_book_room_route w event source Hn Hs).
    unfold DialogHook.handle_book_room_dialog.
    rewrite Hslots. cbn [bind]. rewrite Hroom. reflexivity. }
  split; [|split].
  - intros Hlt.
    destruct (elicit_slot_ok event intent "CheckInDate" past_date_message Hi)
      as (resp & He & Hshape).
    exists resp. split; [|exact Hshape].
    rewrite (Hh _ (check_in_date_past w event slots s d Hci Hparse Hclock
                     resp Hlt He)).
    reflexivity.
  - intros Hgt.
    destruct (elicit_slot_ok event intent "CheckInDate" far_date_message Hi)
      as (resp & He & Hshape).
    exists resp. split; [|exact Hshape].
    rewrite (Hh _ (check_in_date_far w event slots s d Hci Hparse Hclock
                     resp Hgt He)).
    reflexivity.
  - intros Hin Hmax.
    pose proof (check_in_date_within w event slots s d Hci Hparse Hclock
                  Hin Hmax) as Hnone.
    split; [exact Hnone|].
    rewrite (Hh _ Hnone). rewrite and_then_none.
    split; [reflexivity|].
    intros resp Hr. apply (after_date_rule w event slots resp Hr).
Qed.

Ltac decide_z :=
  vm_compute;
  first [ reflexivity | discriminate
        | split; first [reflexivity | discriminate] ].

Lemma example_clock_valid : valid_datetime (now example_world).
Proof.
  unfold valid_datetime, valid_date. repeat split; decide_z.
Defined.

Lemma check_in_date_rule_witness :
  dialog_elicits example_world (book_room_event "double" "2025-06-14")
    "CheckInDate" past_date_message
  /\ dialog_elicits example_world (book_room_event "double" "2026-06-16")
       "CheckInDate" far_date_message
  /\ DialogHook.validate_check_in_date example_world
       (book_room_event "double" "2026-06-15")
       (PDict [("RoomType", filled_slot "double");
               ("CheckInDate", filled_slot "2026-06-15")]) = Ok None.
Proof.
  split; [|split].
  - apply (check_in_date_rule example_world
             (book_room_event "double" "2025-06-14") (PStr "DialogCodeHook")
             (PDict [("RoomType", filled_slot "double");
                     ("CheckInDate", filled_slot "2025-06-14")])
             "2025-06-14" (mk_date 2025 6 14)
             eq_refl eq_refl eq_refl eq_refl eq_refl eq_refl
             example_clock_valid).
    decide_z.
  - apply (check_in_date_rule example_world
             (book_room_event "double" "2026-06-16") (PStr "DialogCodeHook")
             (PDict [("RoomType", filled_slot "double");
                     ("CheckInDate", filled_slot "2026-06-16")])
             "2026-06-16" (mk_date 2026 6 16)
             eq_refl eq_refl eq_refl eq_refl eq_refl eq_refl
             example_clock_valid).
    decide_z.
  - apply (check_in_date_rule example_world
             (book_room_event "double" "2026-06-15") (PStr "DialogCodeHook")
             (PDict [("RoomType", filled_slot "double");
                     ("CheckInDate", filled_slot "2026-06-15")])
             "2026-06-15" (mk_date 2026 6 15)
             eq_refl eq_refl eq_refl eq_refl eq_refl eq_refl
             example_clock_valid); decide_z.
Defined.

(** C6 as stated fails: with a room type that is not offered and a
    check-in date before today, the validator asks for RoomType, not for
    CheckInDate. *)
Lemma past_date_after_bad_room_type :
  strptime_ymd "2025-06-14" = Ok (mk_date 2025 6 14)
  /\ toordinal (mk_date 2025 6 14) < toordinal (dt_date (now example_world))
  /\ exists resp,
       DialogHook.lambda_handler example_world
         (book_room_event "penthouse" "2025-06-14") = Ok resp
       /\ dialog_action_type resp = Some "ElicitSlot"
       /\ slot_to_elicit resp = Some "RoomType".
Proof.
  split; [reflexivity|]. split; [decide_z|].
  eexists. split; [vm_compute; reflexivity|]. split; reflexivity.
Qed.

(** ** C7: availability *)

Lemma room_type_passes : forall event slots,
  DialogHook.validate_room_type event slots = Ok None ->
  slot_has_value slots "RoomType" = Ok false
  \/ (slot_has_value slots "RoomType" = Ok true
      /\ exists room_type,
           interpreted_value slots "RoomType" = Ok (PStr room_type)).
Proof.
  intros event slots H. unfold DialogHook.validate_room_type in H.
  destruct (slot_has_value slots "RoomType") as [[|]|e]; cbn [bind] in H;
    try discriminate; [right | left; reflexivity].
  split; [reflexivity|].
  destruct (interpreted_value slots "RoomType") as [v|e]; [|discriminate].
  cbn [bind] in H. destruct v; try discriminate. eauto.
Qed.

Lemma check_in_date_passes : forall w event slots,
  DialogHook.validate_check_in_date w event slots = Ok None ->
  exists filled, slot_has_value slots "CheckInDate" = Ok filled.
Proof.
  intros w event slots H. unfold DialogHook.validate_check_in_date in H.
  destruct (slot_has_value slots "CheckInDate") as [f|e]; [eauto|discriminate].
Qed.

Lemma nights_passes : forall event slots,
  DialogHook.validate_nights event slots = Ok None ->
  exists filled, slot_has_value slots "Nights" = Ok filled.
Proof.
  intros event slots H. unfold DialogHook.validate_nights in H.
  destruct (slot_has_value slots "Nights") as [f|e]; [eauto|discriminate].
Qed.

Lemma slot_has_value_filled : forall d name b,
  slot_has_value (PDict d) name = Ok b -> b = slot_filled d name.
Proof.
  intros d name b. unfold slot_has_value, slot_filled. cbn [get].
  destruct (assoc name d) as [slot|] eqn:E; cbn [bind].
  - destruct (truthy slot) eqn:T.
    + cbn [getitem]. rewrite E. cbn [bind].
      destruct slot; cbn [get no_attribute raise bind]; try discriminate.
      destruct (assoc "value" d0); cbn [bind]; intros H; injection H as <-;
        reflexivity.
    + intros H. injection H as <-.
      destruct slot; try reflexivity.
      destruct d0; [reflexivity | discriminate T].
  - intros H. injection H as <-. reflexivity.
Qed.

Lemma all_filled_three : forall slots a b c f1 f2 f3,
  slot_has_value slots a = Ok f1 ->
  slot_has_value slots b = Ok f2 ->
  slot_has_value slots c = Ok f3 ->
  DialogHook.all_filled slots [a; b; c] = Ok (f1 && f2 && f3).
Proof.
  intros slots a b c f1 f2 f3 H1 H2 H3. cbn [DialogHook.all_filled].
  rewrite H1. cbn [bind]. destruct f1; [|reflexivity].
  rewrite H2. cbn [bind]. destruct f2; [|reflexivity].
  rewrite H3. cbn [bind]. destruct f3; reflexivity.
Qed.

Lemma room_type_slot_passes : forall event slots,
  DialogHook.validate_room_type event slots = Ok None ->
  exists filled,
    slot_has_value slots "RoomType" = Ok filled
    /\ (filled = true ->
        exists room_type,
          interpreted_value slots "RoomType" = Ok (PStr room_type)).
Proof.
  intros event slots H.
  destruct (room_type_passes _ _ H) as [H1|[H1 Hv]].
  - exists false. split; [exact H1 | discriminate].
  - exists true. split; [exact H1 | intros _; exact Hv].
Qed.

Lemma availability_draw : forall w room_type,
  DialogHook.check_room_availability w room_type = negb (unavailable_draw w).
Proof.
  intros w room_type.
  unfold DialogHook.check_room_availability, random_choice, unavailable_draw.
  cbn [List.length].
  pose proof (Nat.mod_upper_bound (random_index w) 4 ltac:(discriminate)) as H.
  destruct (random_index w mod 4)%nat as [|[|[|[|n]]]]; try reflexivity.
  exfalso. apply (Nat.lt_irrefl 4).
  apply (Nat.le_lt_trans _ (S (S (S (S n))))); [|exact H].
  do 4 apply le_n_S. apply Nat.le_0_l.
Qed.

(** C7.  For a BookRoom dialog event whose three field rules all pass:
    when RoomType, CheckInDate and Nights are all filled the validator
    consults the mock availability check, answers ElicitSlot for RoomType
    if the check fails (the draw falls on the one unavailable entry of
    four) and Delegate if it succeeds; when one of them is not filled it
    answers Delegate, whatever the check would draw. *)
Theorem availability_rule :
  forall w event source d,
    event_intent_name event = Ok (PStr "BookRoom") ->
    getitem event "invocationSource" = Ok source ->
    event_slots event = Ok (PDict d) ->
    DialogHook.validate_room_type event (PDict d) = Ok None ->
    DialogHook.validate_check_in_date w event (PDict d) = Ok None ->
    DialogHook.validate_nights event (PDict d) = Ok None ->
    let all_three :=
      slot_filled d "RoomType" && slot_filled d "CheckInDate"
      && slot_filled d "Nights" in
    (all_three = true ->
       exists room_type,
         interpreted_value (PDict d) "RoomType" = Ok (PStr room_type)
         /\ if unavailable_draw w
            then dialog_elicits w event "RoomType"
                   (unavailable_message room_type)
            else dialog_delegates w event)
    /\ (all_three = false -> dialog_delegates w event).
Proof.
  intros w event source d Hn Hs Hslots Hroom Hdate Hnights all_three.
  destruct (event_slots_intent _ _ Hslots) as [intent Hi].
  assert (Hh : DialogHook.lambda_handler w event
               = and_then (DialogHook.check_availability w event (PDict d))
                   (DialogHook.delegate event)).
  { rewrite (dialog_book_room_route w event source Hn Hs).
    unfold DialogHook.handle_book_room_dialog.
    rewrite Hslots. cbn [bind]. rewrite Hroom, Hdate, Hnights. reflexivity. }
  destruct (room_type_slot_passes _ _ Hroom) as (f1 & H1 & Hv).
  destruct (check_in_date_passes _ _ _ Hdate) as [f2 H2].
  destruct (nights_passes _ _ Hnights) as [f3 H3].
  pose proof (all_filled_three _ _ _ _ _ _ _ H1 H2 H3) as Hall.
  rewrite (slot_has_value_filled _ _ _ H1), (slot_has_value_filled _ _ _ H2),
    (slot_has_value_filled _ _ _ H3) in Hall.
  fold all_three in Hall.
  unfold DialogHook.check_availability in Hh. rewrite Hall in Hh.
  cbn [bind] in Hh.
  split.
  - intros Hfilled. rewrite Hfilled in Hh.
    assert (Hf1 : f1 = true).
    { rewrite (slot_has_value_filled _ _ _ H1).
      unfold all_three in Hfilled.
      destruct (slot_filled d "RoomType"); [reflexivity | discriminate]. }
    destruct (Hv Hf1) as [room_type Hr].
    exists room_type. split; [exact Hr|].
    rewrite Hr in Hh. cbn [bind py_str] in Hh.
    rewrite availability_draw in Hh.
    destruct (unavailable_draw w); cbn [negb] in Hh.
    + destruct (elicit_slot_ok event intent "RoomType"
                  (unavailable_message room_type) Hi)
        as (resp & He & Hshape).
      exists resp. split; [|exact Hshape].
      rewrite Hh, and_then_returns. exact He.
    + destruct (delegate_ok event intent Hi) as (resp & Hd & Ht & _).
      exists resp. rewrite Hh. split; assumption.
  - intros Hnot. rewrite Hnot in Hh.
    destruct (delegate_ok event intent Hi) as (resp & Hd & Ht & _).
    exists resp. rewrite Hh. split; assumption.
Qed.

Lemma availability_rule_witness :
  dialog_elicits unlucky_world
    (lex_event "BookRoom" (full_slots "double" "2025-07-01" "3"))
    "RoomType" (unavailable_message "double")
  /\ dialog_delegates example_world
       (lex_event "BookRoom" (full_slots "double" "2025-07-01" "3"))
  /\ dialog_delegates unlucky_world (room_only_event "double").
Proof.
  split; [|split].
  - destruct (proj1 (availability_rule unlucky_world
                (lex_event "BookRoom" (full_slots "double" "2025-07-01" "3"))
                (PStr "DialogCodeHook")
                (full_slots "double" "2025-07-01" "3")
                eq_refl eq_refl eq_refl eq_refl eq_refl eq_refl) eq_refl)
      as (room_type & Hv & H).
    vm_compute in Hv. injection Hv as <-. exact H.
  - destruct (proj1 (availability_rule example_world
                (lex_event "BookRoom" (full_slots "double" "2025-07-01" "3"))
                (PStr "DialogCodeHook")
                (full_slots "double" "2025-07-01" "3")
                eq_refl eq_refl eq_refl eq_refl eq_refl eq_refl) eq_refl)
      as (room_type & Hv & H).
    exact H.
  - apply (proj2 (availability_rule unlucky_world (room_only_event "double")
                (PStr "DialogCodeHook") [("RoomType", filled_slot "double")]
                eq_refl eq_refl eq_refl eq_refl eq_refl eq_refl) eq_refl).
Defined.

(** ** Closing responses of the fulfillment handlers *)

Lemma assoc_dict_set_same : forall k x d, assoc k (dict_set k x d) = Some x.
Proof.
  intros k x d. induction d as [|[k' v] d IH]; simpl.
  - rewrite String.eqb_refl. reflexivity.
  - destruct (String.eqb k k') eqn:E; simpl; rewrite E; [reflexivity | exact IH].
Qed.

Lemma assoc_dict_set_other : forall k k' x d,
  String.eqb k k' = false -> assoc k (dict_set k' x d) = assoc k d.
Proof.
  intros k k' x d Hne. induction d as [|[k0 v] d IH]; simpl.
  - rewrite Hne. reflexivity.
  - destruct (String.eqb k' k0) eqn:E; simpl.
    + apply String.eqb_eq in E. subst k0. rewrite Hne. reflexivity.
    + destruct (String.eqb k k0); [reflexivity | exact IH].
Qed.

Lemma close_failed_ok : forall event intent message,
  event_intent event = Ok (PDict intent) ->
  closes_with (close_failed event message) "Failed" message.
Proof.
  intros event intent message Hi. unfold close_failed, closes_with.
  rewrite Hi. cbn [bind setitem]. eexists. split; [reflexivity|].
  split; [reflexivity|]. split; [|reflexivity].
  unfold intent_state, event_intent. cbn [getitem assoc String.eqb Ascii.eqb
    Bool.eqb bind andb].
  rewrite assoc_dict_set_same. reflexivity.
Qed.

Lemma hook_close_fulfilled_ok : forall event intent message attrs,
  event_intent event = Ok (PDict intent) ->
  closes_with (FulfillmentHook.close_fulfilled event message attrs)
    "Fulfilled" message.
Proof.
  intros event intent message attrs Hi.
  unfold FulfillmentHook.close_fulfilled, closes_with.
  rewrite Hi. cbn [bind setitem]. eexists. split; [reflexivity|].
  destruct (truthy attrs).
  - split; [reflexivity|]. split; [|reflexivity].
    unfold intent_state, event_intent. cbn [getitem assoc String.eqb Ascii.eqb
      Bool.eqb bind andb dict_set].
    rewrite assoc_dict_set_same. reflexivity.
  - split; [reflexivity|]. split; [|reflexivity].
    unfold intent_state, event_intent. cbn [getitem assoc String.eqb Ascii.eqb
      Bool.eqb bind andb].
    rewrite assoc_dict_set_same. reflexivity.
Qed.

Lemma hook_routes : forall w event,
  (event_intent_name event = Ok (PStr "BookRoom") ->
   FulfillmentHook.lambda_handler w event = FulfillmentHook.fulfill_book_room w event)
  /\ (event_intent_name event = Ok (PStr "CancelBooking") ->
      FulfillmentHook.lambda_handler w event
      = FulfillmentHook.fulfill_cancel_booking w event).
Proof.
  intros w event. unfold FulfillmentHook.lambda_handler.
  split; intros ->; reflexivity.
Qed.

Lemma simple_route : forall w event,
  event_intent_name event = Ok (PStr "BookRoom") ->
  BookingFulfillment.lambda_handler w event
  = BookingFulfillment.fulfill_booking w event.
Proof.
  intros w event H. unfold BookingFulfillment.lambda_handler.
  rewrite H. reflexivity.
Qed.

(** ** C8: cancelling a booking *)

(** The mock store looks at the first character, upper-cased. *)
Lemma first_character_lookup : forall c r,
  string_in (upper (take 1 (String c r))) ["A"; "B"]
  = starts_with_a_or_b (String c r).
Proof.
  intros c r.
  destruct c as [b0 b1 b2 b3 b4 b5 b6 b7].
  destruct b0, b1, b2, b3, b4, b5, b6, b7; destruct r; reflexivity.
Qed.

Lemma get_booking_details_string : forall number,
  FulfillmentHook.get_booking_details (PStr number)
  = match number with
    | EmptyString => raise IndexError "string index out of range"
    | _ => if starts_with_a_or_b number then Ok (mock_booking (PStr number))
           else Ok PNone
    end.
Proof.
  intros [|c r]; [reflexivity|].
  unfold FulfillmentHook.get_booking_details.
  cbn [getitem0 bind py_upper]. rewrite first_character_lookup. reflexivity.
Qed.

(** C8, amended.  The mock store compares the first character after
    [upper()]: it finds a booking exactly when the booking number starts
    with A, B, a or b; and whenever it finds one, the cancellation is
    reported as Fulfilled, with the refund of the mock booking. *)
Theorem cancel_booking_lookup :
  forall w event slots number,
    event_intent_name event = Ok (PStr "CancelBooking") ->
    event_slots event = Ok slots ->
    interpreted_value slots "BookingNumber" = Ok (PStr number) ->
    (starts_with_a_or_b number = true <->
       exists details,
         FulfillmentHook.get_booking_details (PStr number) = Ok details
         /\ truthy details = true)
    /\ (starts_with_a_or_b number = true ->
          closes_with (FulfillmentHook.lambda_handler w event) "Fulfilled"
            (FulfillmentHook.cancelled_message w (PStr number) "389.97")).
Proof.
  intros w event slots number Hn Hslots Hv. split.
  - rewrite get_booking_details_string. split.
    + intros H. destruct number as [|c r]; [discriminate|].
      rewrite H. exists (mock_booking (PStr (String c r))).
      split; reflexivity.
    + intros (details & Hd & Ht). destruct number as [|c r]; [discriminate|].
      destruct (starts_with_a_or_b (String c r)); [reflexivity|].
      injection Hd as <-. discriminate.
  - intros H.
    rewrite (proj2 (hook_routes w event) Hn).
    unfold FulfillmentHook.fulfill_cancel_booking.
    rewrite Hslots. cbn [bind]. rewrite Hv. cbn [bind].
    rewrite get_booking_details_string.
    destruct number as [|c r]; [discriminate|]. rewrite H.
    destruct (event_name_intent _ _ Hn) as [intent Hi].
    destruct (hook_close_fulfilled_ok event intent
                (FulfillmentHook.cancelled_message w (PStr (String c r)) "389.97")
                PNone Hi) as (resp & Hr & Hshape).
    exists resp. split; [|exact Hshape].
    cbn [bind]. unfold mock_booking at 1.
    cbn [truthy negb FulfillmentHook.cancel_booking getitem assoc String.eqb
         Ascii.eqb Bool.eqb andb bind].
    unfold mock_booking.
    cbn [get assoc String.eqb Ascii.eqb Bool.eqb andb bind py_format_2f].
    replace (format_2f (float_lit 38997 100)) with "389.97"
      by (vm_compute; reflexivity).
    cbn [bind]. rewrite Hr. reflexivity.
Qed.

Lemma cancel_booking_lookup_witness :
  closes_with
    (FulfillmentHook.lambda_handler example_world (cancel_event "B1234567"))
    "Fulfilled"
    (FulfillmentHook.cancelled_message example_world (PStr "B1234567") "389.97").
Proof.
  apply (cancel_booking_lookup example_world (cancel_event "B1234567")
           (PDict [("BookingNumber", filled_slot "B1234567")]) "B1234567"
           eq_refl eq_refl eq_refl).
  reflexivity.
Defined.

(** C8 as stated fails: abc123 starts with neither A nor B, and the mock
    store finds a booking for it, which the handler cancels. *)
Lemma lower_case_booking_number_is_found :
  starts_with_capital_a_or_b "abc123" = false
  /\ FulfillmentHook.get_booking_details (PStr "abc123")
     = Ok (mock_booking (PStr "abc123"))
  /\ truthy (mock_booking (PStr "abc123")) = true
  /\ exists resp,
       FulfillmentHook.lambda_handler example_world (cancel_event "abc123")
       = Ok resp
       /\ intent_state resp = Some "Fulfilled".
Proof.
  split; [reflexivity|]. split; [reflexivity|]. split; [reflexivity|].
  eexists. split; [vm_compute; reflexivity | reflexivity].
Qed.

(** ** C9: a missing slot *)

Lemma absent_key : forall d name,
  assoc name d = None -> getitem (PDict d) name = raise KeyError (quoted name).
Proof.
  intros d name H. cbn [getitem]. rewrite H. reflexivity.
Qed.

Lemma missing_slot_raises :
  forall A (k : pyval -> pyval -> pyval -> result A) slots name,
    first_missing slots name ->
    (room_type <- interpreted_value slots "RoomType" ;;
     check_in_date <- interpreted_value slots "CheckInDate" ;;
     nights_value <- interpreted_value slots "Nights" ;;
     k room_type check_in_date nights_value)
    = raise KeyError (quoted name).
Proof.
  intros A k slots name [Hk Hb].
  destruct (string_dec name "RoomType") as [->|N1].
  { unfold interpreted_value at 1. rewrite Hk. reflexivity. }
  destruct (string_dec name "CheckInDate") as [->|N2].
  { destruct Hb as [a ->]. cbn [bind].
    unfold interpreted_value at 1. rewrite Hk. reflexivity. }
  destruct (string_dec name "Nights") as [->|N3].
  { destruct Hb as [[a ->] [b ->]]. cbn [bind].
    unfold interpreted_value at 1. rewrite Hk. reflexivity. }
  exfalso.
  repeat (destruct name as [|[[] [] [] [] [] [] [] []] name];
          try exact Hb; try congruence).
Qed.

(** C9, amended.  The first lookup that fails decides which [except]
    clause answers.  For a BookRoom fulfillment event in which a required
    slot is missing from the slot mapping, and the required slots read
    before it (in the order RoomType, CheckInDate, Nights) hold an
    interpreted value, both fulfillment handlers catch the [KeyError] and
    close the dialog as Failed with the information-missing text. *)
Theorem missing_slot_is_reported :
  forall w event slots name,
    event_intent_name event = Ok (PStr "BookRoom") ->
    event_slots event = Ok slots ->
    first_missing slots name ->
    closes_with (FulfillmentHook.lambda_handler w event) "Failed"
      missing_information_message
    /\ closes_with (BookingFulfillment.lambda_handler w event) "Failed"
         missing_information_message.
Proof.
  intros w event slots name Hn Hslots Hm.
  destruct (event_name_intent _ _ Hn) as [intent Hi].
  split.
  - rewrite (proj1 (hook_routes w event) Hn).
    unfold FulfillmentHook.fulfill_book_room.
    rewrite Hslots. cbn [bind].
    rewrite (missing_slot_raises _ _ slots name Hm).
    apply (close_failed_ok event intent _ Hi).
  - rewrite (simple_route w event Hn).
    unfold BookingFulfillment.fulfill_booking.
    rewrite Hslots. cbn [bind].
    rewrite (missing_slot_raises _ _ slots name Hm).
    apply (close_failed_ok event intent _ Hi).
Qed.

Lemma missing_slot_is_reported_witness :
  closes_with
    (FulfillmentHook.lambda_handler example_world
       (lex_event "BookRoom"
          [("RoomType", filled_slot "double");
           ("CheckInDate", filled_slot "2025-07-01")]))
    "Failed" missing_information_message
  /\ closes_with
       (BookingFulfillment.lambda_handler example_world
          (lex_event "BookRoom"
             [("RoomType", filled_slot "double");
              ("CheckInDate", filled_slot "2025-07-01")]))
       "Failed" missing_information_message.
Proof.
  apply (missing_slot_is_reported example_world
           (lex_event "BookRoom"
              [("RoomType", filled_slot "double");
               ("CheckInDate", filled_slot "2025-07-01")])
           (PDict [("RoomType", filled_slot "double");
                   ("CheckInDate", filled_slot "2025-07-01")])
           "Nights" eq_refl eq_refl).
  unfold first_missing. split; [reflexivity|].
  split; eexists; reflexivity.
Defined.

(** C9 as stated fails: when Nights is missing from the slot mapping and
    RoomType is present but null, the first lookup to fail raises a
    [TypeError], and both handlers answer with the unexpected-error text. *)
Lemma missing_slot_behind_null_slot :
  getitem (PDict [("RoomType", PNone)]) "Nights" = raise KeyError "'Nights'"
  /\ closes_with
       (FulfillmentHook.lambda_handler example_world
          (lex_event "BookRoom" [("RoomType", PNone)]))
       "Failed" unexpected_error_message
  /\ closes_with
       (BookingFulfillment.lambda_handler example_world
          (lex_event "BookRoom" [("RoomType", PNone)]))
       "Failed" unexpected_error_message
  /\ missing_information_message <> unexpected_error_message.
Proof.
  split; [reflexivity|].
  split; [eexists; split; [vm_compute; reflexivity | repeat split]|].
  split; [eexists; split; [vm_compute; reflexivity | repeat split]|].
  discriminate.
Qed.

(** ** C4: the price of a booking *)

Lemma event_slots_dict : forall event slots name v,
  event_slots event = Ok slots ->
  interpreted_value slots name = Ok v ->
  exists intent d,
    event_intent event = Ok (PDict intent)
    /\ slots = PDict d
    /\ assoc "slots" intent = Some (PDict d).
Proof.
  intros event slots name v Hs Hv. unfold event_slots in Hs.
  apply bind_ok in Hs. destruct Hs as (intent & Hi & Hs).
  apply getitem_ok in Hs. destruct Hs as (di & -> & Hs).
  unfold interpreted_value in Hv.
  apply bind_ok in Hv. destruct Hv as (slot & Hslot & _).
  apply getitem_ok in Hslot. destruct Hslot as (d & -> & _).
  exists di, d. auto.
Qed.

Lemma booking_number_nonempty : forall w,
  String.eqb (generate_booking_number w) "" = false.
Proof. intros w. reflexivity. Qed.

Lemma add_booking_number_ok : forall intent d number,
  assoc "slots" intent = Some (PDict d) ->
  exists intent',
    BookingFulfillment.add_booking_number (PDict intent) number
    = Ok (PDict intent')
    /\ assoc "state" intent' = assoc "state" intent.
Proof.
  intros intent d number Hs. unfold BookingFulfillment.add_booking_number.
  destruct (negb (String.eqb number "")); [|eauto].
  cbn [py_in bind getitem]. rewrite Hs. cbn [bind py_in getitem].
  destruct (assoc "BookingNumber" d) as [current|] eqn:E; cbn [negb bind].
  - destruct current; cbn [setitem bind]; eauto;
      eexists; (split; [reflexivity|]);
      apply assoc_dict_set_other; reflexivity.
  - cbn [setitem bind]. eexists. split; [reflexivity|].
    apply assoc_dict_set_other; reflexivity.
Qed.

Lemma simple_close_fulfilled_ok : forall event intent d message attrs number,
  event_intent event = Ok (PDict intent) ->
  assoc "slots" intent = Some (PDict d) ->
  closes_with (BookingFulfillment.close_fulfilled event message attrs number)
    "Fulfilled" message.
Proof.
  intros event intent d message attrs number Hi Hs.
  unfold BookingFulfillment.close_fulfilled, closes_with.
  rewrite Hi. cbn [bind setitem].
  destruct (add_booking_number_ok (dict_set "state" (PStr "Fulfilled") intent)
              d number) as (intent' & -> & Hstate).
  { rewrite assoc_dict_set_other by reflexivity. exact Hs. }
  rewrite assoc_dict_set_same in Hstate.
  cbn [bind]. eexists. split; [reflexivity|].
  destruct (truthy attrs).
  - split; [reflexivity|]. split; [|reflexivity].
    unfold intent_state, event_intent. cbn [getitem assoc String.eqb Ascii.eqb
      Bool.eqb bind andb dict_set].
    rewrite Hstate. reflexivity.
  - split; [reflexivity|]. split; [|reflexivity].
    unfold intent_state, event_intent. cbn [getitem assoc String.eqb Ascii.eqb
      Bool.eqb bind andb].
    rewrite Hstate. reflexivity.
Qed.

Section BookRoom.

Variables (w : World) (event slots : pyval).
Variables (room_type : string) (check_in nights_value : pyval).
Variables (nights : Z) (nights_float : spec_float).
Hypothesis Hname : event_intent_name event = Ok (PStr "BookRoom").
Hypothesis Hslots : event_slots event = Ok slots.
Hypothesis Hroom : interpreted_value slots "RoomType" = Ok (PStr room_type).
Hypothesis Hdate : interpreted_value slots "CheckInDate" = Ok check_in.
Hypothesis Hnights : interpreted_value slots "Nights" = Ok nights_value.
Hypothesis Hint : py_int nights_value = Ok nights.
Hypothesis Hfloat : float_of_int nights = Ok nights_float.

Let total := float_mul (price_per_night (lower room_type)) nights_float.
Let shown := format_date_for_display w check_in.

Lemma simple_booking_fulfilled :
  closes_with (BookingFulfillment.lambda_handler w event) "Fulfilled"
    (BookingFulfillment.booked_message w (PStr room_type) shown nights total
       (generate_booking_number w)).
Proof.
  destruct (event_slots_dict _ _ _ _ Hslots Hroom) as (intent & d & Hi & _ & Hd).
  rewrite (simple_route w event Hname).
  unfold BookingFulfillment.fulfill_booking.
  rewrite Hslots. cbn [bind]. rewrite Hroom, Hdate, Hnights. cbn [bind].
  rewrite Hint. cbn [bind py_lower].
  unfold float_mul_int. rewrite Hfloat. cbn [bind].
  destruct (simple_close_fulfilled_ok event intent d
              (BookingFulfillment.booked_message w (PStr room_type) shown
                 nights total (generate_booking_number w))
              (PDict [("lastBookingNumber", PStr (generate_booking_number w));
                      ("lastBookingTotal", PStr (py_str w (PFloat total)))])
              (generate_booking_number w) Hi Hd) as (resp & Hr & Hshape).
  exists resp. split; [|exact Hshape].
  unfold total, shown in Hr. rewrite Hr. reflexivity.
Qed.

Lemma hook_booking_fulfilled : forall attrs,
  float_ltb (random_random w) (float_lit 98 100) = true ->
  get event "sessionAttributes" (PDict []) = Ok (PDict attrs) ->
  closes_with (FulfillmentHook.lambda_handler w event) "Fulfilled"
    (FulfillmentHook.booked_message w (PStr room_type) shown nights total
       (generate_booking_number w)).
Proof.
  intros attrs Hsuccess Hattrs.
  destruct (event_slots_dict _ _ _ _ Hslots Hroom) as (intent & d & Hi & _ & Hd).
  rewrite (proj1 (hook_routes w event) Hname).
  unfold FulfillmentHook.fulfill_book_room.
  rewrite Hslots. cbn [bind]. rewrite Hroom, Hdate, Hnights. cbn [bind].
  rewrite Hint. cbn [bind py_lower].
  unfold float_mul_int. rewrite Hfloat. cbn [bind].
  unfold FulfillmentHook.create_booking. rewrite Hsuccess.
  cbn [getitem assoc String.eqb Ascii.eqb Bool.eqb andb bind truthy].
  rewrite Hattrs. cbn [bind setitem].
  match goal with
  | |- closes_with (try_except (FulfillmentHook.close_fulfilled _ ?m ?a) _) _ _ =>
      destruct (hook_close_fulfilled_ok event intent m a Hi)
        as (resp & Hr & Hshape)
  end.
  exists resp. split; [|exact Hshape].
  rewrite Hr. reflexivity.
Qed.

End BookRoom.

Lemma contains_append_r : forall a n h,
  contains n h = true -> contains n (a ++ h) = true.
Proof.
  induction a as [|c a IH]; intros n h H; simpl.
  - exact H.
  - rewrite (IH n h H). apply orb_true_r.
Qed.

Ltac find_substring :=
  repeat first [ apply contains_here | apply contains_append_r ].

(** C4, amended.  For a BookRoom fulfillment event whose three slots are
    filled, the price is the entry of the price table for the lower-cased
    room type, 99.99 when there is none, times the number of nights as a
    float.  The simple handler always reports the booking with that
    total; the integration handler does so when the mock booking succeeds
    (and the top-level session attributes of the event, if any, are a
    mapping).  For a double room and 3 nights the total is the float
    nearest to 389.97 and the message of the fulfilled booking contains
    389.97. *)
Theorem book_room_price :
  forall w event slots room_type check_in nights_value nights nights_float,
    event_intent_name event = Ok (PStr "BookRoom") ->
    event_slots event = Ok slots ->
    interpreted_value slots "RoomType" = Ok (PStr room_type) ->
    interpreted_value slots "CheckInDate" = Ok check_in ->
    interpreted_value slots "Nights" = Ok nights_value ->
    py_int nights_value = Ok nights ->
    float_of_int nights = Ok nights_float ->
    let price :=
      price_lookup (lower room_type) room_prices (float_lit 9999 100) in
    let total := float_mul price nights_float in
    let shown := format_date_for_display w check_in in
    let simple_message :=
      BookingFulfillment.booked_message w (PStr room_type) shown nights total
        (generate_booking_number w) in
    let hook_message :=
      FulfillmentHook.booked_message w (PStr room_type) shown nights total
        (generate_booking_number w) in
    closes_with (BookingFulfillment.lambda_handler w event) "Fulfilled"
      simple_message
    /\ (float_ltb (random_random w) (float_lit 98 100) = true ->
        (exists attrs,
           get event "sessionAttributes" (PDict []) = Ok (PDict attrs)) ->
        closes_with (FulfillmentHook.lambda_handler w event) "Fulfilled"
          hook_message)
    /\ (room_type = "double" -> nights = 3 ->
        total = float_lit 38997 100
        /\ within total 38997 100 (10 ^ 9)
        /\ contains "389.97" simple_message = true
        /\ contains "389.97" hook_message = true).
Proof.
  intros w event slots room_type check_in nights_value nights nights_float
    Hname Hslots Hroom Hdate Hnights Hint Hfloat
    price total shown simple_message hook_message.
  split; [|split].
  - apply (simple_booking_fulfilled w event slots room_type check_in
             nights_value nights nights_float); assumption.
  - intros Hsuccess [attrs Hattrs].
    apply (hook_booking_fulfilled w event slots room_type check_in
             nights_value nights nights_float) with (attrs := attrs);
      assumption.
  - intros -> ->.
    assert (Hf : nights_float = float_of_Z 3).
    { vm_compute in Hfloat. injection Hfloat as <-. reflexivity. }
    assert (Ht : total = float_lit 38997 100).
    { unfold total, price. rewrite Hf. vm_compute. reflexivity. }
    split; [exact Ht|].
    split; [rewrite Ht; vm_compute; discriminate|].
    unfold simple_message, hook_message,
      BookingFulfillment.booked_message, FulfillmentHook.booked_message.
    rewrite Ht.
    replace (format_2f (float_lit 38997 100)) with "389.97"
      by (vm_compute; reflexivity).
    split; find_substring.
Qed.

Lemma book_room_price_witness :
  closes_with
    (BookingFulfillment.lambda_handler example_world double_for_three_nights)
    "Fulfilled"
    (BookingFulfillment.booked_message example_world (PStr "double")
       (format_date_for_display example_world (PStr "2025-07-01")) 3
       example_total (generate_booking_number example_world))
  /\ closes_with
       (FulfillmentHook.lambda_handler example_world double_for_three_nights)
       "Fulfilled"
       (FulfillmentHook.booked_message example_world (PStr "double")
          (format_date_for_display example_world (PStr "2025-07-01")) 3
          example_total (generate_booking_number example_world))
  /\ example_total = float_lit 38997 100
  /\ contains "389.97"
       (FulfillmentHook.booked_message example_world (PStr "double")
          (format_date_for_display example_world (PStr "2025-07-01")) 3
          example_total (generate_booking_number example_world)) = true.
Proof.
  pose proof (book_room_price example_world double_for_three_nights
                (PDict (full_slots "double" "2025-07-01" "3"))
                "double" (PStr "2025-07-01") (PStr "3") 3 (float_of_Z 3)
                eq_refl eq_refl eq_refl eq_refl eq_refl eq_refl eq_refl)
    as (Hsimple & Hhook & Hvalue).
  split; [exact Hsimple|].
  split; [apply Hhook; [reflexivity | eexists; reflexivity]|].
  destruct (Hvalue eq_refl eq_refl) as (Ht & _ & _ & Hc).
  split; [exact Ht | exact Hc].
Defined.

(** C4 as stated fails: when the mock booking fails, the integration
    handler answers a double room for 3 nights with the error text, in
    which 389.97 does not occur. *)
Lemma failed_booking_shows_no_price :
  interpreted_value (PDict (full_slots "double" "2025-07-01" "3")) "RoomType"
  = Ok (PStr "double")
  /\ py_int (PStr "3") = Ok 3
  /\ exists resp message,
       FulfillmentHook.lambda_handler unlucky_world double_for_three_nights
       = Ok resp
       /\ intent_state resp = Some "Failed"
       /\ message_content resp = Some message
       /\ contains "389.97" message = false.
Proof.
  split; [reflexivity|]. split; [reflexivity|].
  eexists. eexists.
  split; [vm_compute; reflexivity|].
  split; [reflexivity|]. split; [reflexivity|].
  vm_compute. reflexivity.
Qed.

(** ** C10: the date shown to the user *)

Lemma forall_below : forall (P : Z -> bool) (N : Z),
  forallb (fun k => P (Z.of_nat k)) (seq 0 (Z.to_nat N)) = true ->
  forall n, 0 <= n < N -> P n = true.
Proof.
  intros P N H n Hn.
  rewrite forallb_forall in H.
  specialize (H (Z.to_nat n)).
  rewrite Z2Nat.id in H by lia.
  apply H. apply in_seq. lia.
Qed.

Lemma zero_pad_two : forall n, 0 <= n < 100 -> zero_pad 2 n = two_digits n.
Proof.
  intros n Hn. apply String.eqb_eq.
  apply (forall_below (fun n => String.eqb (zero_pad 2 n) (two_digits n)) 100);
    [vm_compute; reflexivity | exact Hn].
Qed.

Lemma zero_pad_four : forall n, 0 <= n < 10000 -> zero_pad 4 n = four_digits n.
Proof.
  intros n Hn. apply String.eqb_eq.
  apply (forall_below (fun n => String.eqb (zero_pad 4 n) (four_digits n))
           10000); [vm_compute; reflexivity | exact Hn].
Qed.

(** From 1000 on, the year has four digits without any padding. *)
Lemma str_nonneg_four : forall n,
  1000 <= n < 10000 -> str_nonneg n = four_digits n.
Proof.
  intros n Hn.
  assert (H : (if n <? 1000 then true
               else String.eqb (str_nonneg n) (four_digits n)) = true).
  { apply (forall_below
             (fun n => if n <? 1000 then true
                       else String.eqb (str_nonneg n) (four_digits n)) 10000);
      [vm_compute; reflexivity | lia]. }
  destruct (Z.ltb_spec n 1000); [lia|]. apply String.eqb_eq. exact H.
Qed.

Lemma strftime_dmy_digits : forall pads d,
  valid_date d ->
  pads = true \/ 1000 <= year d ->
  strftime_dmy pads d = dd_mm_yyyy d.
Proof.
  intros pads d (Hy & Hm & Hd) Hp. unfold strftime_dmy, dd_mm_yyyy.
  assert (Hd31 : day d <= 31).
  { unfold days_in_month in Hd.
    destruct (month d =? 2); [destruct (is_leap (year d)); lia|].
    destruct ((month d =? 4) || (month d =? 6) || (month d =? 9)
              || (month d =? 11)); lia. }
  rewrite (zero_pad_two (day d)), (zero_pad_two (month d)) by lia.
  destruct pads.
  - rewrite zero_pad_four by lia. reflexivity.
  - destruct Hp as [Hp|Hp]; [discriminate|].
    rewrite str_nonneg_four by lia. reflexivity.
Qed.

Lemma digit_char_quotient : forall n k,
  0 <= n < 10 * k -> 0 < k -> is_digit (digit_char (n / k)) = true.
Proof.
  intros n k Hn Hk. apply is_digit_digit_char.
  split; [apply Z.div_pos; lia|].
  assert (n / k < 10) by (apply Z.div_lt_upper_bound; lia). lia.
Qed.

Lemma digit_char_remainder : forall n,
  is_digit (digit_char (n mod 10)) = true.
Proof.
  intros n. apply is_digit_digit_char.
  pose proof (Z.mod_pos_bound n 10). lia.
Qed.

Lemma dd_mm_yyyy_shape : forall d,
  valid_date d -> is_dmy_shape (dd_mm_yyyy d) = true.
Proof.
  intros d (Hy & Hm & Hd).
  assert (Hd31 : day d <= 31).
  { unfold days_in_month in Hd.
    destruct (month d =? 2); [destruct (is_leap (year d)); lia|].
    destruct ((month d =? 4) || (month d =? 6) || (month d =? 9)
              || (month d =? 11)); lia. }
  unfold dd_mm_yyyy, four_digits, two_digits.
  cbn [append is_dmy_shape].
  rewrite !digit_char_remainder.
  rewrite (digit_char_quotient (day d) 10), (digit_char_quotient (month d) 10),
    (digit_char_quotient (year d) 1000),
    (digit_char_quotient (year d mod 100) 10) by
    (try lia; pose proof (Z.mod_pos_bound (year d) 100); lia).
  reflexivity.
Qed.

(** C10, amended.  [format_date_for_display] always returns a value.  A
    string of ASCII characters that [strptime] rejects for the format
    %Y-%m-%d comes back unchanged.  A string that it accepts, which
    besides YYYY-MM-DD includes a month or a day written without its
    leading zero, is rendered as DD/MM/YYYY when the year is at least
    1000, or when the platform pads %Y to four digits.  (A string that
    writes a date with other decimal digits than the ASCII ones is read
    by [strptime] and rendered as well; the first part does not speak of
    such strings.) *)
Theorem format_date_for_display_renders :
  forall w s,
    (forall e, ascii_only s = true -> strptime_ymd s = Raise e ->
       format_date_for_display w (PStr s) = PStr s)
    /\ (forall d, strptime_ymd s = Ok d ->
          strftime_pads_year w = true \/ 1000 <= year d ->
          format_date_for_display w (PStr s) = PStr (dd_mm_yyyy d)
          /\ is_dmy_shape (dd_mm_yyyy d) = true).
Proof.
  intros w s. unfold format_date_for_display. cbn [py_strptime_ymd].
  split.
  - intros e _ ->. reflexivity.
  - intros d Hd Hp. rewrite Hd.
    pose proof (strptime_valid _ _ Hd) as V.
    rewrite (strftime_dmy_digits _ _ V Hp).
    split; [reflexivity | apply dd_mm_yyyy_shape; exact V].
Qed.

Lemma format_date_for_display_renders_witness :
  format_date_for_display example_world (PStr "tomorrow") = PStr "tomorrow"
  /\ format_date_for_display example_world (PStr "2026-03-15")
     = PStr "15/03/2026".
Proof.
  destruct (format_date_for_display_renders example_world "tomorrow")
    as [Hraise _].
  destruct (format_date_for_display_renders example_world "2026-03-15")
    as [_ Hok].
  split.
  - apply (Hraise _ eq_refl eq_refl).
  - apply (Hok (mk_date 2026 3 15) eq_refl). right. decide_z.
Defined.

(** C10 as stated fails: 2025-1-5 is not written YYYY-MM-DD, yet
    [strptime] reads it, and the function returns 05/01/2025 rather than
    the string it was given. *)
Lemma short_month_is_reformatted :
  is_iso_shape "2025-1-5" = false
  /\ format_date_for_display example_world (PStr "2025-1-5")
     = PStr "05/01/2025"
  /\ PStr "05/01/2025" <> PStr "2025-1-5".
Proof.
  split; [reflexivity|]. split; [reflexivity | discriminate].
Qed.

(** Where %Y is not padded, a year below 1000 is printed on fewer than
    four digits. *)
Lemma early_year_is_not_padded :
  strftime_pads_year example_world = false
  /\ format_date_for_display example_world (PStr "0999-01-01")
     = PStr "01/01/999"
  /\ is_dmy_shape "01/01/999" = false.
Proof. repeat split. Qed.

(** ** C2: what the output of a handler depends on *)

Ltac same_world H :=
  match type of H with
  | same_ambient ?w1 ?w2 =>
      destruct w1, w2; unfold same_ambient in H; cbn in H;
      decompose [and] H; clear H; subst
  end.

Lemma api_same_ambient : forall w1 w2 event,
  same_ambient w1 w2 -> Api.handler w1 event = Api.handler w2 event.
Proof.
  intros w1 w2 event H. same_world H. reflexivity.
Qed.

Lemma app_same_ambient : forall w1 w2 event context,
  same_ambient w1 w2 ->
  App.handler w1 event context = App.handler w2 event context.
Proof.
  intros w1 w2 event context H. same_world H. reflexivity.
Qed.

Lemma simple_same_ambient : forall w1 w2 event,
  same_ambient w1 w2 ->
  BookingFulfillment.lambda_handler w1 event
  = BookingFulfillment.lambda_handler w2 event.
Proof.
  intros w1 w2 event H. same_world H. reflexivity.
Qed.

Lemma hook_same_ambient : forall w1 w2 event,
  same_ambient w1 w2 -> same_mock_outcomes w1 w2 ->
  FulfillmentHook.lambda_handler w1 event
  = FulfillmentHook.lambda_handler w2 event.
Proof.
  intros w1 w2 event H Hm. same_world H.
  destruct Hm as (_ & Hs & _). cbn [random_random] in Hs.
  unfold FulfillmentHook.lambda_handler, FulfillmentHook.fulfill_book_room,
    FulfillmentHook.create_booking.
  cbn [random_random]. rewrite Hs. reflexivity.
Qed.

Lemma dialog_same_ambient : forall w1 w2 event,
  same_ambient w1 w2 -> same_mock_outcomes w1 w2 ->
  DialogHook.lambda_handler w1 event = DialogHook.lambda_handler w2 event.
Proof.
  intros w1 w2 event H Hm. same_world H.
  destruct Hm as (Ha & _ & Hr). cbn [random_randint] in Hr. subst.
  unfold DialogHook.check_room_availability in Ha.
  unfold DialogHook.lambda_handler, DialogHook.handle_book_room_dialog,
    DialogHook.check_availability, DialogHook.check_room_availability,
    DialogHook.handle_check_availability_dialog,
    DialogHook.get_available_rooms.
  cbn [random_randint]. rewrite Ha. reflexivity.
Qed.

(** C2, amended.  The output of a handler is a function of the input and
    of what the handler reads from outside: the clock, the UUID draws,
    the environment, the Lambda context, the answers of remote services.
    Two runs on the same input that read the same values there can differ
    only through the random mock draws: the HTTP handlers and the simple
    booking handler give the same output, and so do the two Lex handlers
    of the integration bot when the mock draws come out the same. *)
Theorem outputs_agree_up_to_mock_draws :
  forall w1 w2 event context,
    same_ambient w1 w2 ->
    Api.handler w1 event = Api.handler w2 event
    /\ App.handler w1 event context = App.handler w2 event context
    /\ BookingFulfillment.lambda_handler w1 event
       = BookingFulfillment.lambda_handler w2 event
    /\ (same_mock_outcomes w1 w2 ->
        FulfillmentHook.lambda_handler w1 event
        = FulfillmentHook.lambda_handler w2 event
        /\ DialogHook.lambda_handler w1 event
           = DialogHook.lambda_handler w2 event).
Proof.
  intros w1 w2 event context H.
  split; [apply api_same_ambient; exact H|].
  split; [apply app_same_ambient; exact H|].
  split; [apply simple_same_ambient; exact H|].
  intros Hm. split.
  - apply hook_same_ambient; assumption.
  - apply dialog_same_ambient; assumption.
Qed.

Lemma outputs_agree_up_to_mock_draws_witness :
  same_ambient example_world unlucky_world
  /\ Api.handler example_world double_for_three_nights
     = Api.handler unlucky_world double_for_three_nights
  /\ App.handler example_world double_for_three_nights example_context
     = App.handler unlucky_world double_for_three_nights example_context
  /\ BookingFulfillment.lambda_handler example_world double_for_three_nights
     = BookingFulfillment.lambda_handler unlucky_world double_for_three_nights.
Proof.
  assert (H : same_ambient example_world unlucky_world)
    by (unfold same_ambient; repeat split).
  destruct (outputs_agree_up_to_mock_draws example_world unlucky_world
              double_for_three_nights example_context H)
    as (Hapi & Happ & Hsimple & _).
  repeat split; assumption.
Defined.

(** C2 as stated fails: on one and the same event, with the same outcome
    of every random mock draw, the booking number in the answer of the
    simple handler follows the UUIDs drawn, and the answer of the
    validator follows the date of the day. *)
Lemma outputs_vary_with_uuid_and_clock :
  same_mock_outcomes example_world (with_uuid example_world (fun _ => other_uuid))
  /\ BookingFulfillment.lambda_handler example_world double_for_three_nights
     <> BookingFulfillment.lambda_handler
          (with_uuid example_world (fun _ => other_uuid))
          double_for_three_nights
  /\ same_mock_outcomes example_world (with_clock example_world later_clock)
  /\ DialogHook.lambda_handler example_world
       (book_room_event "double" "2025-07-01")
     <> DialogHook.lambda_handler (with_clock example_world later_clock)
          (book_room_event "double" "2025-07-01").
Proof.
  split; [repeat split|].
  split.
  { intros H.
    apply (f_equal (fun r => match r with
                             | Ok resp => message_content resp
                             | Raise _ => None
                             end)) in H.
    vm_compute in H. discriminate. }
  split; [repeat split|].
  intros H.
  apply (f_equal (fun r => match r with
                           | Ok resp => slot_to_elicit resp
                           | Raise _ => None
                           end)) in H.
  vm_compute in H. discriminate.
Qed.

(** * Further properties *)

(** ** Which exceptions the parsers raise *)

Lemma int_of_str_raises : forall s e,
  int_of_str s = Raise e -> exn_class e = ValueError.
Proof.
  intros s e H. unfold int_of_str in H.
  destruct (match strip s with
            | String "-" r => (true, r)
            | String "+" r => (false, r)
            | _ => (false, strip s)
            end) as [neg body].
  destruct (int_digits body false 0 0) as [[n count]|].
  - destruct (Nat.ltb int_max_str_digits count); [|discriminate].
    injection H as <-. reflexivity.
  - injection H as <-. reflexivity.
Qed.

Lemma strptime_raises : forall s e,
  strptime_ymd s = Raise e -> exn_class e = ValueError.
Proof.
  intros s e H. unfold strptime_ymd in H.
  destruct (match_ymd s) as [[[[y m] d] rest]|].
  - destruct (negb (rest =? "")%string); [injection H as <-; reflexivity|].
    destruct (y =? 0); [injection H as <-; reflexivity|].
    destruct (days_in_month y m <? d); [injection H as <-; reflexivity|].
    discriminate.
  - injection H as <-. reflexivity.
Qed.

Lemma py_int_raises : forall v e,
  py_int v = Raise e -> exn_class e <> KeyError.
Proof.
  intros v e H. destruct v; cbn [py_int] in H.
  - injection H as <-. discriminate.
  - discriminate.
  - discriminate.
  - destruct f; cbn [int_of_float] in H; try discriminate;
      injection H as <-; discriminate.
  - rewrite (int_of_str_raises _ _ H). discriminate.
  - injection H as <-. discriminate.
  - injection H as <-. discriminate.
Qed.

(** ** The dialog hook, step by step *)

Lemma book_room_steps : forall w event source slots,
  event_intent_name event = Ok (PStr "BookRoom") ->
  getitem event "invocationSource" = Ok source ->
  event_slots event = Ok slots ->
  DialogHook.lambda_handler w event
  = and_then (DialogHook.validate_room_type event slots)
      (and_then (DialogHook.validate_check_in_date w event slots)
         (and_then (DialogHook.validate_nights event slots)
            (and_then (DialogHook.check_availability w event slots)
               (DialogHook.delegate event)))).
Proof.
  intros w event source slots Hn Hs Hslots.
  rewrite (dialog_book_room_route w event source Hn Hs).
  unfold DialogHook.handle_book_room_dialog. rewrite Hslots. reflexivity.
Qed.

Lemma elicits_from : forall w event intent slot message,
  event_intent event = Ok intent ->
  DialogHook.lambda_handler w event
  = DialogHook.elicit_slot event slot message ->
  dialog_elicits w event slot message.
Proof.
  intros w event intent slot message Hi Hh.
  destruct (elicit_slot_ok event intent slot message Hi) as (resp & He & Hs).
  exists resp. split; [rewrite Hh; exact He | exact Hs].
Qed.

Section Nights.

Variables (w : World) (event source slots : pyval).
Hypothesis Hname : event_intent_name event = Ok (PStr "BookRoom").
Hypothesis Hsource : getitem event "invocationSource" = Ok source.
Hypothesis Hslots : event_slots event = Ok slots.
Hypothesis Hroom : DialogHook.validate_room_type event slots = Ok None.
Hypothesis Hdate : DialogHook.validate_check_in_date w event slots = Ok None.

Lemma after_room_and_date :
  DialogHook.lambda_handler w event
  = and_then (DialogHook.validate_nights event slots)
      (and_then (DialogHook.check_availability w event slots)
         (DialogHook.delegate event)).
Proof.
  rewrite (book_room_steps w event source slots Hname Hsource Hslots).
  rewrite Hroom, Hdate. reflexivity.
Qed.

Lemma nights_unfold : forall value,
  interpreted_value slots "Nights" = Ok value ->
  DialogHook.validate_nights event slots
  = try_except
      (nights <- py_int value ;;
       if nights <? 1 then
         returns (DialogHook.elicit_slot event "Nights" one_night_message)
       else if 30 <? nights then
         returns (DialogHook.elicit_slot event "Nights" thirty_nights_message)
       else Ok None)
      [(ValueError, fun _ =>
          returns (DialogHook.elicit_slot event "Nights" invalid_nights_message))].
Proof.
  intros value Hv. unfold DialogHook.validate_nights.
  rewrite (interpreted_value_filled _ _ _ Hv). cbn [bind].
  rewrite Hv. reflexivity.
Qed.

End Nights.

(** X1.  The nights rule of the dialog hook.  When the room type and the
    date rules pass and the Nights slot holds a value that [int] reads as
    [nights]: below 1 the validator asks for Nights again, above 30 it
    does so with the long-stay text, and from 1 to 30 the rule passes and
    no later step asks for Nights. *)
Theorem nights_rule :
  forall w event source slots value nights,
    event_intent_name event = Ok (PStr "BookRoom") ->
    getitem event "invocationSource" = Ok source ->
    event_slots event = Ok slots ->
    DialogHook.validate_room_type event slots = Ok None ->
    DialogHook.validate_check_in_date w event slots = Ok None ->
    interpreted_value slots "Nights" = Ok value ->
    py_int value = Ok nights ->
    (nights < 1 -> dialog_elicits w event "Nights" one_night_message)
    /\ (30 < nights -> dialog_elicits w event "Nights" thirty_nights_message)
    /\ (1 <= nights <= 30 ->
        DialogHook.validate_nights event slots = Ok None
        /\ forall resp,
             DialogHook.lambda_handler w event = Ok resp ->
             slot_to_elicit resp <> Some "Nights").
Proof.
  intros w event source slots value nights Hn Hs Hslots Hroom Hdate Hv Hint.
  destruct (event_slots_intent _ _ Hslots) as [intent Hi].
  pose proof (after_room_and_date w event source slots Hn Hs Hslots Hroom Hdate)
    as Hh.
  pose proof (nights_unfold event slots value Hv) as Hu.
  rewrite Hint in Hu. cbn [bind] in Hu.
  split; [|split].
  - intros Hlt. apply (elicits_from w event intent _ _ Hi).
    rewrite Hh, Hu.
    destruct (Z.ltb_spec nights 1); [|lia].
    destruct (elicit_slot_ok event intent "Nights" one_night_message Hi)
      as (resp & He & _).
    rewrite He. reflexivity.
  - intros Hgt. apply (elicits_from w event intent _ _ Hi).
    rewrite Hh, Hu.
    destruct (Z.ltb_spec nights 1); [lia|].
    destruct (Z.ltb_spec 30 nights); [|lia].
    destruct (elicit_slot_ok event intent "Nights" thirty_nights_message Hi)
      as (resp & He & _).
    rewrite He. reflexivity.
  - intros Hin.
    assert (Hnone : DialogHook.validate_nights event slots = Ok None).
    { rewrite Hu.
      destruct (Z.ltb_spec nights 1); [lia|].
      destruct (Z.ltb_spec 30 nights); [lia|]. reflexivity. }
    split; [exact Hnone|].
    intros resp Hr. rewrite Hh, Hnone, and_then_none in Hr.
    unfold and_then in Hr.
    destruct (DialogHook.check_availability w event slots) as [[r|]|e] eqn:A;
      cbn [bind] in Hr; try discriminate.
    + injection Hr as <-. rewrite (check_availability_elicits _ _ _ _ A).
      discriminate.
    + destruct (delegate_names _ _ Hr) as [_ ->]. discriminate.
Qed.

Lemma nights_rule_witness :
  dialog_elicits example_world
    (lex_event "BookRoom" (full_slots "double" "2025-07-01" "0"))
    "Nights" one_night_message
  /\ dialog_elicits example_world
       (lex_event "BookRoom" (full_slots "double" "2025-07-01" "31"))
       "Nights" thirty_nights_message
  /\ DialogHook.validate_nights
       (lex_event "BookRoom" (full_slots "double" "2025-07-01" "30"))
       (PDict (full_slots "double" "2025-07-01" "30")) = Ok None.
Proof.
  split; [|split].
  - apply (nights_rule example_world
             (lex_event "BookRoom" (full_slots "double" "2025-07-01" "0"))
             (PStr "DialogCodeHook")
             (PDict (full_slots "double" "2025-07-01" "0")) (PStr "0") 0
             eq_refl eq_refl eq_refl eq_refl eq_refl eq_refl eq_refl).
    decide_z.
  - apply (nights_rule example_world
             (lex_event "BookRoom" (full_slots "double" "2025-07-01" "31"))
             (PStr "DialogCodeHook")
             (PDict (full_slots "double" "2025-07-01" "31")) (PStr "31") 31
             eq_refl eq_refl eq_refl eq_refl eq_refl eq_refl eq_refl).
    decide_z.
  - apply (nights_rule example_world
             (lex_event "BookRoom" (full_slots "double" "2025-07-01" "30"))
             (PStr "DialogCodeHook")
             (PDict (full_slots "double" "2025-07-01" "30")) (PStr "30") 30
             eq_refl eq_refl eq_refl eq_refl eq_refl eq_refl eq_refl).
    decide_z.
Defined.

(** X2.  A number of nights that [int] cannot read.  When the room type
    and the date rules pass and the Nights slot holds a string of ASCII
    characters that is not an integer numeral, the [ValueError] is
    caught and the validator asks for Nights again. *)
Theorem nights_not_a_number :
  forall w event source slots text e,
    event_intent_name event = Ok (PStr "BookRoom") ->
    getitem event "invocationSource" = Ok source ->
    event_slots event = Ok slots ->
    DialogHook.validate_room_type event slots = Ok None ->
    DialogHook.validate_check_in_date w event slots = Ok None ->
    interpreted_value slots "Nights" = Ok (PStr text) ->
    ascii_only text = true ->
    int_of_str text = Raise e ->
    dialog_elicits w event "Nights" invalid_nights_message.
Proof.
  intros w event source slots text e Hn Hs Hslots Hroom Hdate Hv _ Hint.
  destruct (event_slots_intent _ _ Hslots) as [intent Hi].
  apply (elicits_from w event intent _ _ Hi).
  rewrite (after_room_and_date w event source slots Hn Hs Hslots Hroom Hdate).
  rewrite (nights_unfold event slots (PStr text) Hv).
  cbn [py_int]. rewrite Hint. cbn [bind try_except dispatch].
  unfold isinstance. rewrite (int_of_str_raises _ _ Hint).
  destruct (elicit_slot_ok event intent "Nights" invalid_nights_message Hi)
    as (resp & He & _).
  rewrite He. reflexivity.
Qed.

Lemma nights_not_a_number_witness :
  dialog_elicits example_world
    (lex_event "BookRoom" (full_slots "double" "2025-07-01" "two"))
    "Nights" invalid_nights_message.
Proof.
  apply (nights_not_a_number example_world
           (lex_event "BookRoom" (full_slots "double" "2025-07-01" "two"))
           (PStr "DialogCodeHook")
           (PDict (full_slots "double" "2025-07-01" "two")) "two"
           (mk_exn ValueError
              "invalid literal for int() with base 10: 'two'")
           eq_refl eq_refl eq_refl eq_refl eq_refl eq_refl eq_refl eq_refl).
Defined.

(** X3.  A date that [strptime] cannot read.  When the room type rule
    passes and the CheckInDate slot holds a string of ASCII characters
    that does not parse as year-month-day, the [ValueError] is caught
    and the validator asks for CheckInDate again, with a text that
    speaks of the format DD/MM/YYYY. *)
Theorem unreadable_date :
  forall w event source slots text e,
    event_intent_name event = Ok (PStr "BookRoom") ->
    getitem event "invocationSource" = Ok source ->
    event_slots event = Ok slots ->
    DialogHook.validate_room_type event slots = Ok None ->
    interpreted_value slots "CheckInDate" = Ok (PStr text) ->
    ascii_only text = true ->
    strptime_ymd text = Raise e ->
    dialog_elicits w event "CheckInDate" unreadable_date_message.
Proof.
  intros w event source slots text e Hn Hs Hslots Hroom Hv _ Hparse.
  destruct (event_slots_intent _ _ Hslots) as [intent Hi].
  apply (elicits_from w event intent _ _ Hi).
  rewrite (book_room_steps w event source slots Hn Hs Hslots).
  rewrite Hroom, and_then_none.
  unfold DialogHook.validate_check_in_date.
  rewrite (interpreted_value_filled _ _ _ Hv). cbn [bind].
  rewrite Hv. cbn [bind py_strptime_ymd]. rewrite Hparse.
  cbn [bind try_except dispatch].
  unfold isinstance. rewrite (strptime_raises _ _ Hparse).
  rewrite and_then_returns. reflexivity.
Qed.

Lemma unreadable_date_witness :
  dialog_elicits example_world (book_room_event "double" "01/07/2025")
    "CheckInDate" unreadable_date_message.
Proof.
  apply (unreadable_date example_world
           (book_room_event "double" "01/07/2025") (PStr "DialogCodeHook")
           (PDict [("RoomType", filled_slot "double");
                   ("CheckInDate", filled_slot "01/07/2025")])
           "01/07/2025"
           (mk_exn ValueError
              "time data '01/07/2025' does not match format '%Y-%m-%d'")
           eq_refl eq_refl eq_refl eq_refl eq_refl eq_refl eq_refl).
Defined.

(** ** What the BookRoom validator can answer *)

Lemma returns_elicit_answer : forall event names slot message r,
  In slot names ->
  returns (DialogHook.elicit_slot event slot message) = Ok (Some r) ->
  elicit_answer event names r.
Proof.
  intros event names slot message r Hin H. unfold returns in H.
  destruct (DialogHook.elicit_slot event slot message) as [r'|e] eqn:E;
    [|discriminate].
  cbn [bind] in H. injection H as <-. exists slot, message. auto.
Qed.

Ltac elicit_here H :=
  eapply returns_elicit_answer; [|exact H]; simpl; tauto.

Lemma try_elicit_answer : forall event names body slot message r,
  (forall r, body = Ok (Some r) -> elicit_answer event names r) ->
  In slot names ->
  try_except body
    [(ValueError, fun _ => returns (DialogHook.elicit_slot event slot message))]
  = Ok (Some r) ->
  elicit_answer event names r.
Proof.
  intros event names body slot message r Hbody Hin H.
  destruct body as [o|e]; cbn [try_except dispatch] in H.
  - apply Hbody. exact H.
  - destruct (isinstance e ValueError); [|discriminate].
    apply (returns_elicit_answer _ _ _ _ _ Hin H).
Qed.

Lemma room_type_answer : forall event slots r,
  DialogHook.validate_room_type event slots = Ok (Some r) ->
  elicit_answer event ["RoomType"; "CheckInDate"; "Nights"] r.
Proof.
  intros event slots r H. unfold DialogHook.validate_room_type in H.
  destruct (slot_has_value slots "RoomType") as [[|]|e]; cbn [bind] in H;
    try discriminate.
  destruct (interpreted_value slots "RoomType") as [v|e]; cbn [bind] in H;
    [|discriminate].
  destruct (py_lower v) as [l|e]; cbn [bind] in H; [|discriminate].
  destruct (negb _); [|discriminate].
  elicit_here H.
Qed.

Lemma check_in_date_answer : forall w event slots r,
  DialogHook.validate_check_in_date w event slots = Ok (Some r) ->
  elicit_answer event ["RoomType"; "CheckInDate"; "Nights"] r.
Proof.
  intros w event slots r H. unfold DialogHook.validate_check_in_date in H.
  destruct (slot_has_value slots "CheckInDate") as [[|]|e]; cbn [bind] in H;
    try discriminate.
  destruct (interpreted_value slots "CheckInDate") as [v|e]; cbn [bind] in H;
    [|discriminate].
  apply try_elicit_answer
    with (names := ["RoomType"; "CheckInDate"; "Nights"]) in H;
    [exact H | | simpl; tauto].
  clear H. intros r' H.
  destruct (py_strptime_ymd v) as [d|e]; cbn [bind] in H; [|discriminate].
  destruct (date_ltb d (dt_date (now w))).
  - elicit_here H.
  - destruct (add_days (timepoint_of (now w)) 365) as [t|e]; cbn [bind] in H;
      [|discriminate].
    destruct (timepoint_gtb (midnight d) t); [|discriminate].
    elicit_here H.
Qed.

Lemma nights_answer : forall event slots r,
  DialogHook.validate_nights event slots = Ok (Some r) ->
  elicit_answer event ["RoomType"; "CheckInDate"; "Nights"] r.
Proof.
  intros event slots r H. unfold DialogHook.validate_nights in H.
  destruct (slot_has_value slots "Nights") as [[|]|e]; cbn [bind] in H;
    try discriminate.
  apply try_elicit_answer
    with (names := ["RoomType"; "CheckInDate"; "Nights"]) in H;
    [exact H | | simpl; tauto].
  clear H. intros r' H.
  destruct (interpreted_value slots "Nights") as [v|e]; cbn [bind] in H;
    [|discriminate].
  destruct (py_int v) as [n|e]; cbn [bind] in H; [|discriminate].
  destruct (n <? 1); [|destruct (30 <? n); [|discriminate]];
    elicit_here H.
Qed.

Lemma availability_answer : forall w event slots r,
  DialogHook.check_availability w event slots = Ok (Some r) ->
  elicit_answer event ["RoomType"; "CheckInDate"; "Nights"] r.
Proof.
  intros w event slots r H. unfold DialogHook.check_availability in H.
  destruct (DialogHook.all_filled _ _) as [[|]|e]; cbn [bind] in H;
    try discriminate.
  destruct (interpreted_value slots "RoomType") as [v|e]; cbn [bind] in H;
    [|discriminate].
  destruct (negb _); [|discriminate].
  elicit_here H.
Qed.

Lemma elicit_answer_shape : forall event names r,
  elicit_answer event names r ->
  event_intent r = event_intent event
  /\ dialog_action_type r = Some "ElicitSlot"
  /\ exists slot, slot_to_elicit r = Some slot /\ In slot names.
Proof.
  intros event names r (slot & message & Hin & H).
  unfold DialogHook.elicit_slot in H.
  destruct (event_intent event) as [intent|e]; [|discriminate].
  cbn [bind] in H. injection H as <-.
  split; [reflexivity|]. split; [reflexivity|].
  exists slot. split; [reflexivity | exact Hin].
Qed.

(** X4.  What the BookRoom validator can answer.  Whenever the dialog
    hook answers a BookRoom event, the answer carries the intent of the
    event unchanged and is either Delegate or ElicitSlot for one of
    RoomType, CheckInDate and Nights: the validator never closes the
    dialog and never asks for another slot. *)
Theorem book_room_dialog_answers :
  forall w event resp,
    event_intent_name event = Ok (PStr "BookRoom") ->
    DialogHook.lambda_handler w event = Ok resp ->
    event_intent resp = event_intent event
    /\ (dialog_action_type resp = Some "Delegate"
        \/ (dialog_action_type resp = Some "ElicitSlot"
            /\ exists slot,
                 slot_to_elicit resp = Some slot
                 /\ In slot ["RoomType"; "CheckInDate"; "Nights"])).
Proof.
  intros w event resp Hn H.
  unfold DialogHook.lambda_handler in H. rewrite Hn in H. cbn [bind] in H.
  destruct (getitem event "invocationSource") as [source|e]; [|discriminate].
  cbn [bind eq_str String.eqb Ascii.eqb Bool.eqb andb] in H.
  unfold DialogHook.handle_book_room_dialog in H.
  destruct (event_slots event) as [slots|e]; cbn [bind] in H; [|discriminate].
  assert (Hel : forall r,
            elicit_answer event ["RoomType"; "CheckInDate"; "Nights"] r ->
            event_intent r = event_intent event
            /\ (dialog_action_type r = Some "Delegate"
                \/ (dialog_action_type r = Some "ElicitSlot"
                    /\ exists slot,
                         slot_to_elicit r = Some slot
                         /\ In slot ["RoomType"; "CheckInDate"; "Nights"]))).
  { intros r Hr. destruct (elicit_answer_shape _ _ _ Hr) as (Hi & Ht & Hs).
    split; [exact Hi | right; split; assumption]. }
  unfold and_then in H.
  destruct (DialogHook.validate_room_type event slots) as [[r|]|e] eqn:S1;
    cbn [bind] in H; try discriminate.
  { injection H as <-. apply Hel, (room_type_answer _ _ _ S1). }
  destruct (DialogHook.validate_check_in_date w event slots) as [[r|]|e] eqn:S2;
    cbn [bind] in H; try discriminate.
  { injection H as <-. apply Hel, (check_in_date_answer _ _ _ _ S2). }
  destruct (DialogHook.validate_nights event slots) as [[r|]|e] eqn:S3;
    cbn [bind] in H; try discriminate.
  { injection H as <-. apply Hel, (nights_answer _ _ _ S3). }
  destruct (DialogHook.check_availability w event slots) as [[r|]|e] eqn:S4;
    cbn [bind] in H; try discriminate.
  { injection H as <-. apply Hel, (availability_answer _ _ _ _ S4). }
  unfold DialogHook.delegate in H.
  destruct (event_intent event) as [intent|e]; [|discriminate].
  cbn [bind] in H. injection H as <-.
  split; [reflexivity | left; reflexivity].
Qed.

Lemma book_room_dialog_answers_witness :
  exists resp,
    DialogHook.lambda_handler example_world
      (book_room_event "penthouse" "2025-07-01") = Ok resp
    /\ event_intent resp
       = event_intent (book_room_event "penthouse" "2025-07-01").
Proof.
  eexists. split; [vm_compute; reflexivity|].
  apply (book_room_dialog_answers example_world
           (book_room_event "penthouse" "2025-07-01") _ eq_refl eq_refl).
Defined.

Lemma unfilled_slot : forall d name,
  unfilled d name = true -> slot_has_value (PDict d) name = Ok false.
Proof.
  intros d name H. unfold unfilled in H. unfold slot_has_value.
  cbn [get]. destruct (assoc name d) as [v|]; cbn [bind].
  - apply negb_true_iff in H. rewrite H. reflexivity.
  - reflexivity.
Qed.

Lemma delegates_from : forall w event intent,
  event_intent event = Ok intent ->
  DialogHook.lambda_handler w event = DialogHook.delegate event ->
  dialog_delegates w event.
Proof.
  intros w event intent Hi Hh.
  destruct (delegate_ok event intent Hi) as (resp & Hd & Ht & _).
  exists resp. split; [rewrite Hh; exact Hd | exact Ht].
Qed.

(** X5.  Nothing to validate.  When none of RoomType, CheckInDate and
    Nights is filled (each is absent from the slot mapping or holds a
    false value such as [None]), the dialog hook answers Delegate,
    without consulting the clock or the availability check. *)
Theorem nothing_filled_delegates :
  forall w event source d,
    event_intent_name event = Ok (PStr "BookRoom") ->
    getitem event "invocationSource" = Ok source ->
    event_slots event = Ok (PDict d) ->
    unfilled d "RoomType" = true ->
    unfilled d "CheckInDate" = true ->
    unfilled d "Nights" = true ->
    dialog_delegates w event.
Proof.
  intros w event source d Hn Hs Hslots H1 H2 H3.
  destruct (event_slots_intent _ _ Hslots) as [intent Hi].
  apply (delegates_from w event intent Hi).
  rewrite (book_room_steps w event source (PDict d) Hn Hs Hslots).
  unfold DialogHook.validate_room_type, DialogHook.validate_check_in_date,
    DialogHook.validate_nights, DialogHook.check_availability.
  cbn [DialogHook.all_filled].
  rewrite (unfilled_slot d _ H1), (unfilled_slot d _ H2),
    (unfilled_slot d _ H3).
  reflexivity.
Qed.

Lemma nothing_filled_delegates_witness :
  dialog_delegates example_world
    (lex_event "BookRoom"
       [("RoomType", PNone); ("CheckInDate", PNone); ("Nights", PNone)]).
Proof.
  apply (nothing_filled_delegates example_world
           (lex_event "BookRoom"
              [("RoomType", PNone); ("CheckInDate", PNone); ("Nights", PNone)])
           (PStr "DialogCodeHook")
           [("RoomType", PNone); ("CheckInDate", PNone); ("Nights", PNone)]
           eq_refl eq_refl eq_refl eq_refl eq_refl eq_refl).
Defined.

(** ** The other intents of the dialog hook *)

Lemma isalnum_nonempty : forall s,
  isalnum s = true -> exists c r, s = String c r.
Proof.
  intros [|c r] H; [discriminate | eauto].
Qed.

Lemma verify_booking_exists_string : forall c r,
  DialogHook.verify_booking_exists (PStr (String c r))
  = Ok (starts_with_a_or_b (String c r)).
Proof.
  intros c r. unfold DialogHook.verify_booking_exists.
  cbn [getitem0 bind py_upper]. rewrite first_character_lookup. reflexivity.
Qed.

Lemma cancel_dialog_steps : forall w event source slots number,
  event_intent_name event = Ok (PStr "CancelBooking") ->
  getitem event "invocationSource" = Ok source ->
  event_slots event = Ok slots ->
  interpreted_value slots "BookingNumber" = Ok (PStr number) ->
  DialogHook.lambda_handler w event
  = and_then
      (if negb (isalnum number) || (len number <? 6) || (8 <? len number)
       then returns (DialogHook.elicit_slot event "BookingNumber"
                       booking_format_message)
       else
         found <- DialogHook.verify_booking_exists (PStr number) ;;
         if negb found
         then returns (DialogHook.elicit_slot event "BookingNumber"
                         (booking_not_found_message number))
         else Ok None)
      (DialogHook.delegate event).
Proof.
  intros w event source slots number Hn Hs Hslots Hv.
  unfold DialogHook.lambda_handler. rewrite Hn, Hs.
  cbn [bind eq_str String.eqb Ascii.eqb Bool.eqb andb].
  unfold DialogHook.handle_cancel_booking_dialog.
  rewrite Hslots. cbn [bind].
  rewrite (interpreted_value_filled _ _ _ Hv). cbn [bind].
  rewrite Hv. reflexivity.
Qed.

(** X6.  The booking number rule of the dialog hook.  For a CancelBooking
    dialog event whose BookingNumber slot holds a string of ASCII
    characters: a number that is not made of 6 to 8 letters and digits
    is asked for again; a well-formed number that starts with none of
    A, B, a, b is reported as not found and asked for again; any other
    number is delegated. *)
Theorem booking_number_rule :
  forall w event source slots number,
    event_intent_name event = Ok (PStr "CancelBooking") ->
    getitem event "invocationSource" = Ok source ->
    event_slots event = Ok slots ->
    interpreted_value slots "BookingNumber" = Ok (PStr number) ->
    ascii_only number = true ->
    let well_formed :=
      isalnum number && (6 <=? len number) && (len number <=? 8) in
    (well_formed = false ->
       dialog_elicits w event "BookingNumber" booking_format_message)
    /\ (well_formed = true -> starts_with_a_or_b number = false ->
          dialog_elicits w event "BookingNumber"
            (booking_not_found_message number))
    /\ (well_formed = true -> starts_with_a_or_b number = true ->
          dialog_delegates w event).
Proof.
  intros w event source slots number Hn Hs Hslots Hv _ well_formed.
  destruct (event_slots_intent _ _ Hslots) as [intent Hi].
  pose proof (cancel_dialog_steps w event source slots number Hn Hs Hslots Hv)
    as Hh.
  assert (Hw : negb (isalnum number) || (len number <? 6) || (8 <? len number)
               = negb well_formed).
  { unfold well_formed.
    destruct (isalnum number), (Z.ltb_spec (len number) 6),
      (Z.ltb_spec 8 (len number)), (Z.leb_spec 6 (len number)),
      (Z.leb_spec (len number) 8); try reflexivity; lia. }
  rewrite Hw in Hh.
  split; [|split].
  - intros Hf. rewrite Hf in Hh. cbn [negb] in Hh.
    apply (elicits_from w event intent _ _ Hi).
    rewrite Hh, and_then_returns. reflexivity.
  - intros Ht Hnot. rewrite Ht in Hh. cbn [negb] in Hh.
    assert (Ha : isalnum number = true).
    { unfold well_formed in Ht. destruct (isalnum number);
        [reflexivity | discriminate]. }
    destruct (isalnum_nonempty _ Ha) as (c & r & ->).
    rewrite verify_booking_exists_string, Hnot in Hh. cbn [bind negb] in Hh.
    apply (elicits_from w event intent _ _ Hi).
    rewrite Hh, and_then_returns. reflexivity.
  - intros Ht Hfound. rewrite Ht in Hh. cbn [negb] in Hh.
    assert (Ha : isalnum number = true).
    { unfold well_formed in Ht. destruct (isalnum number);
        [reflexivity | discriminate]. }
    destruct (isalnum_nonempty _ Ha) as (c & r & ->).
    rewrite verify_booking_exists_string, Hfound in Hh.
    cbn [bind negb] in Hh. rewrite and_then_none in Hh.
    apply (delegates_from w event intent Hi Hh).
Qed.

Lemma booking_number_rule_witness :
  dialog_elicits example_world (cancel_event "B12") "BookingNumber"
    booking_format_message
  /\ dialog_elicits example_world (cancel_event "XYZ12345") "BookingNumber"
       (booking_not_found_message "XYZ12345")
  /\ dialog_delegates example_world (cancel_event "b1234567").
Proof.
  split; [|split].
  - apply (booking_number_rule example_world (cancel_event "B12")
             (PStr "DialogCodeHook")
             (PDict [("BookingNumber", filled_slot "B12")]) "B12"
             eq_refl eq_refl eq_refl eq_refl eq_refl).
    reflexivity.
  - apply (booking_number_rule example_world (cancel_event "XYZ12345")
             (PStr "DialogCodeHook")
             (PDict [("BookingNumber", filled_slot "XYZ12345")]) "XYZ12345"
             eq_refl eq_refl eq_refl eq_refl eq_refl); reflexivity.
  - apply (booking_number_rule example_world (cancel_event "b1234567")
             (PStr "DialogCodeHook")
             (PDict [("BookingNumber", filled_slot "b1234567")]) "b1234567"
             eq_refl eq_refl eq_refl eq_refl eq_refl); reflexivity.
Defined.

(** X7.  An intent the dialog hook does not know.  For an event that
    names an intent other than BookRoom, CancelBooking and
    CheckAvailability, the dialog hook answers Delegate and hands the
    intent back unchanged, whatever the slots hold. *)
Theorem unknown_intent_delegates :
  forall w event name source,
    event_intent_name event = Ok name ->
    getitem event "invocationSource" = Ok source ->
    eq_str name "BookRoom" = false ->
    eq_str name "CancelBooking" = false ->
    eq_str name "CheckAvailability" = false ->
    exists resp,
      DialogHook.lambda_handler w event = Ok resp
      /\ dialog_action_type resp = Some "Delegate"
      /\ event_intent resp = event_intent event.
Proof.
  intros w event name source Hn Hs H1 H2 H3.
  destruct (event_name_intent _ _ Hn) as [intent Hi].
  unfold DialogHook.lambda_handler. rewrite Hn, Hs. cbn [bind].
  rewrite H1, H2, H3. unfold DialogHook.delegate. rewrite Hi. cbn [bind].
  eexists. split; [reflexivity|]. split; reflexivity.
Qed.

Lemma unknown_intent_delegates_witness :
  exists resp,
    DialogHook.lambda_handler example_world (lex_event "OrderPizza" [])
    = Ok resp
    /\ dialog_action_type resp = Some "Delegate"
    /\ event_intent resp = event_intent (lex_event "OrderPizza" []).
Proof.
  apply (unknown_intent_delegates example_world (lex_event "OrderPizza" [])
           (PStr "OrderPizza") (PStr "DialogCodeHook")
           eq_refl eq_refl eq_refl eq_refl eq_refl).
Defined.

Lemma dialog_close_ok : forall event intent state message,
  event_intent event = Ok (PDict intent) ->
  closes_with (DialogHook.close event state message) state message.
Proof.
  intros event intent state message Hi. unfold DialogHook.close, closes_with.
  rewrite Hi. cbn [bind setitem]. eexists. split; [reflexivity|].
  split; [reflexivity|]. split; [|reflexivity].
  unfold intent_state, event_intent. cbn [getitem assoc String.eqb Ascii.eqb
    Bool.eqb bind andb].
  rewrite assoc_dict_set_same. reflexivity.
Qed.

(** X8.  The availability intent.  For a CheckAvailability dialog event
    the hook closes the dialog as Fulfilled: with the number of rooms
    drawn by the mock backend when the RoomType slot holds a string, and
    with the general text when the slot is not filled. *)
Theorem availability_intent_closes :
  forall w event source slots,
    event_intent_name event = Ok (PStr "CheckAvailability") ->
    getitem event "invocationSource" = Ok source ->
    event_slots event = Ok slots ->
    (forall room_type,
       interpreted_value slots "RoomType" = Ok (PStr room_type) ->
       closes_with (DialogHook.lambda_handler w event) "Fulfilled"
         (room_count_message (random_randint w) room_type))
    /\ (slot_has_value slots "RoomType" = Ok false ->
        closes_with (DialogHook.lambda_handler w event) "Fulfilled"
          general_availability_message).
Proof.
  intros w event source slots Hn Hs Hslots.
  destruct (event_name_intent _ _ Hn) as [intent Hi].
  assert (Hh : DialogHook.lambda_handler w event
               = DialogHook.handle_check_availability_dialog w event).
  { unfold DialogHook.lambda_handler. rewrite Hn, Hs. reflexivity. }
  rewrite Hh. unfold DialogHook.handle_check_availability_dialog.
  rewrite Hslots. cbn [bind].
  split.
  - intros room_type Hv.
    rewrite (interpreted_value_filled _ _ _ Hv). cbn [bind].
    rewrite Hv. cbn [bind py_str].
    apply (dialog_close_ok event intent _ _ Hi).
  - intros Hf. rewrite Hf. cbn [bind].
    apply (dialog_close_ok event intent _ _ Hi).
Qed.

Lemma availability_intent_closes_witness :
  closes_with
    (DialogHook.lambda_handler example_world
       (lex_event "CheckAvailability" [("RoomType", filled_slot "suite")]))
    "Fulfilled" (room_count_message 5 "suite")
  /\ closes_with
       (DialogHook.lambda_handler example_world
          (lex_event "CheckAvailability" [("RoomType", PNone)]))
       "Fulfilled" general_availability_message.
Proof.
  split.
  - apply (availability_intent_closes example_world
             (lex_event "CheckAvailability" [("RoomType", filled_slot "suite")])
             (PStr "DialogCodeHook")
             (PDict [("RoomType", filled_slot "suite")])
             eq_refl eq_refl eq_refl).
    reflexivity.
  - apply (availability_intent_closes example_world
             (lex_event "CheckAvailability" [("RoomType", PNone)])
             (PStr "DialogCodeHook") (PDict [("RoomType", PNone)])
             eq_refl eq_refl eq_refl).
    reflexivity.
Defined.

(** ** The fulfillment handlers: what is answered when nothing is booked *)

Lemma not_key_error : forall e,
  exn_class e <> KeyError -> isinstance e KeyError = false.
Proof.
  intros [c m] H. cbn [isinstance exn_class] in *.
  destruct c; try reflexivity. congruence.
Qed.

Lemma general_clause : forall A (h1 h2 : exn -> result A) e,
  exn_class e <> KeyError ->
  try_except (Raise e) [(KeyError, h1); (Exception, h2)] = h2 e.
Proof.
  intros A h1 h2 e H. cbn [try_except dispatch].
  rewrite (not_key_error e H). reflexivity.
Qed.

Lemma py_lower_raises : forall v e,
  py_lower v = Raise e -> exn_class e <> KeyError.
Proof.
  intros v e H. destruct v; cbn [py_lower] in H;
    try (injection H as <-; discriminate). discriminate.
Qed.

Lemma float_of_int_raises : forall n e,
  float_of_int n = Raise e -> exn_class e <> KeyError.
Proof.
  intros n e H. unfold float_of_int in H.
  destruct (float_of_Z n); try discriminate.
  injection H as <-. discriminate.
Qed.

(** X9.  A request the fulfillment handlers do not serve.  The simple
    handler serves BookRoom only and the integration handler BookRoom
    and CancelBooking; for any other intent name, which for the simple
    handler includes CancelBooking, the dialog is closed as Failed with
    the could-not-process text, and the slots are not read. *)
Theorem unserved_intent_fails :
  forall w event name,
    event_intent_name event = Ok name ->
    eq_str name "BookRoom" = false ->
    closes_with (BookingFulfillment.lambda_handler w event) "Failed"
      unknown_request_message
    /\ (eq_str name "CancelBooking" = false ->
        closes_with (FulfillmentHook.lambda_handler w event) "Failed"
          unknown_request_message).
Proof.
  intros w event name Hn Hb.
  destruct (event_name_intent _ _ Hn) as [intent Hi].
  split.
  - unfold BookingFulfillment.lambda_handler. rewrite Hn. cbn [bind].
    rewrite Hb. apply (close_failed_ok event intent _ Hi).
  - intros Hc. unfold FulfillmentHook.lambda_handler. rewrite Hn. cbn [bind].
    rewrite Hb, Hc. apply (close_failed_ok event intent _ Hi).
Qed.

Lemma unserved_intent_fails_witness :
  closes_with
    (BookingFulfillment.lambda_handler example_world (cancel_event "B1234567"))
    "Failed" unknown_request_message
  /\ closes_with
       (FulfillmentHook.lambda_handler example_world
          (lex_event "CheckAvailability" []))
       "Failed" unknown_request_message.
Proof.
  split.
  - apply (unserved_intent_fails example_world (cancel_event "B1234567")
             (PStr "CancelBooking") eq_refl eq_refl).
  - apply (unserved_intent_fails example_world
             (lex_event "CheckAvailability" []) (PStr "CheckAvailability")
             eq_refl eq_refl).
    reflexivity.
Defined.

Lemma cancel_steps : forall w event slots number,
  event_intent_name event = Ok (PStr "CancelBooking") ->
  event_slots event = Ok slots ->
  interpreted_value slots "BookingNumber" = Ok (PStr number) ->
  FulfillmentHook.lambda_handler w event
  = match number with
    | EmptyString => close_failed event cancellation_error_message
    | _ =>
        if starts_with_a_or_b number
        then FulfillmentHook.close_fulfilled event
               (FulfillmentHook.cancelled_message w (PStr number) "389.97")
               PNone
        else close_failed event (booking_not_found_message number)
    end.
Proof.
  intros w event slots number Hn Hslots Hv.
  rewrite (proj2 (hook_routes w event) Hn).
  unfold FulfillmentHook.fulfill_cancel_booking.
  rewrite Hslots. cbn [bind]. rewrite Hv. cbn [bind].
  rewrite get_booking_details_string.
  destruct number as [|c r]; [reflexivity|].
  destruct (starts_with_a_or_b (String c r)).
  - cbn [bind]. unfold mock_booking at 1.
    cbn [truthy negb FulfillmentHook.cancel_booking getitem assoc String.eqb
         Ascii.eqb Bool.eqb andb bind].
    unfold mock_booking.
    cbn [get assoc String.eqb Ascii.eqb Bool.eqb andb bind py_format_2f].
    replace (format_2f (float_lit 38997 100)) with "389.97"
      by (vm_compute; reflexivity).
    cbn [bind].
    destruct (event_name_intent _ _ Hn) as [intent Hi].
    destruct (hook_close_fulfilled_ok event intent
                (FulfillmentHook.cancelled_message w (PStr (String c r))
                   "389.97") PNone Hi) as (resp & Hr & _).
    rewrite Hr. reflexivity.
  - cbn [bind truthy negb py_str].
    destruct (event_name_intent _ _ Hn) as [intent Hi].
    destruct (close_failed_ok event intent
                (booking_not_found_message (String c r)) Hi)
      as (resp & Hr & _).
    unfold booking_not_found_message in *. rewrite Hr. reflexivity.
Qed.

(** X10.  A cancellation that finds no booking.  For a CancelBooking
    fulfillment event whose BookingNumber slot holds a non-empty string
    that starts with none of A, B, a, b, the integration handler closes
    the dialog as Failed and names the number it could not find. *)
Theorem cancellation_not_found :
  forall w event slots number,
    event_intent_name event = Ok (PStr "CancelBooking") ->
    event_slots event = Ok slots ->
    interpreted_value slots "BookingNumber" = Ok (PStr number) ->
    number <> "" ->
    starts_with_a_or_b number = false ->
    closes_with (FulfillmentHook.lambda_handler w event) "Failed"
      (booking_not_found_message number).
Proof.
  intros w event slots number Hn Hslots Hv Hne Hs.
  destruct (event_name_intent _ _ Hn) as [intent Hi].
  rewrite (cancel_steps w event slots number Hn Hslots Hv).
  destruct number as [|c r]; [congruence|]. rewrite Hs.
  apply (close_failed_ok event intent _ Hi).
Qed.

Lemma cancellation_not_found_witness :
  closes_with
    (FulfillmentHook.lambda_handler example_world (cancel_event "XYZ12345"))
    "Failed" (booking_not_found_message "XYZ12345").
Proof.
  apply (cancellation_not_found example_world (cancel_event "XYZ12345")
           (PDict [("BookingNumber", filled_slot "XYZ12345")]) "XYZ12345"
           eq_refl eq_refl eq_refl).
  - discriminate.
  - reflexivity.
Defined.

Lemma interpreted_value_absent : forall d name,
  assoc name d = None ->
  interpreted_value (PDict d) name = raise KeyError (quoted name).
Proof.
  intros d name H. unfold interpreted_value. rewrite (absent_key d name H).
  reflexivity.
Qed.

Lemma interpreted_value_null : forall d name,
  assoc name d = Some PNone ->
  interpreted_value (PDict d) name
  = raise TypeError "'NoneType' object is not subscriptable".
Proof.
  intros d name H. unfold interpreted_value. cbn [getitem]. rewrite H.
  reflexivity.
Qed.

(** X11.  A cancellation without a usable booking number.  For a
    CancelBooking fulfillment event: when the slot mapping has no
    BookingNumber key the integration handler answers Failed with the
    booking-number-needed text; when the key is there but the slot is
    null, or its interpreted value is the empty string, the exception is
    not a [KeyError] and the handler answers Failed with the general
    error text. *)
Theorem cancellation_without_number :
  forall w event d,
    event_intent_name event = Ok (PStr "CancelBooking") ->
    event_slots event = Ok (PDict d) ->
    (assoc "BookingNumber" d = None ->
       closes_with (FulfillmentHook.lambda_handler w event) "Failed"
         booking_number_needed_message)
    /\ (assoc "BookingNumber" d = Some PNone ->
          closes_with (FulfillmentHook.lambda_handler w event) "Failed"
            cancellation_error_message)
    /\ (interpreted_value (PDict d) "BookingNumber" = Ok (PStr "") ->
          closes_with (FulfillmentHook.lambda_handler w event) "Failed"
            cancellation_error_message).
Proof.
  intros w event d Hn Hslots.
  destruct (event_name_intent _ _ Hn) as [intent Hi].
  split; [|split].
  - intros Ha. rewrite (proj2 (hook_routes w event) Hn).
    unfold FulfillmentHook.fulfill_cancel_booking.
    rewrite Hslots. cbn [bind].
    rewrite (interpreted_value_absent d _ Ha).
    apply (close_failed_ok event intent _ Hi).
  - intros Ha. rewrite (proj2 (hook_routes w event) Hn).
    unfold FulfillmentHook.fulfill_cancel_booking.
    rewrite Hslots. cbn [bind].
    rewrite (interpreted_value_null d _ Ha).
    apply (close_failed_ok event intent _ Hi).
  - intros Hv.
    rewrite (cancel_steps w event (PDict d) "" Hn Hslots Hv).
    apply (close_failed_ok event intent _ Hi).
Qed.

Lemma cancellation_without_number_witness :
  closes_with
    (FulfillmentHook.lambda_handler example_world
       (lex_event "CancelBooking" []))
    "Failed" booking_number_needed_message
  /\ closes_with
       (FulfillmentHook.lambda_handler example_world
          (lex_event "CancelBooking" [("BookingNumber", PNone)]))
       "Failed" cancellation_error_message
  /\ closes_with
       (FulfillmentHook.lambda_handler example_world (cancel_event ""))
       "Failed" cancellation_error_message.
Proof.
  split; [|split].
  - apply (proj1 (cancellation_without_number example_world
                    (lex_event "CancelBooking" []) [] eq_refl eq_refl)).
    reflexivity.
  - apply (proj1 (proj2 (cancellation_without_number example_world
                    (lex_event "CancelBooking" [("BookingNumber", PNone)])
                    [("BookingNumber", PNone)] eq_refl eq_refl))).
    reflexivity.
  - apply (proj2 (proj2 (cancellation_without_number example_world
                    (cancel_event "") [("BookingNumber", filled_slot "")]
                    eq_refl eq_refl))).
    reflexivity.
Defined.

(** X12.  Slot values that cannot be used.  For a BookRoom fulfillment
    event whose three slots hold an interpreted value (the number of
    nights, if a string, one of ASCII characters): when the number of
    nights cannot be read by [int], or the room type is not a string,
    or the number of nights is too large to be multiplied with the
    price, the exception is not a [KeyError], and both handlers close
    the dialog as Failed with the unexpected-error text. *)
Theorem unusable_slot_values_fail :
  forall w event slots room_type check_in nights_value,
    event_intent_name event = Ok (PStr "BookRoom") ->
    event_slots event = Ok slots ->
    interpreted_value slots "RoomType" = Ok room_type ->
    interpreted_value slots "CheckInDate" = Ok check_in ->
    interpreted_value slots "Nights" = Ok nights_value ->
    (forall text, nights_value = PStr text -> ascii_only text = true) ->
    (exists e, py_int nights_value = Raise e)
    \/ (exists nights e,
          py_int nights_value = Ok nights /\ py_lower room_type = Raise e)
    \/ (exists nights e,
          py_int nights_value = Ok nights /\ float_of_int nights = Raise e) ->
    closes_with (FulfillmentHook.lambda_handler w event) "Failed"
      unexpected_error_message
    /\ closes_with (BookingFulfillment.lambda_handler w event) "Failed"
         unexpected_error_message.
Proof.
  intros w event slots room_type check_in nights_value
    Hn Hslots Hroom Hdate Hnights _ Hcause.
  destruct (event_name_intent _ _ Hn) as [intent Hi].
  rewrite (proj1 (hook_routes w event) Hn), (simple_route w event Hn).
  unfold FulfillmentHook.fulfill_book_room, BookingFulfillment.fulfill_booking.
  rewrite Hslots. cbn [bind]. rewrite Hroom, Hdate, Hnights. cbn [bind].
  destruct Hcause as [[e He] | [(nights & e & Hint & He) | (nights & e & Hint & He)]].
  - rewrite He. cbn [bind].
    rewrite !(general_clause _ _ _ e (py_int_raises _ _ He)).
    split; apply (close_failed_ok event intent _ Hi).
  - rewrite Hint. cbn [bind]. rewrite He. cbn [bind].
    rewrite !(general_clause _ _ _ e (py_lower_raises _ _ He)).
    split; apply (close_failed_ok event intent _ Hi).
  - rewrite Hint. cbn [bind].
    destruct (py_lower room_type) as [lowered|e'] eqn:El; cbn [bind].
    + unfold float_mul_int. rewrite He. cbn [bind].
      rewrite !(general_clause _ _ _ e (float_of_int_raises _ _ He)).
      split; apply (close_failed_ok event intent _ Hi).
    + rewrite !(general_clause _ _ _ e' (py_lower_raises _ _ El)).
      split; apply (close_failed_ok event intent _ Hi).
Qed.

Lemma unusable_slot_values_fail_witness :
  closes_with
    (FulfillmentHook.lambda_handler example_world
       (lex_event "BookRoom" (full_slots "double" "2025-07-01" "three")))
    "Failed" unexpected_error_message
  /\ closes_with
       (BookingFulfillment.lambda_handler example_world
          (lex_event "BookRoom" (full_slots "double" "2025-07-01" "three")))
       "Failed" unexpected_error_message.
Proof.
  apply (unusable_slot_values_fail example_world
           (lex_event "BookRoom" (full_slots "double" "2025-07-01" "three"))
           (PDict (full_slots "double" "2025-07-01" "three"))
           (PStr "double") (PStr "2025-07-01") (PStr "three")
           eq_refl eq_refl eq_refl eq_refl eq_refl).
  - intros text H. injection H as <-. reflexivity.
  - left. eexists. vm_compute. reflexivity.
Defined.

(** ** The dialog hook and the fulfillment hook together *)

Lemma elicit_is_no_delegate : forall event slot message resp,
  DialogHook.elicit_slot event slot message = Ok resp ->
  dialog_action_type resp <> Some "Delegate".
Proof.
  intros event slot message resp H.
  destruct (elicit_slot_names _ _ _ _ H) as (Ht & _). rewrite Ht. discriminate.
Qed.

(** X13.  A cancellation the dialog hook lets through is carried out.
    For a CancelBooking event whose BookingNumber slot holds a string of
    ASCII characters:
    whenever the dialog hook answers Delegate, the number is made of 6 to
    8 letters and digits, and the fulfillment hook, in any world, finds
    the booking and closes the dialog as Fulfilled with the refund of
    389.97. *)
Theorem delegated_cancellation_is_fulfilled :
  forall w w' event source slots number,
    event_intent_name event = Ok (PStr "CancelBooking") ->
    getitem event "invocationSource" = Ok source ->
    event_slots event = Ok slots ->
    interpreted_value slots "BookingNumber" = Ok (PStr number) ->
    ascii_only number = true ->
    dialog_delegates w event ->
    isalnum number = true /\ 6 <= len number <= 8
    /\ closes_with (FulfillmentHook.lambda_handler w' event) "Fulfilled"
         (FulfillmentHook.cancelled_message w' (PStr number) "389.97").
Proof.
  intros w w' event source slots number Hn Hs Hslots Hv _ (resp & Hr & Ht).
  destruct (event_name_intent _ _ Hn) as [intent Hi].
  rewrite (cancel_dialog_steps w event source slots number Hn Hs Hslots Hv)
    in Hr.
  destruct (isalnum number) eqn:Ea; cbn [negb orb] in Hr.
  2:{ rewrite and_then_returns in Hr.
      destruct (elicit_is_no_delegate _ _ _ _ Hr Ht). }
  destruct (Z.ltb_spec (len number) 6) as [Hlo|Hlo]; cbn [orb] in Hr.
  { rewrite and_then_returns in Hr.
    destruct (elicit_is_no_delegate _ _ _ _ Hr Ht). }
  destruct (Z.ltb_spec 8 (len number)) as [Hhi|Hhi].
  { rewrite and_then_returns in Hr.
    destruct (elicit_is_no_delegate _ _ _ _ Hr Ht). }
  split; [reflexivity|]. split; [lia|].
  destruct (isalnum_nonempty _ Ea) as (c & r & ->).
  rewrite verify_booking_exists_string in Hr. cbn [bind] in Hr.
  destruct (starts_with_a_or_b (String c r)) eqn:Es; cbn [negb] in Hr.
  2:{ rewrite and_then_returns in Hr.
      destruct (elicit_is_no_delegate _ _ _ _ Hr Ht). }
  rewrite (cancel_steps w' event slots (String c r) Hn Hslots Hv), Es.
  apply (hook_close_fulfilled_ok event intent _ _ Hi).
Qed.

Lemma delegated_cancellation_is_fulfilled_witness :
  isalnum "b1234567" = true /\ 6 <= len "b1234567" <= 8
  /\ closes_with
       (FulfillmentHook.lambda_handler unlucky_world (cancel_event "b1234567"))
       "Fulfilled"
       (FulfillmentHook.cancelled_message unlucky_world (PStr "b1234567")
          "389.97").
Proof.
  apply (delegated_cancellation_is_fulfilled example_world unlucky_world
           (cancel_event "b1234567") (PStr "DialogCodeHook")
           (PDict [("BookingNumber", filled_slot "b1234567")]) "b1234567"
           eq_refl eq_refl eq_refl eq_refl eq_refl).
  eexists. split; [vm_compute; reflexivity | reflexivity].
Defined.

(** ** What a fulfilled booking leaves in the session *)

Lemma hook_booking_steps :
  forall w event slots room_type check_in nights_value nights nights_float
         attrs,
    event_intent_name event = Ok (PStr "BookRoom") ->
    event_slots event = Ok slots ->
    interpreted_value slots "RoomType" = Ok (PStr room_type) ->
    interpreted_value slots "CheckInDate" = Ok check_in ->
    interpreted_value slots "Nights" = Ok nights_value ->
    py_int nights_value = Ok nights ->
    float_of_int nights = Ok nights_float ->
    float_ltb (random_random w) (float_lit 98 100) = true ->
    get event "sessionAttributes" (PDict []) = Ok (PDict attrs) ->
    let total := float_mul (price_per_night (lower room_type)) nights_float in
    FulfillmentHook.lambda_handler w event
    = FulfillmentHook.close_fulfilled event
        (FulfillmentHook.booked_message w (PStr room_type)
           (format_date_for_display w check_in) nights total
           (generate_booking_number w))
        (PDict (dict_set "lastBookingTotal" (PStr (py_str w (PFloat total)))
                  (dict_set "lastBookingNumber"
                     (PStr (generate_booking_number w)) attrs))).
Proof.
  intros w event slots room_type check_in nights_value nights nights_float
    attrs Hname Hslots Hroom Hdate Hnights Hint Hfloat Hsuccess Hattrs total.
  destruct (event_name_intent _ _ Hname) as [intent Hi].
  rewrite (proj1 (hook_routes w event) Hname).
  unfold FulfillmentHook.fulfill_book_room.
  rewrite Hslots. cbn [bind]. rewrite Hroom, Hdate, Hnights. cbn [bind].
  rewrite Hint. cbn [bind py_lower].
  unfold float_mul_int. rewrite Hfloat. cbn [bind].
  unfold FulfillmentHook.create_booking. rewrite Hsuccess.
  cbn [getitem assoc String.eqb Ascii.eqb Bool.eqb andb bind truthy].
  rewrite Hattrs. cbn [bind setitem].
  match goal with
  | |- try_except (FulfillmentHook.close_fulfilled _ ?m ?a) _ = _ =>
      destruct (hook_close_fulfilled_ok event intent m a Hi)
        as (resp & Hr & _)
  end.
  unfold total. rewrite Hr. reflexivity.
Qed.

Lemma dict_set_truthy : forall k x d, truthy (PDict (dict_set k x d)) = true.
Proof.
  intros k x [|[k' v] d]; cbn [dict_set truthy]; [reflexivity|].
  destruct (String.eqb k k'); reflexivity.
Qed.

Lemma hook_close_fulfilled_attributes : forall event message attrs resp,
  truthy attrs = true ->
  FulfillmentHook.close_fulfilled event message attrs = Ok resp ->
  session_attributes_of resp = Ok attrs.
Proof.
  intros event message attrs resp Ht H.
  unfold FulfillmentHook.close_fulfilled in H.
  destruct (event_intent event) as [intent|e]; [|discriminate].
  cbn [bind] in H.
  destruct (setitem intent "state" (PStr "Fulfilled")) as [intent'|e];
    [|discriminate].
  cbn [bind] in H. rewrite Ht in H. injection H as <-. reflexivity.
Qed.

(** X14.  The session attributes of a booking.  When the integration
    handler books a room (the three slots are usable and the mock
    booking succeeds), the session attributes of its answer are the
    top-level [sessionAttributes] mapping of the event, an empty one
    when the event has none, with [lastBookingNumber] set to the
    confirmation number and [lastBookingTotal] to the total as a string;
    every other attribute is carried over unchanged. *)
Theorem booking_session_attributes :
  forall w event slots room_type check_in nights_value nights nights_float
         attrs,
    event_intent_name event = Ok (PStr "BookRoom") ->
    event_slots event = Ok slots ->
    interpreted_value slots "RoomType" = Ok (PStr room_type) ->
    interpreted_value slots "CheckInDate" = Ok check_in ->
    interpreted_value slots "Nights" = Ok nights_value ->
    py_int nights_value = Ok nights ->
    float_of_int nights = Ok nights_float ->
    float_ltb (random_random w) (float_lit 98 100) = true ->
    get event "sessionAttributes" (PDict []) = Ok (PDict attrs) ->
    let total := float_mul (price_per_night (lower room_type)) nights_float in
    exists resp attrs',
      FulfillmentHook.lambda_handler w event = Ok resp
      /\ session_attributes_of resp = Ok (PDict attrs')
      /\ assoc "lastBookingNumber" attrs'
         = Some (PStr (generate_booking_number w))
      /\ assoc "lastBookingTotal" attrs'
         = Some (PStr (py_str w (PFloat total)))
      /\ forall k,
           k <> "lastBookingNumber" -> k <> "lastBookingTotal" ->
           assoc k attrs' = assoc k attrs.
Proof.
  intros w event slots room_type check_in nights_value nights nights_float
    attrs Hname Hslots Hroom Hdate Hnights Hint Hfloat Hsuccess Hattrs total.
  destruct (event_name_intent _ _ Hname) as [intent Hi].
  pose proof (hook_booking_steps w event slots room_type check_in
                nights_value nights nights_float attrs Hname Hslots Hroom
                Hdate Hnights Hint Hfloat Hsuccess Hattrs) as Hsteps.
  cbv zeta in Hsteps. fold total in Hsteps.
  match type of Hsteps with
  | _ = FulfillmentHook.close_fulfilled _ ?m ?a =>
      destruct (hook_close_fulfilled_ok event intent m a Hi)
        as (resp & Hr & _)
  end.
  exists resp. eexists. split; [rewrite Hsteps; exact Hr|].
  split.
  { apply (hook_close_fulfilled_attributes _ _ _ _ (dict_set_truthy _ _ _) Hr). }
  split; [|split].
  - rewrite assoc_dict_set_other by reflexivity. apply assoc_dict_set_same.
  - apply assoc_dict_set_same.
  - intros k H1 H2.
    rewrite !assoc_dict_set_other; [reflexivity| |];
      apply String.eqb_neq; assumption.
Qed.

Lemma booking_session_attributes_witness :
  exists resp attrs',
    FulfillmentHook.lambda_handler example_world double_for_three_nights
    = Ok resp
    /\ session_attributes_of resp = Ok (PDict attrs')
    /\ assoc "lastBookingNumber" attrs'
       = Some (PStr (generate_booking_number example_world))
    /\ assoc "lastBookingTotal" attrs'
       = Some (PStr (py_str example_world (PFloat example_total)))
    /\ forall k,
         k <> "lastBookingNumber" -> k <> "lastBookingTotal" ->
         assoc k attrs' = assoc k [].
Proof.
  apply (booking_session_attributes example_world double_for_three_nights
           (PDict (full_slots "double" "2025-07-01" "3"))
           "double" (PStr "2025-07-01") (PStr "3") 3 (float_of_Z 3) []
           eq_refl eq_refl eq_refl eq_refl eq_refl eq_refl eq_refl
           eq_refl eq_refl).
Defined.

Lemma add_booking_number_slots : forall intent d number,
  number <> "" ->
  assoc "slots" intent = Some (PDict d) ->
  exists intent' d',
    BookingFulfillment.add_booking_number (PDict intent) number
    = Ok (PDict intent')
    /\ assoc "slots" intent' = Some (PDict d')
    /\ (forall k, k <> "BookingNumber" -> assoc k d' = assoc k d)
    /\ (assoc "BookingNumber" d = None \/ assoc "BookingNumber" d = Some PNone ->
        assoc "BookingNumber" d'
        = Some (BookingFulfillment.booking_number_slot number))
    /\ (forall v, assoc "BookingNumber" d = Some v -> v <> PNone ->
        assoc "BookingNumber" d' = Some v).
Proof.
  intros intent d number Hne Hs.
  assert (Hadded :
    exists intent' d',
      Ok (PDict (dict_set "slots"
                   (PDict (dict_set "BookingNumber"
                             (BookingFulfillment.booking_number_slot number) d))
                   intent))
      = Ok (PDict intent')
      /\ assoc "slots" intent' = Some (PDict d')
      /\ (forall k, k <> "BookingNumber" -> assoc k d' = assoc k d)
      /\ assoc "BookingNumber" d'
         = Some (BookingFulfillment.booking_number_slot number)).
  { eexists. eexists. split; [reflexivity|].
    split; [apply assoc_dict_set_same|].
    split; [|apply assoc_dict_set_same].
    intros k Hk. apply assoc_dict_set_other. apply String.eqb_neq. exact Hk. }
  unfold BookingFulfillment.add_booking_number.
  apply String.eqb_neq in Hne. rewrite Hne.
  cbn [negb py_in bind getitem]. rewrite Hs. cbn [bind py_in getitem].
  destruct (assoc "BookingNumber" d) as [current|] eqn:E; cbn [negb bind].
  - destruct current; cbn [setitem bind];
      try (exists intent, d; split; [reflexivity|]; split; [exact Hs|];
           split; [reflexivity|];
           split; [intros [H|H]; discriminate|];
           intros v Hv _; rewrite E; exact Hv).
    destruct Hadded as (intent' & d' & Hr & Hs' & Hk & Hb).
    exists intent', d'. split; [exact Hr|]. split; [exact Hs'|].
    split; [exact Hk|]. split; [intros _; exact Hb|].
    intros v Hv Hnone. congruence.
  - cbn [setitem bind].
    destruct Hadded as (intent' & d' & Hr & Hs' & Hk & Hb).
    exists intent', d'. split; [exact Hr|]. split; [exact Hs'|].
    split; [exact Hk|]. split; [intros _; exact Hb|].
    intros v Hv. discriminate.
Qed.

Lemma simple_booking_steps :
  forall w event slots room_type check_in nights_value nights nights_float,
    event_intent_name event = Ok (PStr "BookRoom") ->
    event_slots event = Ok slots ->
    interpreted_value slots "RoomType" = Ok (PStr room_type) ->
    interpreted_value slots "CheckInDate" = Ok check_in ->
    interpreted_value slots "Nights" = Ok nights_value ->
    py_int nights_value = Ok nights ->
    float_of_int nights = Ok nights_float ->
    let total := float_mul (price_per_night (lower room_type)) nights_float in
    BookingFulfillment.lambda_handler w event
    = BookingFulfillment.close_fulfilled event
        (BookingFulfillment.booked_message w (PStr room_type)
           (format_date_for_display w check_in) nights total
           (generate_booking_number w))
        (PDict [("lastBookingNumber", PStr (generate_booking_number w));
                ("lastBookingTotal", PStr (py_str w (PFloat total)))])
        (generate_booking_number w).
Proof.
  intros w event slots room_type check_in nights_value nights nights_float
    Hname Hslots Hroom Hdate Hnights Hint Hfloat total.
  destruct (event_slots_dict _ _ _ _ Hslots Hroom) as (intent & d & Hi & _ & Hd).
  rewrite (simple_route w event Hname).
  unfold BookingFulfillment.fulfill_booking.
  rewrite Hslots. cbn [bind]. rewrite Hroom, Hdate, Hnights. cbn [bind].
  rewrite Hint. cbn [bind py_lower].
  unfold float_mul_int. rewrite Hfloat. cbn [bind].
  match goal with
  | |- try_except (BookingFulfillment.close_fulfilled _ ?m ?a ?n) _ = _ =>
      destruct (simple_close_fulfilled_ok event intent d m a n Hi Hd)
        as (resp & Hr & _)
  end.
  unfold total. rewrite Hr. reflexivity.
Qed.

(** X15.  What the simple handler writes back.  When the simple handler
    books a room, the slots of its answer are the slots of the event,
    except that a BookingNumber slot holding the confirmation number is
    added when the event has none or a null one; a BookingNumber slot
    that is already there, whatever it holds, is kept.  The session
    attributes of the answer are exactly [lastBookingNumber] and
    [lastBookingTotal]: attributes of the event are not carried over. *)
Theorem simple_booking_writes_back :
  forall w event d room_type check_in nights_value nights nights_float,
    event_intent_name event = Ok (PStr "BookRoom") ->
    event_slots event = Ok (PDict d) ->
    interpreted_value (PDict d) "RoomType" = Ok (PStr room_type) ->
    interpreted_value (PDict d) "CheckInDate" = Ok check_in ->
    interpreted_value (PDict d) "Nights" = Ok nights_value ->
    py_int nights_value = Ok nights ->
    float_of_int nights = Ok nights_float ->
    let total := float_mul (price_per_night (lower room_type)) nights_float in
    exists resp d',
      BookingFulfillment.lambda_handler w event = Ok resp
      /\ response_slots resp = Ok (PDict d')
      /\ (forall k, k <> "BookingNumber" -> assoc k d' = assoc k d)
      /\ (assoc "BookingNumber" d = None
          \/ assoc "BookingNumber" d = Some PNone ->
          assoc "BookingNumber" d'
          = Some (BookingFulfillment.booking_number_slot
                    (generate_booking_number w)))
      /\ (forall v, assoc "BookingNumber" d = Some v -> v <> PNone ->
          assoc "BookingNumber" d' = Some v)
      /\ session_attributes_of resp
         = Ok (PDict [("lastBookingNumber", PStr (generate_booking_number w));
                      ("lastBookingTotal", PStr (py_str w (PFloat total)))]).
Proof.
  intros w event d room_type check_in nights_value nights nights_float
    Hname Hslots Hroom Hdate Hnights Hint Hfloat total.
  destruct (event_slots_dict _ _ _ _ Hslots Hroom)
    as (intent & d0 & Hi & Heq & Hd).
  injection Heq as <-.
  rewrite (simple_booking_steps w event (PDict d) room_type check_in
             nights_value nights nights_float Hname Hslots Hroom Hdate
             Hnights Hint Hfloat).
  fold total. unfold BookingFulfillment.close_fulfilled.
  rewrite Hi. cbn [bind setitem].
  destruct (add_booking_number_slots
              (dict_set "state" (PStr "Fulfilled") intent) d
              (generate_booking_number w)) as (intent' & d' & -> & Hs' & Hk & Hb & Hv).
  { intros H. discriminate H. }
  { rewrite assoc_dict_set_other by reflexivity. exact Hd. }
  cbn [bind truthy]. eexists. exists d'. split; [reflexivity|].
  split.
  { unfold response_slots, event_slots, event_intent.
    cbn [getitem assoc String.eqb Ascii.eqb Bool.eqb andb bind dict_set].
    rewrite Hs'. reflexivity. }
  split; [exact Hk|]. split; [exact Hb|]. split; [exact Hv|].
  reflexivity.
Qed.

Lemma simple_booking_writes_back_witness :
  exists resp d',
    BookingFulfillment.lambda_handler example_world double_for_three_nights
    = Ok resp
    /\ response_slots resp = Ok (PDict d')
    /\ (forall k, k <> "BookingNumber" ->
        assoc k d' = assoc k (full_slots "double" "2025-07-01" "3"))
    /\ assoc "BookingNumber" d'
       = Some (BookingFulfillment.booking_number_slot
                 (generate_booking_number example_world))
    /\ session_attributes_of resp
       = Ok (PDict [("lastBookingNumber",
                     PStr (generate_booking_number example_world));
                    ("lastBookingTotal",
                     PStr (py_str example_world (PFloat example_total)))]).
Proof.
  destruct (simple_booking_writes_back example_world double_for_three_nights
              (full_slots "double" "2025-07-01" "3")
              "double" (PStr "2025-07-01") (PStr "3") 3 (float_of_Z 3)
              eq_refl eq_refl eq_refl eq_refl eq_refl eq_refl eq_refl)
    as (resp & d' & Hr & Hs & Hk & Hb & _ & Ha).
  exists resp, d'. split; [exact Hr|]. split; [exact Hs|].
  split; [exact Hk|]. split; [apply Hb; left; reflexivity | exact Ha].
Defined.

(** ** The date shown, shown again *)

Lemma no_year_before_slash : forall a b r,
  match_year (String a (String b (String "/" r))) = None.
Proof.
  intros a b [|d r]; [reflexivity|]. cbn [match_year].
  replace (is_digit "/") with false by reflexivity.
  rewrite andb_false_r. reflexivity.
Qed.

Lemma strptime_rejects_display : forall pads d,
  valid_date d ->
  exists e, strptime_ymd (strftime_dmy pads d) = Raise e.
Proof.
  intros pads d (Hy & Hm & Hd).
  assert (Hd31 : day d <= 31).
  { unfold days_in_month in Hd.
    destruct (month d =? 2); [destruct (is_leap (year d)); lia|].
    destruct ((month d =? 4) || (month d =? 6) || (month d =? 9)
              || (month d =? 11)); lia. }
  unfold strftime_dmy. rewrite (zero_pad_two (day d)) by lia.
  unfold two_digits. cbn [append].
  unfold strptime_ymd, match_ymd. rewrite no_year_before_slash.
  eexists. reflexivity.
Qed.

(** X16.  Showing a date twice.  [format_date_for_display] changes
    nothing in a value it has produced: what it could not read it gave
    back as it was, and what it printed as day/month/year is no longer
    read as a year-month-day date. *)
Theorem format_date_for_display_idempotent :
  forall w v,
    format_date_for_display w (format_date_for_display w v)
    = format_date_for_display w v.
Proof.
  intros w v. unfold format_date_for_display at 2 3.
  destruct (py_strptime_ymd v) as [d|e] eqn:E.
  - destruct v; try discriminate. cbn [py_strptime_ymd] in E.
    destruct (strptime_rejects_display (strftime_pads_year w) d
                (strptime_valid _ _ E)) as [e He].
    unfold format_date_for_display. cbn [py_strptime_ymd].
    rewrite He. reflexivity.
  - unfold format_date_for_display. rewrite E. reflexivity.
Qed.

(** ** The total of a booking the dialog hook lets through *)

Lemma string_in_three : forall s a b c,
  string_in s [a; b; c] = true -> s = a \/ s = b \/ s = c.
Proof.
  intros s a b c H. cbn [string_in] in H.
  destruct (String.eqb_spec s a) as [->|_]; [tauto|].
  destruct (String.eqb_spec s b) as [->|_]; [tauto|].
  destruct (String.eqb_spec s c) as [->|_]; [tauto|].
  discriminate.
Qed.

(** X17.  The total that is shown is exact.  For every booking the
    validators of the dialog hook let through, a room type that
    lower-cases to single, double or suite and 1 to 30 nights, the
    product of the binary floating-point price and the number of nights
    exists and, printed with two decimals, is exactly the number of
    nights times the price in pence: no rounding error is ever shown. *)
Theorem validated_total_is_exact :
  forall room_type nights,
    string_in (lower room_type) ["single"; "double"; "suite"] = true ->
    1 <= nights <= 30 ->
    exists total,
      float_mul_int (price_per_night (lower room_type)) nights = Ok total
      /\ format_2f total
         = pounds_and_pence (pence_per_night (lower room_type) * nights).
Proof.
  intros room_type nights Hr Hn.
  assert (H : prints_exact_total (lower room_type) nights = true).
  { destruct (string_in_three _ _ _ _ Hr) as [-> | [-> | ->]].
    - apply (forall_below (prints_exact_total "single") 31);
        [vm_compute; reflexivity | lia].
    - apply (forall_below (prints_exact_total "double") 31);
        [vm_compute; reflexivity | lia].
    - apply (forall_below (prints_exact_total "suite") 31);
        [vm_compute; reflexivity | lia]. }
  unfold prints_exact_total in H.
  destruct (float_mul_int (price_per_night (lower room_type)) nights)
    as [total|e]; [|discriminate].
  exists total. split; [reflexivity|]. apply String.eqb_eq. exact H.
Qed.

Lemma validated_total_is_exact_witness :
  exists total,
    float_mul_int (price_per_night (lower "Suite")) 7 = Ok total
    /\ format_2f total = pounds_and_pence (pence_per_night (lower "Suite") * 7).
Proof.
  apply (validated_total_is_exact "Suite" 7); [reflexivity | lia].
Defined.

(** ** api.py: every answer of the handler *)

Lemma request_http_dict : forall event http,
  Api.request_http event = Ok http -> exists d, event = PDict d.
Proof.
  intros event http H. unfold Api.request_http in H.
  apply bind_ok in H. destruct H as (rc & H & _).
  apply (get_ok_dict _ _ _ _ H).
Qed.

Ltac api_answer :=
  eexists; eexists;
  split; [reflexivity|]; split; [reflexivity|];
  split; [cbn [In]; tauto | reflexivity].

Ltac api_caught e :=
  cbn [try_except dispatch]; destruct (isinstance e JSONDecodeError);
  api_answer.

(** X18.  The API handler always answers.  For every event that is a
    mapping whose [requestContext], if any, is a mapping, the handler
    returns a response and raises nothing; the status is 200, 400, 404
    or 500, and every response carries the same four CORS headers. *)
Theorem api_always_answers :
  forall w event http,
    Api.request_http event = Ok http ->
    exists resp code,
      Api.handler w event = Ok resp
      /\ status_code_of resp = Some code
      /\ In code [200; 400; 404; 500]
      /\ getitem resp "headers" = Ok cors_headers.
Proof.
  intros w event http Hh.
  destruct (request_http_dict _ _ Hh) as [d ->].
  unfold Api.handler. rewrite Hh. cbn [bind].
  destruct (Api.request_method (PDict d)) as [m|e]; cbn [bind];
    [|api_caught e].
  destruct (get_dict_total d "rawPath" (PStr "/")) as [p ->].
  destruct (get_dict_total d "queryStringParameters" (PDict [])) as [q ->].
  destruct (get_dict_total d "headers" (PDict [])) as [h ->].
  destruct (get_dict_total d "body" (PStr "")) as [b ->].
  cbn [bind].
  unfold Api.handle_root, Api.handle_health, Api.handle_post_data.
  destruct (eq_str p "/" && eq_str m "GET").
  { destruct (utc_timestamp w Api.imports) as [t|e]; cbn [bind];
      [api_answer | api_caught e]. }
  destruct (eq_str p "/health" && eq_str m "GET").
  { destruct (utc_timestamp w Api.imports) as [t|e]; cbn [bind];
      [api_answer | api_caught e]. }
  destruct (eq_str p "/api/data" && eq_str m "POST"); [|api_answer].
  destruct (if truthy b then py_json_loads w b else Ok (PDict []))
    as [data|e]; cbn [bind]; [|api_caught e].
  destruct (utc_timestamp w Api.imports) as [t|e]; cbn [bind];
    [api_answer | api_caught e].
Qed.

Lemma api_always_answers_witness :
  exists resp code,
    Api.handler example_world (http_event "DELETE" "/api/data" PNone) = Ok resp
    /\ status_code_of resp = Some code
    /\ In code [200; 400; 404; 500]
    /\ getitem resp "headers" = Ok cors_headers.
Proof.
  apply (api_always_answers example_world
           (http_event "DELETE" "/api/data" PNone)
           (PDict [("method", PStr "DELETE")]) eq_refl).
Defined.

Lemma api_post_steps : forall w d m p b,
  Api.request_method (PDict d) = Ok m ->
  get (PDict d) "rawPath" (PStr "/") = Ok p ->
  get (PDict d) "body" (PStr "") = Ok b ->
  eq_str p "/api/data" = true ->
  eq_str m "POST" = true ->
  Api.handler w (PDict d)
  = try_except
      (request_data <-
         (if truthy b then py_json_loads w b else Ok (PDict [])) ;;
       response_body <- Api.handle_post_data w request_data ;;
       Ok (Api.create_response w 200 response_body))
      [(JSONDecodeError, fun _ =>
          Ok (Api.create_response w 400
                (PDict [("error", PStr "Invalid JSON in request body")])));
       (Exception, fun e =>
          Ok (Api.create_response w 500
                (PDict [("error", PStr "Internal server error");
                        ("message", PStr (exn_msg e))])))].
Proof.
  intros w d m p b Hm Hp Hb Ep Em.
  unfold Api.handler.
  pose proof Hm as Hm'. unfold Api.request_method in Hm'.
  destruct (Api.request_http (PDict d)) as [http|e]; [|discriminate].
  cbn [bind]. rewrite Hm. cbn [bind]. rewrite Hp. cbn [bind].
  destruct (get_dict_total d "queryStringParameters" (PDict [])) as [q ->].
  destruct (get_dict_total d "headers" (PDict [])) as [h ->].
  rewrite Hb. cbn [bind].
  destruct p; try discriminate. destruct m; try discriminate.
  cbn [eq_str] in Ep, Em. apply String.eqb_eq in Ep, Em. subst.
  reflexivity.
Qed.

(** X19.  The body of POST /api/data.  An absent, empty or otherwise
    false body is not parsed: the request is answered as if the body
    were the empty object.  A body on which [json.loads] raises a
    [JSONDecodeError] is answered with status 400 and the invalid-JSON
    body; a true body that is no string makes [json.loads] raise a
    [TypeError], which is answered with status 500. *)
Theorem api_post_body :
  forall w d m p b,
    Api.request_method (PDict d) = Ok m ->
    get (PDict d) "rawPath" (PStr "/") = Ok p ->
    get (PDict d) "body" (PStr "") = Ok b ->
    eq_str p "/api/data" = true ->
    eq_str m "POST" = true ->
    (forall body, truthy b = false ->
       Api.handle_post_data w (PDict []) = Ok body ->
       Api.handler w (PDict d) = Ok (Api.create_response w 200 body))
    /\ (forall e, truthy b = true -> py_json_loads w b = Raise e ->
          exn_class e = JSONDecodeError ->
          exists resp,
            Api.handler w (PDict d) = Ok resp
            /\ status_code_of resp = Some 400
            /\ body_of resp = Some (invalid_json_body w))
    /\ (truthy b = true -> (forall s, b <> PStr s) ->
          exists resp,
            Api.handler w (PDict d) = Ok resp
            /\ status_code_of resp = Some 500
            /\ body_of resp
               = Some (api_error_body w
                         ("the JSON object must be str, bytes or bytearray, not "
                            ++ type_name b))).
Proof.
  intros w d m p b Hm Hp Hb Ep Em.
  rewrite (api_post_steps w d m p b Hm Hp Hb Ep Em).
  split; [|split].
  - intros body Ht Hbody. rewrite Ht. cbn [bind]. rewrite Hbody. reflexivity.
  - intros [c msg] Ht He Hc. cbn [exn_class] in Hc. subst c.
    rewrite Ht, He. eexists. split; [reflexivity|]. split; reflexivity.
  - intros Ht Hs. rewrite Ht.
    destruct b; try (eexists; split; [reflexivity|]; split; reflexivity).
    destruct (Hs s eq_refl).
Qed.

Lemma api_post_body_witness :
  Api.handler example_world (http_event "POST" "/api/data" PNone)
  = Ok (Api.create_response example_world 200
          (PDict [("message", PStr "Data received and processed");
                  ("timestamp", PStr (isoformat_utc (now_utc example_world)));
                  ("received_data", PDict []);
                  ("processed", PBool true)]))
  /\ (exists resp,
        Api.handler example_world
          (http_event "POST" "/api/data" (PStr "{oops")) = Ok resp
        /\ status_code_of resp = Some 400
        /\ body_of resp = Some (invalid_json_body example_world))
  /\ exists resp,
       Api.handler example_world
         (http_event "POST" "/api/data" (PDict [("a", PInt 1)])) = Ok resp
       /\ status_code_of resp = Some 500
       /\ body_of resp
          = Some (api_error_body example_world
                    "the JSON object must be str, bytes or bytearray, not dict").
Proof.
  split; [|split].
  - apply (proj1 (api_post_body example_world
                    [("requestContext",
                      PDict [("http", PDict [("method", PStr "POST")])]);
                     ("rawPath", PStr "/api/data"); ("body", PNone)]
                    (PStr "POST") (PStr "/api/data") PNone
                    eq_refl eq_refl eq_refl eq_refl eq_refl));
      reflexivity.
  - apply (proj1 (proj2 (api_post_body example_world
                    [("requestContext",
                      PDict [("http", PDict [("method", PStr "POST")])]);
                     ("rawPath", PStr "/api/data"); ("body", PStr "{oops")]
                    (PStr "POST") (PStr "/api/data") (PStr "{oops")
                    eq_refl eq_refl eq_refl eq_refl eq_refl))
             (mk_exn JSONDecodeError
                "Expecting value: line 1 column 1 (char 0)"));
      reflexivity.
  - apply (proj2 (proj2 (api_post_body example_world
                    [("requestContext",
                      PDict [("http", PDict [("method", PStr "POST")])]);
                     ("rawPath", PStr "/api/data");
                     ("body", PDict [("a", PInt 1)])]
                    (PStr "POST") (PStr "/api/data") (PDict [("a", PInt 1)])
                    eq_refl eq_refl eq_refl eq_refl eq_refl)));
      [reflexivity | discriminate].
Defined.

Lemma api_pytz_unbound : forall w,
  importable w "requests" = false \/ importable w "pytz" = false ->
  utc_timestamp w Api.imports = name_error "pytz".
Proof.
  intros w H. unfold utc_timestamp, Api.imports.
  cbn [bound_after String.eqb Ascii.eqb Bool.eqb andb orb].
  destruct H as [-> | ->]; [reflexivity|].
  destruct (importable w "requests"); reflexivity.
Qed.

(** X20.  The API without its layer.  The two imports of the module
    stand in one [try] block, so when [requests] or [pytz] cannot be
    imported the name [pytz] stays unbound: GET / and GET /health are
    then answered with status 500, and the body carries the
    [NameError] text. *)
Theorem api_without_layer :
  forall w d m p,
    Api.request_method (PDict d) = Ok m ->
    get (PDict d) "rawPath" (PStr "/") = Ok p ->
    eq_str m "GET" = true ->
    eq_str p "/" = true \/ eq_str p "/health" = true ->
    importable w "requests" = false \/ importable w "pytz" = false ->
    exists resp,
      Api.handler w (PDict d) = Ok resp
      /\ status_code_of resp = Some 500
      /\ body_of resp = Some (api_error_body w pytz_unbound_message).
Proof.
  intros w d m p Hm Hp Em Ep Himp.
  unfold Api.handler.
  pose proof Hm as Hm'. unfold Api.request_method in Hm'.
  destruct (Api.request_http (PDict d)) as [http|e]; [|discriminate].
  cbn [bind]. rewrite Hm. cbn [bind]. rewrite Hp. cbn [bind].
  destruct (get_dict_total d "queryStringParameters" (PDict [])) as [q ->].
  destruct (get_dict_total d "headers" (PDict [])) as [h ->].
  destruct (get_dict_total d "body" (PStr "")) as [b ->].
  cbn [bind]. rewrite Em.
  unfold Api.handle_root, Api.handle_health.
  rewrite (api_pytz_unbound w Himp).
  destruct Ep as [Ep|Ep]; rewrite Ep; cbn [andb].
  - eexists. split; [reflexivity|]. split; reflexivity.
  - destruct (eq_str p "/");
      eexists; (split; [reflexivity|]); split; reflexivity.
Qed.

Lemma api_without_layer_witness :
  exists resp,
    Api.handler world_without_requests (http_event "GET" "/health" PNone)
    = Ok resp
    /\ status_code_of resp = Some 500
    /\ body_of resp
       = Some (api_error_body world_without_requests pytz_unbound_message).
Proof.
  apply (api_without_layer world_without_requests
           [("requestContext",
             PDict [("http", PDict [("method", PStr "GET")])]);
            ("rawPath", PStr "/health"); ("body", PNone)]
           (PStr "GET") (PStr "/health") eq_refl eq_refl eq_refl).
  - right. reflexivity.
  - left. reflexivity.
Defined.

(** ** app.py: every answer of the handler *)

Ltac app_caught :=
  eexists; split; [reflexivity|]; right; eexists; split; reflexivity.

(** X21.  The layer handler always answers.  Whatever the event, the
    context and the world, the handler returns a response and raises
    nothing: either with status 200, or with status 500 and a compact
    JSON body that carries the text of the exception. *)
Theorem app_always_answers :
  forall w event context,
    exists resp,
      App.handler w event context = Ok resp
      /\ (status_code_of resp = Some 200
          \/ exists message,
               status_code_of resp = Some 500
               /\ body_of resp = Some (app_error_body w message)).
Proof.
  intros w event context. unfold App.handler.
  destruct (get event "action" (PStr "process")) as [action|e]; cbn [bind];
    [|app_caught].
  destruct (get event "data" (PDict [])) as [data|e]; cbn [bind];
    [|app_caught].
  destruct (if eq_str action "process" then Ok (App.process_data w data)
            else if eq_str action "fetch"
            then url <- get event "url" (PStr "https://httpbin.org/json") ;;
                 App.fetch_data w url
            else Ok (PDict [("message",
                             PStr ("Unknown action: " ++ py_str w action))]))
    as [result|e]; cbn [bind]; [|app_caught].
  destruct (utc_timestamp w App.imports) as [t|e]; cbn [bind]; [|app_caught].
  destruct (App.attribute context (App.function_name context) "function_name")
    as [name|e]; cbn [bind]; [|app_caught].
  destruct (App.attribute context (App.request_id context) "request_id")
    as [request|e]; cbn [bind]; [|app_caught].
  match goal with
  | |- context [setitem ?r ?k ?v] =>
      destruct (setitem r k v) as [result'|e]; cbn [bind]; [|app_caught]
  end.
  eexists. split; [reflexivity|]. left. reflexivity.
Qed.

Lemma app_local_steps : forall w d context action,
  get (PDict d) "action" (PStr "process") = Ok action ->
  eq_str action "fetch" = false ->
  exists result,
    App.handler w (PDict d) context
    = try_except
        (timestamp <- utc_timestamp w App.imports ;;
         name <- App.attribute context (App.function_name context)
                   "function_name" ;;
         request <- App.attribute context (App.request_id context)
                      "request_id" ;;
         Ok (PDict
               [("statusCode", PInt 200);
                ("body",
                 PStr (dumps_indent2 w
                         (PDict
                            (dict_set "metadata"
                               (PDict
                                  [("timestamp", timestamp);
                                   ("environment",
                                    PStr (environ_get w "ENVIRONMENT" "unknown"));
                                   ("layer_version",
                                    PStr (environ_get w "LAYER_VERSION" "unknown"));
                                   ("function_name", name);
                                   ("request_id", request)])
                               result))))]))
        [(Exception, fun e =>
            Ok (PDict [("statusCode", PInt 500);
                       ("body", PStr (app_error_body w (exn_msg e)))]))].
Proof.
  intros w d context action Ha Ef. unfold App.handler.
  rewrite Ha. cbn [bind].
  destruct (get_dict_total d "data" (PDict [])) as [data ->]. cbn [bind].
  rewrite Ef.
  destruct (eq_str action "process"); cbn [bind App.process_data setitem];
    eexists; reflexivity.
Qed.

(** X22.  What a request without a fetch needs.  For an event that is a
    mapping and whose action is not [fetch] (the default [process], or
    an unknown action), the handler answers 200 exactly when the name
    [pytz] is bound and the context object has both [function_name] and
    [request_id], and 500 otherwise.  The outcome of the S3 call plays
    no part. *)
Theorem app_local_action_status :
  forall w d context action,
    get (PDict d) "action" (PStr "process") = Ok action ->
    eq_str action "fetch" = false ->
    exists resp,
      App.handler w (PDict d) context = Ok resp
      /\ (status_code_of resp = Some 200 \/ status_code_of resp = Some 500)
      /\ (status_code_of resp = Some 200 <->
            bound_after w App.imports "pytz" = true
            /\ App.function_name context <> None
            /\ App.request_id context <> None).
Proof.
  intros w d context action Ha Ef.
  destruct (app_local_steps w d context action Ha Ef) as [result ->].
  unfold utc_timestamp.
  destruct (bound_after w App.imports "pytz"); cbn [bind].
  2:{ eexists. split; [reflexivity|]. split; [right; reflexivity|].
      split; [discriminate | intros (H & _); discriminate]. }
  destruct (App.function_name context) as [name|]; cbn [App.attribute bind].
  2:{ eexists. split; [reflexivity|]. split; [right; reflexivity|].
      split; [discriminate | intros (_ & H & _); congruence]. }
  destruct (App.request_id context) as [request|]; cbn [App.attribute bind].
  2:{ eexists. split; [reflexivity|]. split; [right; reflexivity|].
      split; [discriminate | intros (_ & _ & H); congruence]. }
  eexists. split; [reflexivity|]. split; [left; reflexivity|].
  split; [intros _ | reflexivity].
  split; [reflexivity|]. split; discriminate.
Qed.

Lemma app_local_action_status_witness :
  exists resp,
    App.handler world_without_s3 (PDict [("action", PStr "refresh")])
      example_context = Ok resp
    /\ (status_code_of resp = Some 200 \/ status_code_of resp = Some 500)
    /\ (status_code_of resp = Some 200 <->
          bound_after world_without_s3 App.imports "pytz" = true
          /\ App.function_name example_context <> None
          /\ App.request_id example_context <> None).
Proof.
  apply (app_local_action_status world_without_s3
           [("action", PStr "refresh")] example_context (PStr "refresh")
           eq_refl eq_refl).
Defined.

Lemma len_from_nonneg : forall s pending, 0 <= len_from s pending.
Proof.
  induction s as [|c s IH]; intros pending; cbn [len_from]; [lia|].
  destruct pending as [|k]; [|apply IH].
  pose proof (IH (continuation_bytes c)). lia.
Qed.

Lemma py_len_nonneg : forall v n, py_len v = Ok n -> 0 <= n.
Proof.
  intros v n H. destruct v; cbn [py_len] in H; try discriminate;
    injection H as <-; [apply len_from_nonneg | lia | lia].
Qed.

(** X23.  Counting the buckets.  [process_data] never fails on S3: the
    count it reports is never negative; it is 0 when [boto3] is unbound,
    when the S3 call raises, and when the answer has no [Buckets] key;
    and it is the number of entries when [Buckets] is a list. *)
Theorem bucket_count_cases :
  forall w,
    0 <= App.bucket_count w
    /\ (bound_after w App.imports "boto3" = false -> App.bucket_count w = 0)
    /\ (forall e, s3_list_buckets w = Raise e -> App.bucket_count w = 0)
    /\ (forall b, s3_list_buckets w = Ok (PDict b) ->
        assoc "Buckets" b = None -> App.bucket_count w = 0)
    /\ (forall b l,
          bound_after w App.imports "boto3" = true ->
          s3_list_buckets w = Ok (PDict b) ->
          assoc "Buckets" b = Some (PList l) ->
          App.bucket_count w = Z.of_nat (List.length l)).
Proof.
  intros w. unfold App.bucket_count.
  destruct (bound_after w App.imports "boto3").
  2:{ cbn. repeat split; intros; try reflexivity; try lia; discriminate. }
  split.
  { destruct (s3_list_buckets w) as [buckets|e]; cbn [bind]; [|lia].
    destruct (get buckets "Buckets" (PList [])) as [listed|e]; cbn [bind];
      [|lia].
    destruct (py_len listed) as [n|e] eqn:E; [|lia].
    apply (py_len_nonneg _ _ E). }
  split; [intros H; discriminate|].
  split; [intros e ->; reflexivity|].
  split.
  - intros b -> Hb. cbn [bind get]. rewrite Hb. reflexivity.
  - intros b l _ -> Hb. cbn [bind get]. rewrite Hb. reflexivity.
Qed.

Lemma bucket_count_cases_witness :
  App.bucket_count example_world = Z.of_nat (List.length (@nil pyval))
  /\ App.bucket_count world_without_s3 = 0.
Proof.
  split.
  - apply (proj2 (proj2 (proj2 (proj2 (bucket_count_cases example_world))))
             [("Buckets", PList [])] [] eq_refl eq_refl eq_refl).
  - apply (proj1 (proj2 (proj2 (bucket_count_cases world_without_s3)))
             (mk_exn Exception "Unable to locate credentials") eq_refl).
Defined.

Lemma app_fetch_steps : forall w d context url,
  assoc "action" d = Some (PStr "fetch") ->
  get (PDict d) "url" (PStr "https://httpbin.org/json") = Ok url ->
  forall e, App.fetch_data w url = Raise e ->
  App.handler w (PDict d) context
  = Ok (PDict [("statusCode", PInt 500);
               ("body", PStr (app_error_body w (exn_msg e)))]).
Proof.
  intros w d context url Ha Hu e He. unfold App.handler.
  cbn [get]. rewrite Ha. cbn [bind].
  destruct (assoc "data" d); cbn [bind eq_str String.eqb Ascii.eqb Bool.eqb];
    cbn [get] in Hu; rewrite Hu; cbn [bind]; rewrite He; reflexivity.
Qed.

(** X24.  A fetch that fails.  For the action [fetch] with [requests]
    bound: when [requests.get] raises, when [raise_for_status] raises,
    or when the answer announces JSON and [response.json()] raises, the
    exception leaves [fetch_data], and the handler answers with status
    500 and a body that carries the text of that exception. *)
Theorem app_fetch_failure :
  forall w d context url e,
    assoc "action" d = Some (PStr "fetch") ->
    get (PDict d) "url" (PStr "https://httpbin.org/json") = Ok url ->
    bound_after w App.imports "requests" = true ->
    requests_get w url = Raise e
    \/ (exists r, requests_get w url = Ok r /\ raise_for_status r = Raise e)
    \/ (exists r t,
          requests_get w url = Ok r /\ raise_for_status r = Ok tt
          /\ content_type r = Some t /\ prefix "application/json" t = true
          /\ response_json r = Raise e) ->
    App.fetch_data w url = Raise e
    /\ exists resp,
         App.handler w (PDict d) context = Ok resp
         /\ status_code_of resp = Some 500
         /\ body_of resp = Some (app_error_body w (exn_msg e)).
Proof.
  intros w d context url e Ha Hu Hb Hcause.
  assert (Hf : App.fetch_data w url = Raise e).
  { unfold App.fetch_data. rewrite Hb.
    destruct Hcause as [-> | [(r & -> & Hr) | (r & t & -> & Hr & Ht & Hp & Hj)]].
    - reflexivity.
    - cbn [bind]. rewrite Hr. reflexivity.
    - cbn [bind]. rewrite Hr. cbn [bind]. rewrite Ht, Hp, Hj. reflexivity. }
  split; [exact Hf|].
  rewrite (app_fetch_steps w d context url Ha Hu e Hf).
  eexists. split; [reflexivity|]. split; reflexivity.
Qed.

Lemma app_fetch_failure_witness :
  App.fetch_data example_world (PStr "https://httpbin.org/json")
  = raise RequestException "connection refused"
  /\ exists resp,
       App.handler example_world (PDict [("action", PStr "fetch")])
         example_context = Ok resp
       /\ status_code_of resp = Some 500
       /\ body_of resp
          = Some (app_error_body example_world "connection refused").
Proof.
  apply (app_fetch_failure example_world [("action", PStr "fetch")]
           example_context (PStr "https://httpbin.org/json")
           (mk_exn RequestException "connection refused")
           eq_refl eq_refl eq_refl).
  left. reflexivity.
Defined.

Lemma app_pytz_unbound : forall w m,
  In m App.imports -> importable w m = false ->
  bound_after w App.imports "pytz" = false.
Proof.
  intros w m Hin Hm. unfold App.imports in *.
  cbn [bound_after String.eqb Ascii.eqb Bool.eqb andb orb].
  cbn [In] in Hin.
  destruct Hin as [<- | [<- | [<- | [<- | []]]]]; rewrite Hm;
    repeat match goal with
           | |- context [importable w ?n] => destruct (importable w n)
           end; reflexivity.
Qed.

(** X25.  The layer handler without its layer.  The four imports of the
    module stand in one [try] block and [pytz] is the last of them, so
    when any of [requests], [boto3], [dateutil] and [pytz] cannot be
    imported the name [pytz] stays unbound: every request without a
    fetch is then answered with status 500 and the [NameError] text,
    although [process_data] itself has absorbed the missing [boto3]. *)
Theorem app_without_layer :
  forall w d context action m,
    get (PDict d) "action" (PStr "process") = Ok action ->
    eq_str action "fetch" = false ->
    In m App.imports ->
    importable w m = false ->
    exists resp,
      App.handler w (PDict d) context = Ok resp
      /\ status_code_of resp = Some 500
      /\ body_of resp = Some (app_error_body w pytz_unbound_message).
Proof.
  intros w d context action m Ha Ef Hin Hm.
  destruct (app_local_steps w d context action Ha Ef) as [result ->].
  unfold utc_timestamp. rewrite (app_pytz_unbound w m Hin Hm).
  eexists. split; [reflexivity|]. split; reflexivity.
Qed.

Lemma app_without_layer_witness :
  exists resp,
    App.handler world_without_requests (PDict []) example_context = Ok resp
    /\ status_code_of resp = Some 500
    /\ body_of resp
       = Some (app_error_body world_without_requests pytz_unbound_message).
Proof.
  apply (app_without_layer world_without_requests [] example_context
           (PStr "process") "requests" eq_refl eq_refl).
  - left. reflexivity.
  - reflexivity.
Defined.

(** ** The text that [fetch_data] keeps *)

Lemma len_take_from : forall s n pending,
  len_from (take_from s n pending) pending <= Z.of_nat n.
Proof.
  induction s as [|c s IH]; intros n pending; cbn [take_from].
  - destruct pending; cbn [len_from]; lia.
  - destruct pending as [|k].
    + destruct n as [|n']; cbn [len_from]; [lia|].
      pose proof (IH n' (continuation_bytes c)). lia.
    + cbn [len_from]. apply IH.
Qed.

Lemma prefix_take_from : forall s n pending,
  prefix (take_from s n pending) s = true.
Proof.
  induction s as [|c s IH]; intros n pending; cbn [take_from].
  - reflexivity.
  - destruct pending as [|k].
    + destruct n as [|n']; [reflexivity|].
      cbn [prefix]. destruct (ascii_dec c c); [apply IH | congruence].
    + cbn [prefix]. destruct (ascii_dec c c); [apply IH | congruence].
Qed.

Lemma take_from_short : forall s n pending,
  len_from s pending <= Z.of_nat n -> take_from s n pending = s.
Proof.
  induction s as [|c s IH]; intros n pending H; cbn [take_from];
    [reflexivity|].
  cbn [len_from] in H. destruct pending as [|k].
  - pose proof (len_from_nonneg s (continuation_bytes c)).
    destruct n as [|n']; [lia|].
    rewrite IH; [reflexivity | lia].
  - rewrite IH; [reflexivity | exact H].
Qed.

(** X26.  The text that is kept.  When [fetch_data] receives an answer
    that passes [raise_for_status] and does not announce JSON (no
    content type, or one that does not start with application/json), the
    data it returns is the beginning of the text of the answer, at most
    100 characters long, and the whole text when that has at most 100
    characters. *)
Theorem fetched_text_is_cut :
  forall w url r,
    bound_after w App.imports "requests" = true ->
    requests_get w url = Ok r ->
    raise_for_status r = Ok tt ->
    content_type r = None
    \/ (exists t, content_type r = Some t
                  /\ prefix "application/json" t = false) ->
    exists text,
      App.fetch_data w url
      = Ok (PDict [("message", PStr "Data fetched successfully");
                   ("url", url);
                   ("status_code", status_code r);
                   ("data", PStr text)])
      /\ len text <= 100
      /\ prefix text (response_text r) = true
      /\ (len (response_text r) <= 100 -> text = response_text r).
Proof.
  intros w url r Hb Hg Hs Hc.
  exists (take 100 (response_text r)).
  split.
  { unfold App.fetch_data. rewrite Hb, Hg. cbn [bind]. rewrite Hs. cbn [bind].
    destruct Hc as [-> | (t & -> & ->)]; reflexivity. }
  split; [apply (len_take_from _ 100 0)|].
  split; [apply prefix_take_from|].
  intros H. apply take_from_short. exact H.
Qed.

Lemma fetched_text_is_cut_witness :
  exists text,
    App.fetch_data world_with_page (PStr "https://example.org/")
    = Ok (PDict [("message", PStr "Data fetched successfully");
                 ("url", PStr "https://example.org/");
                 ("status_code", PInt 200);
                 ("data", PStr text)])
    /\ len text <= 100
    /\ prefix text (response_text page_response) = true
    /\ (len (response_text page_response) <= 100 ->
        text = response_text page_response).
Proof.
  apply (fetched_text_is_cut world_with_page (PStr "https://example.org/")
           page_response eq_refl eq_refl eq_refl).
  right. eexists. split; reflexivity.
Defined.

(** ** The fulfillment handlers always close the dialog *)

Lemma closes_with_closes : forall r state message,
  closes_with r state message ->
  state = "Fulfilled" \/ state = "Failed" ->
  closes r.
Proof.
  intros r state message (resp & Hr & Ht & Hs & _) Hstate.
  exists resp. split; [exact Hr|]. split; [exact Ht|].
  destruct Hstate as [-> | ->]; [left | right]; exact Hs.
Qed.

Lemma close_failed_closes : forall event intent message,
  event_intent event = Ok (PDict intent) ->
  closes (close_failed event message).
Proof.
  intros event intent message Hi.
  apply (closes_with_closes _ "Failed" message);
    [apply (close_failed_ok event intent _ Hi) | right; reflexivity].
Qed.

Lemma caught_closes : forall event intent e m1 m2,
  event_intent event = Ok (PDict intent) ->
  closes (try_except (Raise e)
            [(KeyError, fun _ => close_failed event m1);
             (Exception, fun _ => close_failed event m2)]).
Proof.
  intros event intent e m1 m2 Hi. cbn [try_except dispatch].
  destruct (isinstance e KeyError);
    apply (close_failed_closes event intent _ Hi).
Qed.

Lemma returned_closes : forall r clauses,
  closes r -> closes (try_except r clauses).
Proof.
  intros r clauses (resp & -> & H). exists resp. split; [reflexivity | exact H].
Qed.

Ltac step_or_caught Hi :=
  match goal with
  | |- closes (try_except (bind ?m _) _) =>
      let e := fresh "e" in
      destruct m as [?|e] eqn:?; cbn [bind];
      [|apply (caught_closes _ _ e _ _ Hi)]
  end.

(** X27.  The fulfillment handlers always close the dialog.  As soon as
    the event names its intent, both fulfillment handlers return a Close
    response whose intent is Fulfilled or Failed, and raise nothing:
    whatever the slots hold, whatever the mock backend draws. *)
Theorem fulfillment_always_closes :
  forall w event name,
    event_intent_name event = Ok name ->
    closes (FulfillmentHook.lambda_handler w event)
    /\ closes (BookingFulfillment.lambda_handler w event).
Proof.
  intros w event name Hn.
  destruct (event_name_intent _ _ Hn) as [intent Hi].
  split.
  - unfold FulfillmentHook.lambda_handler. rewrite Hn. cbn [bind].
    destruct (eq_str name "BookRoom").
    { unfold FulfillmentHook.fulfill_book_room.
      do 7 step_or_caught Hi.
      unfold FulfillmentHook.create_booking.
      cbn [getitem assoc String.eqb Ascii.eqb Bool.eqb andb bind truthy].
      destruct (float_ltb (random_random w) (float_lit 98 100)).
      - do 3 step_or_caught Hi.
        apply returned_closes.
        apply (closes_with_closes _ "Fulfilled" _
                 (hook_close_fulfilled_ok event intent _ _ Hi)).
        left. reflexivity.
      - apply returned_closes. apply (close_failed_closes event intent _ Hi). }
    destruct (eq_str name "CancelBooking");
      [|apply (close_failed_closes event intent _ Hi)].
    unfold FulfillmentHook.fulfill_cancel_booking.
    do 3 step_or_caught Hi.
    destruct (negb (truthy _)).
    { apply returned_closes. apply (close_failed_closes event intent _ Hi). }
    unfold FulfillmentHook.cancel_booking.
    cbn [getitem assoc String.eqb Ascii.eqb Bool.eqb andb bind truthy].
    do 2 step_or_caught Hi.
    apply returned_closes.
    apply (closes_with_closes _ "Fulfilled" _
             (hook_close_fulfilled_ok event intent _ _ Hi)).
    left. reflexivity.
  - unfold BookingFulfillment.lambda_handler. rewrite Hn. cbn [bind].
    destruct (eq_str name "BookRoom");
      [|apply (close_failed_closes event intent _ Hi)].
    unfold BookingFulfillment.fulfill_booking.
    step_or_caught Hi. step_or_caught Hi.
    match goal with
    | Hs : event_slots event = Ok ?slots,
      Hv : interpreted_value ?slots "RoomType" = Ok ?v |- _ =>
        destruct (event_slots_dict _ _ _ _ Hs Hv)
          as (intent0 & d & Hi0 & _ & Hd)
    end.
    rewrite Hi in Hi0. injection Hi0 as <-.
    do 5 step_or_caught Hi.
    apply returned_closes.
    apply (closes_with_closes _ "Fulfilled" _
             (simple_close_fulfilled_ok event intent d _ _ _ Hi Hd)).
    left. reflexivity.
Qed.

Lemma fulfillment_always_closes_witness :
  closes (FulfillmentHook.lambda_handler unlucky_world
            (lex_event "BookRoom" [("RoomType", PList [])]))
  /\ closes (BookingFulfillment.lambda_handler unlucky_world
               (lex_event "BookRoom" [("RoomType", PList [])])).
Proof.
  apply (fulfillment_always_closes unlucky_world
           (lex_event "BookRoom" [("RoomType", PList [])]) (PStr "BookRoom")
           eq_refl).
Defined.

(** ** What the dialog hook reads of an event *)

(** X28.  The dialog hook reads the intent only.  Two events with the
    same [sessionState.intent] that both carry an [invocationSource] get
    the same answer in the same world, whatever else they hold (session
    attributes, transcript, the value of [invocationSource]).  The key
    [invocationSource] must be there all the same: for an event without
    it the hook raises the [KeyError] of that lookup. *)
Theorem dialog_reads_intent_only :
  forall w event1 event2 source1 name,
    event_intent event1 = event_intent event2 ->
    event_intent_name event1 = Ok name ->
    getitem event1 "invocationSource" = Ok source1 ->
    (forall source2,
       getitem event2 "invocationSource" = Ok source2 ->
       DialogHook.lambda_handler w event1 = DialogHook.lambda_handler w event2)
    /\ (forall e,
          getitem event2 "invocationSource" = Raise e ->
          DialogHook.lambda_handler w event2 = Raise e).
Proof.
  intros w event1 event2 source1 name Hi Hn H1.
  assert (Hn2 : event_intent_name event2 = Ok name).
  { unfold event_intent_name in *. rewrite <- Hi. exact Hn. }
  split.
  - intros source2 H2.
    unfold DialogHook.lambda_handler,
      DialogHook.handle_book_room_dialog,
      DialogHook.handle_cancel_booking_dialog,
      DialogHook.handle_check_availability_dialog,
      DialogHook.validate_room_type, DialogHook.validate_check_in_date,
      DialogHook.validate_nights, DialogHook.check_availability,
      DialogHook.delegate, DialogHook.elicit_slot, DialogHook.close,
      event_slots.
    rewrite Hn, Hn2, H1, H2, Hi. reflexivity.
  - intros e H2. unfold DialogHook.lambda_handler. rewrite Hn2, H2.
    reflexivity.
Qed.

Lemma dialog_reads_intent_only_witness :
  DialogHook.lambda_handler example_world (book_room_event "penthouse" "2025-07-01")
  = DialogHook.lambda_handler example_world
      (PDict [("inputTranscript", PStr "a penthouse please");
              ("invocationSource", PStr "FulfillmentCodeHook");
              ("sessionState",
               PDict [("sessionAttributes", PDict [("visits", PStr "3")]);
                      ("intent",
                       PDict [("name", PStr "BookRoom");
                              ("slots",
                               PDict [("RoomType", filled_slot "penthouse");
                                      ("CheckInDate",
                                       filled_slot "2025-07-01")])])])])
  /\ DialogHook.lambda_handler example_world
       (PDict [("sessionState",
                PDict [("intent",
                        PDict [("name", PStr "BookRoom");
                               ("slots",
                                PDict [("RoomType", filled_slot "penthouse");
                                       ("CheckInDate",
                                        filled_slot "2025-07-01")])])])])
     = raise KeyError "'invocationSource'".
Proof.
  split.
  - apply (proj1 (dialog_reads_intent_only example_world
                    (book_room_event "penthouse" "2025-07-01")
                    (PDict [("inputTranscript", PStr "a penthouse please");
                            ("invocationSource", PStr "FulfillmentCodeHook");
                            ("sessionState",
                             PDict [("sessionAttributes",
                                     PDict [("visits", PStr "3")]);
                                    ("intent",
                                     PDict [("name", PStr "BookRoom");
                                            ("slots",
                                             PDict [("RoomType",
                                                     filled_slot "penthouse");
                                                    ("CheckInDate",
                                                     filled_slot "2025-07-01")])])])])
                    (PStr "DialogCodeHook") (PStr "BookRoom")
                    eq_refl eq_refl eq_refl)
             (PStr "FulfillmentCodeHook") eq_refl).
  - apply (proj2 (dialog_reads_intent_only example_world
                    (book_room_event "penthouse" "2025-07-01")
                    (PDict [("sessionState",
                             PDict [("intent",
                                     PDict [("name", PStr "BookRoom");
                                            ("slots",
                                             PDict [("RoomType",
                                                     filled_slot "penthouse");
                                                    ("CheckInDate",
                                                     filled_slot "2025-07-01")])])])])
                    (PStr "DialogCodeHook") (PStr "BookRoom")
                    eq_refl eq_refl eq_refl)
             (mk_exn KeyError "'invocationSource'") eq_refl).
Defined.
